(** * Security-Cammera: the presence-event pipeline

    A shallow embedding of the agent's Python code:
    - [event_handler.py]: [ClipWriter] and [EventHandler] (the presence
      state machine, the event-fire procedure, shutdown);
    - [notifier.py]: the Telegram notification sink;
    - [main.py]: [open_camera], one iteration of the capture loop (frame
      skipping, pause, keyboard control) and [main] around the loop;
    - [display.py]: [FPSCounter];
    - [config.py]: the constants these read.

    Python floats are binary64 and are modelled by Rocq's primitive floats;
    Python ints are unbounded and are modelled by [Z].  Exceptions are
    explicit: a call returns an [outcome] together with the state it leaves
    behind, because a Python exception does not undo earlier assignments. *)

From Stdlib Require Import ZArith List String Ascii Bool Lia Floats.
Import ListNotations.

Local Open Scope Z_scope.

(* ====================================================================== *)
(** * Part I: definitions *)
(* ====================================================================== *)

(** ** Python values used by the code *)

Module Py.

Inductive exn : Type :=
| ValueError
| OverflowError
| ZeroDivisionError
| TypeError
| KeyboardInterrupt
| SystemExit (code : Z).      (* raised by [sys.exit(code)] *)

Inductive outcome (A : Type) : Type :=
| Returned (a : A)
| Raised (e : exn).

Arguments Returned {A} a.
Arguments Raised {A} e.

Definition bind {A B : Type} (o : outcome A) (k : A -> outcome B) : outcome B :=
  match o with
  | Returned a => k a
  | Raised e => Raised e
  end.

(** A Python number as the constants of [config.py] can hold one: an
    [int] literal ([CLIP_FPS = 20]) or a [float] literal
    ([EVENT_COOLDOWN_SECONDS = 10.0]). *)
Inductive number : Type :=
| Int (z : Z)
| Float (f : float).

(** [float(z)] for an int [z]: the nearest binary64 value, ties to even;
    [OverflowError] when the int is too large for a finite float. *)
Definition float_of_int (z : Z) : outcome float :=
  let f := SF2Prim (binary_normalize prec emax z 0 false) in
  if PrimFloat.is_infinity f then Raised OverflowError else Returned f.

(** [a * b]: int times int stays an int, anything else is a float
    product after converting the int operand. *)
Definition mul (a b : number) : outcome number :=
  match a, b with
  | Int x, Int y => Returned (Int (x * y))
  | Int x, Float g => bind (float_of_int x) (fun f => Returned (Float (PrimFloat.mul f g)))
  | Float f, Int y => bind (float_of_int y) (fun g => Returned (Float (PrimFloat.mul f g)))
  | Float f, Float g => Returned (Float (PrimFloat.mul f g))
  end.

Definition cond_neg (s : bool) (z : Z) : Z := if s then - z else z.

(** [int(x)]: identity on ints, truncation toward zero on floats;
    [ValueError] on NaN and [OverflowError] on an infinity. *)
Definition int (x : number) : outcome Z :=
  match x with
  | Int z => Returned z
  | Float f =>
      match Prim2SF f with
      | S754_nan => Raised ValueError
      | S754_infinity _ => Raised OverflowError
      | S754_zero _ => Returned 0
      | S754_finite s m e => Returned (cond_neg s (Z.shiftl (Zpos m) e))
      end
  end.

(** The magnitude [m * 2^e] rounded to the nearest integer, ties to the
    even one. *)
Definition round_half_even (m : positive) (e : Z) : Z :=
  if 0 <=? e then Z.shiftl (Zpos m) e
  else
    let k := - e in
    let q := Z.shiftr (Zpos m) k in
    let r := Zpos m - Z.shiftl q k in
    match Z.compare (2 * r) (Z.shiftl 1 k) with
    | Lt => q
    | Gt => q + 1
    | Eq => if Z.even q then q else q + 1
    end.

(** [round(x)] with one argument: identity on ints, nearest integer with
    ties to even on floats; it raises as [int] does. *)
Definition round (x : number) : outcome Z :=
  match x with
  | Int z => Returned z
  | Float f =>
      match Prim2SF f with
      | S754_nan => Raised ValueError
      | S754_infinity _ => Raised OverflowError
      | S754_zero _ => Returned 0
      | S754_finite s m e => Returned (cond_neg s (round_half_even m e))
      end
  end.

(** [len(l)] *)
Definition len {A : Type} (l : list A) : Z := Z.of_nat (List.length l).

(** [a % b] on ints: the result has the sign of [b]; division by zero
    raises. *)
Definition mod_ (a b : Z) : outcome Z :=
  if b =? 0 then Raised ZeroDivisionError else Returned (a mod b).

(** [bool(s)] for a string: false exactly for the empty string. *)
Definition truthy (s : string) : bool :=
  match s with
  | EmptyString => false
  | String _ _ => true
  end.

End Py.

Import Py.

(** ** Data model *)

(** An OpenCV BGR image: [shape] is [(height, width)] as [frame.shape[:2]]
    gives it, [pixels] stands for the array's contents. *)
Record Frame : Type := mkFrame {
  shape : Z * Z;
  pixels : list Z
}.

(** [detector.Detection], a namedtuple. *)
Record Detection : Type := mkDetection {
  x1 : Z;
  y1 : Z;
  x2 : Z;
  y2 : Z;
  confidence : float
}.

(** The constants of [config.py] that the modelled code reads.
    [CONFIDENCE_THRESH] is the one constant [main] reassigns while running;
    it lives in the [World] instead.  [ABSENCE_GRACE_SECONDS] is the class
    attribute of [EventHandler] (2.0 in the source). *)
Record Config : Type := mkConfig {
  FRAME_SKIP : Z;
  EVENT_COOLDOWN_SECONDS : float;
  SNAPSHOTS_DIR : string;
  CLIPS_DIR : string;
  SAVE_SNAPSHOTS : bool;
  SAVE_CLIPS : bool;
  CLIP_DURATION_S : number;
  CLIP_CODEC : string;
  CLIP_FPS : number;
  ABSENCE_GRACE_SECONDS : float;
  (* notifier.py reads these two from the environment at import time *)
  _BOT_TOKEN : string;
  _CHAT_ID : string
}.

(** The values shipped in [config.py], with no Telegram credentials set. *)
Definition default_config : Config := {|
  FRAME_SKIP := 1;
  EVENT_COOLDOWN_SECONDS := 10.0;
  SNAPSHOTS_DIR := "outputs/snapshots";
  CLIPS_DIR := "outputs/clips";
  SAVE_SNAPSHOTS := true;
  SAVE_CLIPS := true;
  CLIP_DURATION_S := Int 8;
  CLIP_CODEC := "mp4v";
  CLIP_FPS := Int 20;
  ABSENCE_GRACE_SECONDS := 2.0;
  _BOT_TOKEN := EmptyString;
  _CHAT_ID := EmptyString
|}.

(** [os.path.join(dir, name)] for a relative [name] and a non-empty [dir]
    without a trailing separator. *)
Definition path_join (dir name : string) : string :=
  (dir ++ "/" ++ name)%string.

(** [s.replace(old, new)] for a one-character [old]. *)
Fixpoint str_replace (old : ascii) (new : string) (s : string) : string :=
  match s with
  | EmptyString => EmptyString
  | String c rest =>
      if Ascii.eqb c old then (new ++ str_replace old new rest)%string
      else String c (str_replace old new rest)
  end.

(** The caption of an alert.  The source formats it as Markdown text with
    each confidence printed as a percentage; the model keeps the three
    values the text is built from. *)
Record Caption : Type := mkCaption {
  cap_timestamp : string;
  cap_count : Z;
  cap_confidences : list float
}.

Inductive Message : Type :=
| MsgAlert (c : Caption)       (* the caption sent as text *)
| MsgSessionStart              (* "Security camera started ..." *)
| MsgSessionEnd.               (* "Security camera stopped." *)

(** A started daemon thread: its target and arguments. *)
Inductive Thread : Type :=
| Thread_send_photo_bytes (jpeg_bytes : list Z) (caption : Caption)
| Thread_send_text (message : Message).

(** One record of the logger "security_cam" (file and console handlers
    receive the same records). *)
Inductive Level : Type := INFO | WARNING.

Inductive LogMessage : Type :=
| LogClipSaved (filepath : string)              (* "Clip saved -> ..." *)
| LogPersonLeft                                 (* "Person left the frame ..." *)
| LogClipFinalisedOnShutdown (filepath : string)
| LogSessionEnded                               (* "Security camera session ended." *)
| LogPersonDetected (count : Z) (confs : list float)  (* "PERSON DETECTED | ..." *)
| LogSnapshotSaved (path : string)
| LogRecordingClip (duration : number) (path : string)
| LogManualSnapshotSaved (path : string)
| LogTelegramNotConfigured.                     (* "[Telegram] Not configured ..." *)

Record LogRecord : Type := mkLogRecord {
  levelname : Level;
  message : LogMessage
}.

(** A [cv2.VideoWriter]: what it was opened with, the frames written to it
    so far, and whether [release()] has been called. *)
Record VideoWriter : Type := mkVideoWriter {
  vw_filename : string;
  vw_fourcc : string;
  vw_fps : number;
  vw_frame_size : Z * Z;
  vw_frames : list Frame;
  vw_released : bool
}.

(** Everything outside the Python objects that the code acts on. *)
Record World : Type := mkWorld {
  writers : list VideoWriter;          (* every VideoWriter created, oldest first *)
  images : list (string * Frame);      (* cv2.imwrite calls *)
  log : list LogRecord;                (* log records, oldest first *)
  threads : list Thread;               (* threads started, oldest first *)
  inferences : list Frame;             (* frames given to the model *)
  CONFIDENCE_THRESH : float            (* config.CONFIDENCE_THRESH *)
}.

Definition empty_world : World := {|
  writers := [];
  images := [];
  log := [];
  threads := [];
  inferences := [];
  CONFIDENCE_THRESH := 0x1.ccccccccccccdp-2   (* 0.45 *)
|}.

Definition set_writers (ws : list VideoWriter) (w : World) : World :=
  mkWorld ws (images w) (log w) (threads w) (inferences w) (CONFIDENCE_THRESH w).

Definition add_image (path : string) (frame : Frame) (w : World) : World :=
  mkWorld (writers w) (images w ++ [(path, frame)]) (log w) (threads w)
          (inferences w) (CONFIDENCE_THRESH w).

Definition add_log (r : LogRecord) (w : World) : World :=
  mkWorld (writers w) (images w) (log w ++ [r]) (threads w)
          (inferences w) (CONFIDENCE_THRESH w).

Definition start_thread (t : Thread) (w : World) : World :=
  mkWorld (writers w) (images w) (log w) (threads w ++ [t])
          (inferences w) (CONFIDENCE_THRESH w).

Definition add_inference (frame : Frame) (w : World) : World :=
  mkWorld (writers w) (images w) (log w) (threads w)
          (inferences w ++ [frame]) (CONFIDENCE_THRESH w).

Definition set_CONFIDENCE_THRESH (c : float) (w : World) : World :=
  mkWorld (writers w) (images w) (log w) (threads w) (inferences w) c.

(** [logger.info(msg)] and [logger.warning(msg)] *)
Definition logger_info (m : LogMessage) : World -> World := add_log (mkLogRecord INFO m).
Definition logger_warning (m : LogMessage) : World -> World := add_log (mkLogRecord WARNING m).

(** Replace the element at position [i]; nothing happens out of range. *)
Fixpoint list_update {A : Type} (i : nat) (f : A -> A) (l : list A) : list A :=
  match l, i with
  | [], _ => []
  | x :: rest, O => f x :: rest
  | x :: rest, S j => x :: list_update j f rest
  end.

(** [cv2.VideoWriter_fourcc] called on the unpacked string [codec]: the
    star unpacks the string into one argument per character, and the
    function takes exactly four, so any other length raises [TypeError].  The code it returns is kept as the
    four characters it packs. *)
Definition VideoWriter_fourcc (codec : string) : outcome string :=
  if Nat.eqb (String.length codec) 4 then Returned codec else Raised TypeError.

(** [cv2.VideoWriter(filename, fourcc, fps, frame_size)]: a new writer; the
    handle is its position in [writers]. *)
Definition VideoWriter_new (filename fourcc : string) (fps : number)
    (frame_size : Z * Z) (w : World) : nat * World :=
  (List.length (writers w),
   set_writers (writers w ++ [mkVideoWriter filename fourcc fps frame_size [] false]) w).

(** [writer.write(frame)]; OpenCV ignores a write to a released writer. *)
Definition VideoWriter_write (h : nat) (frame : Frame) (w : World) : World :=
  set_writers
    (list_update h (fun v => if vw_released v then v
                             else mkVideoWriter (vw_filename v) (vw_fourcc v) (vw_fps v)
                                    (vw_frame_size v) (vw_frames v ++ [frame]) false)
                 (writers w)) w.

(** [writer.release()] *)
Definition VideoWriter_release (h : nat) (w : World) : World :=
  set_writers
    (list_update h (fun v => mkVideoWriter (vw_filename v) (vw_fourcc v) (vw_fps v)
                               (vw_frame_size v) (vw_frames v) true)
                 (writers w)) w.

(** ** notifier.py *)

Module notifier.
Section Notifier.

Variable cfg : Config.
(** [cv2.imencode(".jpg", frame, ...)]: [Some buf] when [ok]. *)
Variable imencode : Frame -> option (list Z).

(** Return True if both token and chat ID are set. *)
Definition _is_configured : bool :=
  truthy (if truthy (_BOT_TOKEN cfg) then _CHAT_ID cfg else _BOT_TOKEN cfg).

Definition send_alert (frame : option Frame) (detections : list Detection)
    (timestamp_iso : string) (w : World) : World :=
  if negb _is_configured then
    logger_warning LogTelegramNotConfigured w
  else
    let n := len detections in
    let confs := map confidence detections in
    let caption := mkCaption timestamp_iso n confs in
    let text_only := start_thread (Thread_send_text (MsgAlert caption)) w in
    match frame with
    | Some fr =>
        match imencode fr with
        | Some buf => start_thread (Thread_send_photo_bytes buf caption) w
        | None => text_only
        end
    | None => text_only
    end.

Definition send_session_start (w : World) : World :=
  if negb _is_configured then w
  else start_thread (Thread_send_text MsgSessionStart) w.

Definition send_session_end (w : World) : World :=
  if negb _is_configured then w
  else start_thread (Thread_send_text MsgSessionEnd) w.

End Notifier.
End notifier.

(** ** event_handler.py: ClipWriter *)

Module ClipWriter.

Record t : Type := mk {
  _writer : nat;          (* the cv2.VideoWriter it owns *)
  _max_frames : Z;
  _written : Z;
  _filepath : string
}.

(** An exception of [VideoWriter_fourcc] leaves before the video writer is
    created; one of [int] leaves after, with the writer created and not
    released. *)
Definition __init__ (cfg : Config) (filepath : string) (frame_size : Z * Z)
    (w : World) : outcome t * World :=
  match VideoWriter_fourcc (CLIP_CODEC cfg) with
  | Raised e => (Raised e, w)
  | Returned fourcc =>
      let '(writer, w) := VideoWriter_new filepath fourcc (CLIP_FPS cfg) frame_size w in
      match bind (mul (CLIP_DURATION_S cfg) (CLIP_FPS cfg)) int with
      | Returned max_frames => (Returned (mk writer max_frames 0 filepath), w)
      | Raised e => (Raised e, w)
      end
  end.

Definition is_finished (self : t) : bool :=
  _max_frames self <=? _written self.

(** Write one frame (only while clip is still open). *)
Definition write (self : t) (frame : Frame) (w : World) : t * World :=
  if negb (is_finished self) then
    let w := VideoWriter_write (_writer self) frame w in
    (mk (_writer self) (_max_frames self) (_written self + 1) (_filepath self), w)
  else (self, w).

Definition close (self : t) (w : World) : World :=
  VideoWriter_release (_writer self) w.

Definition filepath (self : t) : string := _filepath self.

End ClipWriter.

(** ** event_handler.py: EventHandler *)

Module EventHandler.
Section Handler.

Variable cfg : Config.
Variable imencode : Frame -> option (list Z).

Record t : Type := mk {
  _last_event_time : float;             (* monotonic time of last fired event *)
  _active_clip : option ClipWriter.t;   (* current clip writer, or None *)
  _person_present : bool;               (* True while someone is in the frame *)
  _last_seen_time : float               (* last time a person was detected *)
}.

Definition set_last_event_time (x : float) (self : t) : t :=
  mk x (_active_clip self) (_person_present self) (_last_seen_time self).
Definition set_active_clip (c : option ClipWriter.t) (self : t) : t :=
  mk (_last_event_time self) c (_person_present self) (_last_seen_time self).
Definition set_person_present (b : bool) (self : t) : t :=
  mk (_last_event_time self) (_active_clip self) b (_last_seen_time self).
Definition set_last_seen_time (x : float) (self : t) : t :=
  mk (_last_event_time self) (_active_clip self) (_person_present self) x.

(** The constructor: creates the output directories and the logger (not
    modelled), sets the four fields and announces the session. *)
Definition __init__ (w : World) : t * World :=
  let self := mk 0.0 None false 0.0 in
  (self, notifier.send_session_start cfg w).

(** Called once per debounce window when a person is first detected.
    [iso_ts] is the wall-clock reading
    [datetime.now(timezone.utc).strftime("%Y-%m-%dT%H-%M-%SZ")]. *)
Definition _fire_event (frame : Frame) (detections : list Detection)
    (timestamp : float) (iso_ts : string) (self : t) (w : World)
    : outcome unit * t * World :=
  let n_people := len detections in
  (* Log *)
  let confs := map confidence detections in
  let w := logger_info (LogPersonDetected n_people confs) w in
  (* Snapshot *)
  let w :=
    if SAVE_SNAPSHOTS cfg then
      let snap_path :=
        path_join (SNAPSHOTS_DIR cfg) ("snapshot_" ++ iso_ts ++ ".jpg")%string in
      let w := add_image snap_path frame w in
      logger_info (LogSnapshotSaved snap_path) w
    else w in
  (* Clip *)
  let '(raised, self, w) :=
    match SAVE_CLIPS cfg, _active_clip self with
    | true, None =>
        let clip_path :=
          path_join (CLIPS_DIR cfg) ("clip_" ++ iso_ts ++ ".mp4")%string in
        let '(h, wd) := shape frame in
        match ClipWriter.__init__ cfg clip_path (wd, h) w with
        | (Returned clip, w) =>
            let self := set_active_clip (Some clip) self in
            (* write the trigger frame first *)
            let '(clip, w) := ClipWriter.write clip frame w in
            let self := set_active_clip (Some clip) self in
            let w := logger_info (LogRecordingClip (CLIP_DURATION_S cfg) clip_path) w in
            (None, self, w)
        | (Raised e, w) => (Some e, self, w)
        end
    | _, _ => (None, self, w)
    end in
  match raised with
  | Some e => (Raised e, self, w)
  | None =>
      (* Telegram alert *)
      let w :=
        notifier.send_alert cfg imencode (Some frame) detections
          (str_replace "Z" " UTC" (str_replace "T" " " iso_ts)) w in
      (Returned tt, self, w)
  end.

(** Process this frame's detections.  [now] is the reading of
    [time.monotonic()] the call starts with; [iso_ts] the wall-clock
    reading [_fire_event] takes when it runs. *)
Definition handle (now : float) (iso_ts : string) (frame : Frame)
    (detections : list Detection) (self : t) (w : World)
    : outcome bool * t * World :=
  let n_ppl := len detections in
  (* Keep active clip fed regardless of anything else *)
  let '(self, w) :=
    match _active_clip self with
    | Some clip =>
        let '(clip, w) := ClipWriter.write clip frame w in
        let self := set_active_clip (Some clip) self in
        if ClipWriter.is_finished clip then
          let w := logger_info (LogClipSaved (ClipWriter.filepath clip)) w in
          let w := ClipWriter.close clip w in
          (set_active_clip None self, w)
        else (self, w)
    | None => (self, w)
    end in
  (* Presence-state machine *)
  let '(raised, self, w) :=
    if 0 <? n_ppl then
      (* Someone is in the frame right now *)
      let self := set_last_seen_time now self in
      if negb (_person_present self) then
        (* NEW ARRIVAL: transition from empty -> occupied *)
        let cooldown_ok :=
          (EVENT_COOLDOWN_SECONDS cfg <=? now - _last_event_time self)%float in
        if cooldown_ok then
          let self := set_person_present true self in
          let self := set_last_event_time now self in
          match _fire_event frame detections now iso_ts self w with
          | (Returned _, self, w) => (None, self, w)
          | (Raised e, self, w) => (Some e, self, w)
          end
        else (None, self, w)
      else (None, self, w)
    else
      (* Frame is currently empty; check the absence grace period *)
      let absent_for := (now - _last_seen_time self)%float in
      if _person_present self && (ABSENCE_GRACE_SECONDS cfg <=? absent_for)%float then
        (* Person has truly left *)
        let self := set_person_present false self in
        let w := logger_info LogPersonLeft w in
        (None, self, w)
      else (None, self, w) in
  match raised with
  | Some e => (Raised e, self, w)
  | None =>
      (* Active = person visible OR clip still recording *)
      (Returned (_person_present self
                 || match _active_clip self with Some _ => true | None => false end),
       self, w)
  end.

(** Call on exit to flush and close any open clip writer. *)
Definition shutdown (self : t) (w : World) : t * World :=
  let '(self, w) :=
    match _active_clip self with
    | Some clip =>
        let w := ClipWriter.close clip w in
        let w := logger_info (LogClipFinalisedOnShutdown (ClipWriter.filepath clip)) w in
        (set_active_clip None self, w)
    | None => (self, w)
    end in
  let w := logger_info LogSessionEnded w in
  (self, notifier.send_session_end cfg w).

End Handler.
End EventHandler.

(** ** main.py: the capture loop *)

Module main.
Section Loop.

Variable cfg : Config.
Variable imencode : Frame -> option (list Z).
(** [PersonDetector.detect]: the model's answer for a frame under the
    confidence threshold in force. *)
Variable predict : float -> Frame -> list Detection.
(** The frame after [draw_detections], [draw_alert_banner], [draw_fps]
    and [draw_status] have painted on it. *)
Variable draw_overlays : Frame -> list Detection -> bool -> Frame.

Definition detect (frame : Frame) (w : World) : list Detection * World :=
  (predict (CONFIDENCE_THRESH w) frame, add_inference frame w).

(** The local variables of [main]. *)
Record locals : Type := mkLocals {
  event_handler : EventHandler.t;
  paused : bool;
  frame_count : Z;          (* Total frames read *)
  detections : list Detection;   (* Latest detection results *)
  alert_active : bool;
  conf_thresh : float
}.

(** What one pass of the [while True] body reads from outside:
    [cap.read()], the clocks, and [cv2.waitKey(1)]. *)
Record tick : Type := mkTick {
  cap_read : option Frame;  (* [Some frame] when [ret] is true *)
  now : float;              (* time.monotonic() inside handle *)
  iso_ts : string;          (* wall clock inside _fire_event *)
  wait_key : Z;             (* cv2.waitKey(1) *)
  snap_ts : string          (* wall clock inside save_manual_snapshot *)
}.

Inductive control : Type := Continue | Break.

Definition ord_q : Z := 113.
Definition ord_s : Z := 115.
Definition ord_space : Z := 32.
Definition ord_plus : Z := 43.
Definition ord_equals : Z := 61.
Definition ord_minus : Z := 45.

(** [min(a, b)] and [max(a, b)] on floats, as Python evaluates them. *)
Definition py_min (a b : float) : float := if (b <? a)%float then b else a.
Definition py_max (a b : float) : float := if (a <? b)%float then b else a.

(** Save a snapshot right now, triggered by the user pressing S. *)
Definition save_manual_snapshot (frame : Frame) (ts : string) (w : World) : World :=
  let path := path_join (SNAPSHOTS_DIR cfg) ("manual_" ++ ts ++ ".jpg")%string in
  let w := add_image path frame w in
  logger_info (LogManualSnapshotSaved path) w.

#[local] Set Warnings "-inexact-float".

(** One pass through the body of the [while True] loop. *)
Definition iteration (i : tick) (l : locals) (w : World)
    : outcome control * locals * World :=
  match cap_read i with
  | None => (Returned Continue, l, w)          (* retry *)
  | Some frame =>
      let frame_count := frame_count l + 1 in
      let l := mkLocals (event_handler l) (paused l) frame_count (detections l)
                        (alert_active l) (conf_thresh l) in
      if paused l then
        let key := Z.land (wait_key i) 255 in
        if key =? ord_q then (Returned Break, l, w)
        else if key =? ord_space then
          (Returned Continue,
           mkLocals (event_handler l) false frame_count (detections l)
                    (alert_active l) (conf_thresh l), w)
        else (Returned Continue, l, w)
      else
        (* Detection (with optional frame skipping) *)
        match mod_ frame_count (FRAME_SKIP cfg) with
        | Raised e => (Raised e, l, w)
        | Returned r =>
            let '(detections, w) :=
              if r =? 0 then detect frame w else (detections l, w) in
            let l := mkLocals (event_handler l) (paused l) frame_count detections
                              (alert_active l) (conf_thresh l) in
            (* Event handling *)
            match EventHandler.handle cfg imencode (now i) (iso_ts i) frame detections
                    (event_handler l) w with
            | (Raised e, h, w) =>
                (Raised e,
                 mkLocals h (paused l) frame_count detections
                          (alert_active l) (conf_thresh l), w)
            | (Returned alert_active, h, w) =>
                let l := mkLocals h (paused l) frame_count detections
                                  alert_active (conf_thresh l) in
                (* Draw overlays *)
                let frame := draw_overlays frame detections alert_active in
                (* Keyboard control *)
                let key := Z.land (wait_key i) 255 in
                if key =? ord_q then (Returned Break, l, w)
                else if key =? ord_s then
                  (Returned Continue, l, save_manual_snapshot frame (snap_ts i) w)
                else if key =? ord_space then
                  (Returned Continue,
                   mkLocals h true frame_count detections alert_active (conf_thresh l), w)
                else if (key =? ord_plus) || (key =? ord_equals) then
                  let c := py_min 0.99 (conf_thresh l + 0.05)%float in
                  (Returned Continue,
                   mkLocals h (paused l) frame_count detections alert_active c,
                   set_CONFIDENCE_THRESH c w)
                else if key =? ord_minus then
                  let c := py_max 0.05 (conf_thresh l - 0.05)%float in
                  (Returned Continue,
                   mkLocals h (paused l) frame_count detections alert_active c,
                   set_CONFIDENCE_THRESH c w)
                else (Returned Continue, l, w)
            end
        end
  end.

(** The [while True] loop over the readings it is given.  The loop has no
    exit but [break] and an exception: [Some o] says how it ended, [None]
    that the readings are used up and the loop is still running. *)
Fixpoint loop (ticks : list tick) (l : locals) (w : World)
    : option (outcome unit) * locals * World :=
  match ticks with
  | [] => (None, l, w)
  | i :: rest =>
      match iteration i l w with
      | (Returned Continue, l, w) => loop rest l w
      | (Returned Break, l, w) => (Some (Returned tt), l, w)
      | (Raised e, l, w) => (Some (Raised e), l, w)
      end
  end.

(** [open_camera()]: [isOpened] is the answer of [cap.isOpened()]; when
    the camera cannot be opened the program leaves by [sys.exit(1)]. *)
Definition open_camera (isOpened : bool) : outcome unit :=
  if negb isOpened then Raised (SystemExit 1) else Returned tt.

(** How far a run of [main] has come on the readings it was given. *)
Inductive progress : Type :=
| Exited (e : exn) (handler : EventHandler.t)
    (* left before the [try] block, with the handler constructed *)
| InLoop (l : locals)
    (* still in the loop: the [finally] block has not run *)
| Finished (o : outcome unit) (l : locals).
    (* the loop has ended and the [finally] block has run *)

(** [main]: initialise, open the camera, loop, and shut down in the
    [finally] block whatever ended the loop.  [PersonDetector()] loads the
    model [predict] stands for; it comes before [EventHandler()] and does
    not act on the world.  [open_camera()] is called after
    [EventHandler()] and outside the [try] block.  The [except] clause
    swallows a [KeyboardInterrupt]; Ctrl+C is asynchronous and no step of
    the model raises it. *)
Definition main (isOpened : bool) (ticks : list tick) (w : World) : progress * World :=
  let '(h, w) := EventHandler.__init__ cfg w in
  match open_camera isOpened with
  | Raised e => (Exited e h, w)
  | Returned _ =>
      let l := mkLocals h false 0 [] false (CONFIDENCE_THRESH w) in
      match loop ticks l w with
      | (None, l, w) => (InLoop l, w)
      | (Some o, l, w) =>
          (* except KeyboardInterrupt *)
          let o := match o with
                   | Raised KeyboardInterrupt => Returned tt
                   | _ => o
                   end in
          (* finally *)
          let '(h, w) := EventHandler.shutdown cfg (event_handler l) w in
          (Finished o (mkLocals h (paused l) (frame_count l) (detections l)
                                (alert_active l) (conf_thresh l)), w)
      end
  end.

End Loop.
End main.

(** ** Observations on a session *)

Definition is_person_detected (r : LogRecord) : bool :=
  match message r with
  | LogPersonDetected _ _ => true
  | _ => false
  end.

(** How often [_fire_event] has run: its first act, on every path, is the
    "PERSON DETECTED" log record, and nothing else writes that record. *)
Definition events_fired (w : World) : nat :=
  List.length (filter is_person_detected (log w)).

(** The video writers that have not been released. *)
Definition open_writers (w : World) : list VideoWriter :=
  filter (fun v => negb (vw_released v)) (writers w).

(** The frame count a new clip is given: [int(CLIP_DURATION_S * CLIP_FPS)]. *)
Definition clip_frames (cfg : Config) : outcome Z :=
  bind (mul (CLIP_DURATION_S cfg) (CLIP_FPS cfg)) int.

(** How the constructor of a clip ends under a configuration: with the
    exception of [VideoWriter_fourcc], with that of [int], or with the
    frame count of the clip. *)
Definition clip_opens (cfg : Config) : outcome Z :=
  bind (VideoWriter_fourcc (CLIP_CODEC cfg)) (fun _ => clip_frames cfg).

(** What the specification says instead: [round(CLIP_DURATION_S * CLIP_FPS)]. *)
Definition clip_frames_rounded (cfg : Config) : outcome Z :=
  bind (mul (CLIP_DURATION_S cfg) (CLIP_FPS cfg)) round.

(** The first block of [handle] on its own (lines 147-154): feed the
    active clip and finalise it when it is complete. *)
Definition feed_active_clip (frame : Frame) (self : EventHandler.t) (w : World)
    : EventHandler.t * World :=
  match EventHandler._active_clip self with
  | Some clip =>
      let '(clip, w) := ClipWriter.write clip frame w in
      let self := EventHandler.set_active_clip (Some clip) self in
      if ClipWriter.is_finished clip then
        let w := logger_info (LogClipSaved (ClipWriter.filepath clip)) w in
        let w := ClipWriter.close clip w in
        (EventHandler.set_active_clip None self, w)
      else (self, w)
  | None => (self, w)
  end.

(** One call of [handle]: the clock readings and the arguments. *)
Record call : Type := mkCall {
  c_now : float;
  c_iso_ts : string;
  c_frame : Frame;
  c_detections : list Detection
}.

Definition handle_call (cfg : Config) (imencode : Frame -> option (list Z))
    (c : call) (self : EventHandler.t) (w : World)
    : outcome bool * EventHandler.t * World :=
  EventHandler.handle cfg imencode (c_now c) (c_iso_ts c) (c_frame c)
    (c_detections c) self w.

(** The cooldown gate of [handle] (line 163) for a call in a given state. *)
Definition cooldown_ok (cfg : Config) (c : call) (self : EventHandler.t) : bool :=
  (EVENT_COOLDOWN_SECONDS cfg <=? c_now c - EventHandler._last_event_time self)%float.

(** [handle] called once per element, in order; an exception ends the
    run, as it ends the loop of [main]. *)
Fixpoint run (cfg : Config) (imencode : Frame -> option (list Z))
    (calls : list call) (self : EventHandler.t) (w : World)
    : outcome unit * EventHandler.t * World :=
  match calls with
  | [] => (Returned tt, self, w)
  | c :: rest =>
      match handle_call cfg imencode c self w with
      | (Returned _, self, w) => run cfg imencode rest self w
      | (Raised e, self, w) => (Raised e, self, w)
      end
  end.

(** The states of a session in which [handle] may be called: a handler
    constructed in a world with no video writer yet, then any calls of
    [handle] that return, and [shutdown].  A call that raises is not
    followed by another one; [session_state] below adds the states it
    leaves. *)
Inductive reachable (cfg : Config) (imencode : Frame -> option (list Z))
    : EventHandler.t -> World -> Prop :=
| reach_init : forall w0,
    writers w0 = [] ->
    reachable cfg imencode (fst (EventHandler.__init__ cfg w0))
                           (snd (EventHandler.__init__ cfg w0))
| reach_handle : forall self w c r self' w',
    reachable cfg imencode self w ->
    handle_call cfg imencode c self w = (Returned r, self', w') ->
    reachable cfg imencode self' w'
| reach_shutdown : forall self w,
    reachable cfg imencode self w ->
    reachable cfg imencode (fst (EventHandler.shutdown cfg self w))
                           (snd (EventHandler.shutdown cfg self w)).


(** The bookkeeping of clips: every unreleased video writer is the one
    the active clip owns, and the active clip's counter is the number of
    frames its writer holds, within the frame count clips are given. *)
Definition clip_inv (cfg : Config) (active : option ClipWriter.t) (w : World) : Prop :=
  (forall i v, nth_error (writers w) i = Some v -> vw_released v = false ->
     exists c, active = Some c /\ ClipWriter._writer c = i)
  /\ (forall c, active = Some c ->
        exists v, nth_error (writers w) (ClipWriter._writer c) = Some v
          /\ vw_released v = false
          /\ Z.of_nat (List.length (vw_frames v)) = ClipWriter._written c
          /\ clip_frames cfg = Returned (ClipWriter._max_frames c)
          /\ ClipWriter._written c <= Z.max 0 (ClipWriter._max_frames c)).

(** A configuration whose clip length is not a whole number of frames:
    2.5 seconds at 15 frames per second, 37.5 frames. *)
Definition half_frame_config : Config := {|
  FRAME_SKIP := 1;
  EVENT_COOLDOWN_SECONDS := 10.0;
  SNAPSHOTS_DIR := "outputs/snapshots";
  CLIPS_DIR := "outputs/clips";
  SAVE_SNAPSHOTS := true;
  SAVE_CLIPS := true;
  CLIP_DURATION_S := Float 2.5;
  CLIP_CODEC := "mp4v";
  CLIP_FPS := Int 15;
  ABSENCE_GRACE_SECONDS := 2.0;
  _BOT_TOKEN := EmptyString;
  _CHAT_ID := EmptyString
|}.

(** A frame with one person in it, seen at monotonic time 100. *)
Definition person_frame : Frame := mkFrame (2, 2) [0; 0; 0; 0].
Definition person_call : call :=
  mkCall 100 "2026-01-01T00-00-00Z" person_frame [mkDetection 0 0 1 1 0.5].

(** A configuration with a negative cooldown and a zero grace period. *)
Definition nonpositive_config : Config := {|
  FRAME_SKIP := 1;
  EVENT_COOLDOWN_SECONDS := -1.0;
  SNAPSHOTS_DIR := "outputs/snapshots";
  CLIPS_DIR := "outputs/clips";
  SAVE_SNAPSHOTS := true;
  SAVE_CLIPS := true;
  CLIP_DURATION_S := Int 8;
  CLIP_CODEC := "mp4v";
  CLIP_FPS := Int 20;
  ABSENCE_GRACE_SECONDS := 0.0;
  _BOT_TOKEN := EmptyString;
  _CHAT_ID := EmptyString
|}.

(** A clip duration that is not a finite number: [int] raises on the
    product. *)
Definition endless_clip_config : Config := {|
  FRAME_SKIP := 1;
  EVENT_COOLDOWN_SECONDS := 10.0;
  SNAPSHOTS_DIR := "outputs/snapshots";
  CLIPS_DIR := "outputs/clips";
  SAVE_SNAPSHOTS := true;
  SAVE_CLIPS := true;
  CLIP_DURATION_S := Float infinity;
  CLIP_CODEC := "mp4v";
  CLIP_FPS := Int 20;
  ABSENCE_GRACE_SECONDS := 2.0;
  _BOT_TOKEN := EmptyString;
  _CHAT_ID := EmptyString
|}.

(** The same frame with nobody in it, and a frame with a person seen five
    seconds after the origin of the monotonic clock. *)
Definition empty_call (now : float) : call :=
  mkCall now "2026-01-01T00-00-01Z" person_frame [].
Definition early_call : call :=
  mkCall 5 "2026-01-01T00-00-05Z" person_frame [mkDetection 0 0 1 1 0.5].

(** Clips of two frames: 2 seconds at 1 frame per second. *)
Definition two_frame_config : Config := {|
  FRAME_SKIP := 1;
  EVENT_COOLDOWN_SECONDS := 10.0;
  SNAPSHOTS_DIR := "outputs/snapshots";
  CLIPS_DIR := "outputs/clips";
  SAVE_SNAPSHOTS := true;
  SAVE_CLIPS := true;
  CLIP_DURATION_S := Int 2;
  CLIP_CODEC := "mp4v";
  CLIP_FPS := Int 1;
  ABSENCE_GRACE_SECONDS := 2.0;
  _BOT_TOKEN := EmptyString;
  _CHAT_ID := EmptyString
|}.

(** The session under [two_frame_config] after its first call, which saw a
    person: the event has fired and the clip holds its trigger frame. *)
Definition recording_handler : EventHandler.t :=
  Eval vm_compute in
    snd (fst (handle_call two_frame_config (fun _ => None) person_call
                (fst (EventHandler.__init__ two_frame_config empty_world))
                (snd (EventHandler.__init__ two_frame_config empty_world)))).
Definition recording_world : World :=
  Eval vm_compute in
    snd (handle_call two_frame_config (fun _ => None) person_call
           (fst (EventHandler.__init__ two_frame_config empty_world))
           (snd (EventHandler.__init__ two_frame_config empty_world))).

(** A scene as a list of calls: one call per element of [present], the
    first at time [now] and each next one [step] seconds later, with one
    detection where the element is true. *)
Fixpoint scene (now step : float) (present : list bool) : list call :=
  match present with
  | [] => []
  | b :: rest =>
      mkCall now "2026-01-01T00-00-00Z" person_frame
             (if b then [mkDetection 0 0 1 1 0.5] else [])
      :: scene (now + step) step rest
  end.

(** Clips of 2 seconds at 10 frames per second, and Telegram credentials
    set. *)
Definition twenty_frame_config : Config := {|
  FRAME_SKIP := 1;
  EVENT_COOLDOWN_SECONDS := 10.0;
  SNAPSHOTS_DIR := "outputs/snapshots";
  CLIPS_DIR := "outputs/clips";
  SAVE_SNAPSHOTS := true;
  SAVE_CLIPS := true;
  CLIP_DURATION_S := Int 2;
  CLIP_CODEC := "mp4v";
  CLIP_FPS := Int 10;
  ABSENCE_GRACE_SECONDS := 2.0;
  _BOT_TOKEN := "123:abc";
  _CHAT_ID := "42"
|}.

(** ** display.py: FPSCounter *)

(** [n / x] for an int [n] and a float [x]: the int is converted first, and
    a zero divisor raises. *)
Definition truediv_int_float (n : Z) (x : float) : outcome float :=
  bind (float_of_int n)
       (fun f => if (x =? 0)%float then Raised ZeroDivisionError
                 else Returned (f / x)%float).

Module FPSCounter.

Record t : Type := mk {
  _window : Z;            (* Number of frames to average over *)
  _times : list float     (* recent frame timestamps, oldest first *)
}.

Definition __init__ (window : Z) : t := mk window [].

(** Call once per displayed frame. Returns current smoothed FPS.  [now] is
    the reading of [time.monotonic()]. *)
Definition tick (now : float) (self : t) : outcome float * t :=
  let times := _times self ++ [now] in
  (* Keep only the most recent `window` timestamps *)
  let times := if _window self <? len times then tl times else times in
  let self := mk (_window self) times in
  if len times <? 2 then (Returned 0%float, self)
  else
    let elapsed := (last times 0 - hd 0 times)%float in
    if (0 <? elapsed)%float then (truediv_int_float (len times - 1) elapsed, self)
    else (Returned 0%float, self).

(** [tick] once per reading, in order; the counter after the last one. *)
Fixpoint ticks (nows : list float) (self : t) : t :=
  match nows with
  | [] => self
  | now :: rest => ticks rest (snd (tick now self))
  end.

End FPSCounter.

(** ** More observations *)

(** [ClipWriter.write] once per frame, in order. *)
Fixpoint write_all (clip : ClipWriter.t) (frames : list Frame) (w : World)
    : ClipWriter.t * World :=
  match frames with
  | [] => (clip, w)
  | frame :: rest =>
      let '(clip, w) := ClipWriter.write clip frame w in
      write_all clip rest w
  end.

(** A video file only grows, and not after its release: [v'] is [v] with
    frames added at the end, or [v] itself when [v] was released. *)
Definition writer_extends (v v' : VideoWriter) : Prop :=
  vw_filename v' = vw_filename v
  /\ (exists fs, vw_frames v' = vw_frames v ++ fs)
  /\ (vw_released v = true -> v' = v).

(** The path [_fire_event] saves the snapshot of an event to. *)
Definition snapshot_path (cfg : Config) (iso_ts : string) : string :=
  path_join (SNAPSHOTS_DIR cfg) ("snapshot_" ++ iso_ts ++ ".jpg")%string.

(** The path [_fire_event] records the clip of an event to. *)
Definition clip_path (cfg : Config) (iso_ts : string) : string :=
  path_join (CLIPS_DIR cfg) ("clip_" ++ iso_ts ++ ".mp4")%string.

(** The thread [send_alert] starts for an event when the notifier is
    configured: the photo when the frame could be encoded, the caption as
    text otherwise. *)
Definition alert_thread (imencode : Frame -> option (list Z)) (c : call) : Thread :=
  let caption :=
    mkCaption (str_replace "Z" " UTC" (str_replace "T" " " (c_iso_ts c)))
              (len (c_detections c)) (map confidence (c_detections c)) in
  match imencode (c_frame c) with
  | Some buf => Thread_send_photo_bytes buf caption
  | None => Thread_send_text (MsgAlert caption)
  end.

(** A visit that goes on: starting from the time a person was last seen,
    every call either carries a detection or comes less than the grace
    period after the latest detection. *)
Fixpoint visit_continues (cfg : Config) (last_seen : float) (cs : list call) : Prop :=
  match cs with
  | [] => True
  | c :: rest =>
      match c_detections c with
      | [] => (c_now c - last_seen <? ABSENCE_GRACE_SECONDS cfg)%float = true
              /\ visit_continues cfg last_seen rest
      | _ :: _ => visit_continues cfg (c_now c) rest
      end
  end.

(** The shipped configuration with clips switched off, and with a frame
    skip of zero. *)
Definition no_clip_config : Config :=
  mkConfig 1 10.0 "outputs/snapshots" "outputs/clips" true false (Int 8) "mp4v"
           (Int 20) 2.0 EmptyString EmptyString.
Definition zero_skip_config : Config :=
  mkConfig 0 10.0 "outputs/snapshots" "outputs/clips" true true (Int 8) "mp4v"
           (Int 20) 2.0 EmptyString EmptyString.

(** The shipped configuration with a codec name of three characters. *)
Definition short_codec_config : Config :=
  mkConfig 1 10.0 "outputs/snapshots" "outputs/clips" true true (Int 8) "avc"
           (Int 20) 2.0 EmptyString EmptyString.

(** One pass of the loop that reads the frame with a person in it at time
    100, with the given answer of [cv2.waitKey]; and a detector that finds
    that person in every frame. *)
Definition person_tick (key : Z) : main.tick :=
  main.mkTick (Some person_frame) 100 "2026-01-01T00-00-00Z" key "2026-01-01T00-00-00Z".
Definition always_a_person (thresh : float) (frame : Frame) : list Detection :=
  [mkDetection 0 0 1 1 0.5].
Definition no_overlay (frame : Frame) (dets : list Detection) (alert : bool) : Frame :=
  frame.

(** The loop variables as [main] sets them up. *)
Definition fresh_locals : main.locals :=
  main.mkLocals (EventHandler.mk 0 None false 0) false 0 [] false
                (CONFIDENCE_THRESH empty_world).

(** The video writer of the clip in [recording_world]. *)
Definition recording_writer : VideoWriter :=
  mkVideoWriter "outputs/clips/clip_2026-01-01T00-00-00Z.mp4" "mp4v" (Int 1) (2, 2)
                [person_frame] false.

(* ====================================================================== *)
(** * Part II: properties *)
(* ====================================================================== *)

(** ** Proof steps shared below *)

Ltac unfold_world :=
  unfold notifier.send_alert, notifier.send_session_start, notifier.send_session_end,
    ClipWriter.__init__, ClipWriter.write, ClipWriter.close,
    VideoWriter_new, VideoWriter_write, VideoWriter_release,
    logger_info, logger_warning, add_log, add_image, start_thread,
    add_inference, set_writers, set_CONFIDENCE_THRESH in *.

Ltac case_ifs :=
  repeat match goal with
         | |- context [if ?b then _ else _] => destruct b eqn:?
         | |- context [match ?x with Some _ => _ | None => _ end] => destruct x eqn:?
         | |- context [match ?x with Returned _ => _ | Raised _ => _ end] => destruct x eqn:?
         | |- context [let '(_, _) := ?p in _] => destruct p eqn:?
         end.

(** ** Python arithmetic on concrete values *)

Example int_truncates :
  int (Float 37.5) = Returned 37 /\ int (Float (-1.5)) = Returned (-1)
  /\ int (Float 160) = Returned 160 /\ int (Float 0x1p70) = Returned (2 ^ 70)
  /\ int (Float nan) = Raised ValueError /\ int (Float infinity) = Raised OverflowError.
Proof. vm_compute. repeat split. Qed.

Example round_ties_to_even :
  round (Float 37.5) = Returned 38 /\ round (Float 2.5) = Returned 2
  /\ round (Float (-1.5)) = Returned (-2) /\ round (Float 0.5) = Returned 0
  /\ round (Float 0.75) = Returned 1 /\ round (Float 0.25) = Returned 0.
Proof. vm_compute. repeat split. Qed.

Example mul_mixed :
  mul (Int 8) (Int 20) = Returned (Int 160)
  /\ mul (Float 2.5) (Int 15) = Returned (Float 37.5)
  /\ mul (Int (2 ^ 1024)) (Float 1) = Raised OverflowError.
Proof. vm_compute. repeat split. Qed.

(** ** The model on whole scenes *)

(** A person for five frames, two empty frames an eighth of a second
    apart, the person again for five frames: one event, fired by the first
    frame, and the person is still present. *)
Example one_visit_with_a_short_gap :
  let '(h0, w0) := EventHandler.__init__ default_config empty_world in
  let '(o, h, w) :=
    run default_config (fun _ => None)
      (scene 100 0.125 (repeat true 5 ++ repeat false 2 ++ repeat true 5)) h0 w0 in
  o = Returned tt
  /\ events_fired w = 1%nat
  /\ EventHandler._person_present h = true
  /\ EventHandler._last_event_time h = 100%float.
Proof. vm_compute. repeat split. Qed.

(** A person for five frames, twenty-five empty frames half a second
    apart, the person again: two events. *)
Example two_visits :
  let '(h0, w0) := EventHandler.__init__ default_config empty_world in
  let '(o, h, w) :=
    run default_config (fun _ => None)
      (scene 100 0.5 (repeat true 5 ++ repeat false 25 ++ [true])) h0 w0 in
  o = Returned tt
  /\ events_fired w = 2%nat
  /\ EventHandler._last_event_time h = 115%float.
Proof. vm_compute. repeat split. Qed.

(** Two seconds at ten frames per second: the clip closes itself with
    twenty frames while the person is still there, and with credentials
    set the start notice and the alert each start a thread. *)
Example clip_of_twenty_frames :
  let '(h0, w0) := EventHandler.__init__ twenty_frame_config empty_world in
  let '(o, h, w) :=
    run twenty_frame_config (fun _ => None) (scene 100 0.125 (repeat true 25)) h0 w0 in
  o = Returned tt
  /\ EventHandler._person_present h = true
  /\ EventHandler._active_clip h = None
  /\ map (fun v => (vw_released v, List.length (vw_frames v))) (writers w)
     = [(true, 20%nat)]
  /\ List.length (threads w) = 2%nat
  /\ List.length (images w) = 1%nat.
Proof. vm_compute. repeat split. Qed.

(** ** Comparisons and subtraction on binary64 *)

Section FloatFacts.

Local Open Scope float_scope.

Lemma SFcompare_swap (x y : spec_float) :
  SFcompare y x = option_map CompOpp (SFcompare x y).
Proof.
  destruct x as [sx| sx| |sx mx ex], y as [sy| sy| |sy my ey]; simpl;
    try reflexivity;
    try (destruct sx; reflexivity);
    try (destruct sy; reflexivity);
    try (destruct sx, sy; reflexivity).
  destruct sx, sy; simpl; try reflexivity;
    rewrite (Z.compare_antisym ex ey);
    destruct (ex ?= ey)%Z; simpl; try reflexivity;
    repeat f_equal; symmetry; exact (Pos.compare_cont_antisym mx my Eq).
Qed.

(** [x < y] excludes [y <= x]. *)
Lemma ltb_not_leb (x y : float) : (x <? y) = true -> (y <=? x) = false.
Proof.
  rewrite ltb_spec, leb_spec. unfold SFltb, SFleb.
  rewrite (SFcompare_swap (Prim2SF x) (Prim2SF y)).
  destruct (SFcompare (Prim2SF x) (Prim2SF y)) as [[ | | ]|]; simpl; congruence.
Qed.

(** [x < y] gives [x <= y]. *)
Lemma ltb_leb (x y : float) : (x <? y) = true -> (x <=? y) = true.
Proof.
  rewrite ltb_spec, leb_spec. unfold SFltb, SFleb.
  destruct (SFcompare (Prim2SF x) (Prim2SF y)) as [[ | | ]|]; simpl; congruence.
Qed.

(** [x == y] gives [y <= x]. *)
Lemma eqb_leb (x y : float) : (x =? y) = true -> (y <=? x) = true.
Proof.
  rewrite eqb_spec, leb_spec. unfold SFeqb, SFleb.
  rewrite (SFcompare_swap (Prim2SF x) (Prim2SF y)).
  destruct (SFcompare (Prim2SF x) (Prim2SF y)) as [[ | | ]|]; simpl; congruence.
Qed.

(** Subtracting [0.0] changes nothing, on every float. *)
Lemma sub_zero_r (x : float) : x - 0 = x.
Proof.
  apply Prim2SF_inj. rewrite sub_spec.
  change (Prim2SF 0) with (S754_zero false).
  unfold SF64sub, SFsub.
  destruct (Prim2SF x) as [[|]|[|]| |s m e]; reflexivity.
Qed.

End FloatFacts.

(** ** The clip feed leaves the presence state alone *)

Section Feed.

Variable cfg : Config.
Variable imencode : Frame -> option (list Z).

Lemma events_fired_add_log (r : LogRecord) (w : World) :
  events_fired (add_log r w) =
  (events_fired w + (if is_person_detected r then 1 else 0))%nat.
Proof.
  unfold events_fired, add_log; simpl.
  rewrite filter_app, length_app; simpl.
  destruct (is_person_detected r); reflexivity.
Qed.

Lemma feed_presence (frame : Frame) (self : EventHandler.t) (w : World) :
  let '(self', w') := feed_active_clip frame self w in
  EventHandler._person_present self' = EventHandler._person_present self
  /\ EventHandler._last_event_time self' = EventHandler._last_event_time self
  /\ EventHandler._last_seen_time self' = EventHandler._last_seen_time self.
Proof.
  unfold feed_active_clip, ClipWriter.write.
  destruct (EventHandler._active_clip self) as [clip|]; [|auto].
  destruct (negb (ClipWriter.is_finished clip)); simpl;
    match goal with |- context [if ?b then _ else _] => destruct b end;
    simpl; auto.
Qed.

Lemma feed_world (frame : Frame) (self : EventHandler.t) (w : World) :
  let '(self', w') := feed_active_clip frame self w in
  events_fired w' = events_fired w
  /\ images w' = images w
  /\ threads w' = threads w
  /\ inferences w' = inferences w
  /\ CONFIDENCE_THRESH w' = CONFIDENCE_THRESH w.
Proof.
  unfold feed_active_clip, ClipWriter.write.
  destruct (EventHandler._active_clip self) as [clip|]; [|auto].
  destruct (negb (ClipWriter.is_finished clip)); simpl;
    match goal with |- context [if ?b then _ else _] => destruct b end;
    unfold events_fired; simpl; rewrite ?filter_app, ?app_nil_r; simpl;
    rewrite ?app_nil_r; auto.
Qed.

(** [handle] is the clip feed followed by the presence-state machine. *)
Lemma handle_after_feed (now : float) (iso_ts : string) (frame : Frame)
    (dets : list Detection) (self : EventHandler.t) (w : World) :
  EventHandler.handle cfg imencode now iso_ts frame dets self w =
  let '(self, w) := feed_active_clip frame self w in
  let '(raised, self, w) :=
    if 0 <? len dets then
      let self := EventHandler.set_last_seen_time now self in
      if negb (EventHandler._person_present self) then
        if (EVENT_COOLDOWN_SECONDS cfg <=? now - EventHandler._last_event_time self)%float
        then
          let self := EventHandler.set_person_present true self in
          let self := EventHandler.set_last_event_time now self in
          match EventHandler._fire_event cfg imencode frame dets now iso_ts self w with
          | (Returned _, self, w) => (None, self, w)
          | (Raised e, self, w) => (Some e, self, w)
          end
        else (None, self, w)
      else (None, self, w)
    else
      if EventHandler._person_present self
         && (ABSENCE_GRACE_SECONDS cfg <=? now - EventHandler._last_seen_time self)%float
      then (None, EventHandler.set_person_present false self, logger_info LogPersonLeft w)
      else (None, self, w) in
  match raised with
  | Some e => (Raised e, self, w)
  | None =>
      (Returned (EventHandler._person_present self
                 || match EventHandler._active_clip self with
                    | Some _ => true
                    | None => false
                    end),
       self, w)
  end.
Proof. reflexivity. Qed.

Lemma len_pos {A : Type} (l : list A) : l <> [] -> (0 <? len l) = true.
Proof.
  intros H. destruct l as [|a l]; [congruence|].
  unfold len. simpl List.length. apply Z.ltb_lt. lia.
Qed.

Lemma len_nil {A : Type} : (0 <? len (@nil A)) = false.
Proof. reflexivity. Qed.

End Feed.

(** ** C1: an arrival inside the cooldown is dropped *)

(** With the gate closed, [handle] is the clip feed followed by the update
    of [_last_seen_time]. *)
Lemma handle_gate_closed
    (cfg : Config) (imencode : Frame -> option (list Z))
    (now : float) (iso_ts : string) (frame : Frame) (dets : list Detection)
    (self : EventHandler.t) (w : World) :
  dets <> [] ->
  EventHandler._person_present self = false ->
  (EVENT_COOLDOWN_SECONDS cfg <=? now - EventHandler._last_event_time self)%float = false ->
  EventHandler.handle cfg imencode now iso_ts frame dets self w =
  (Returned match EventHandler._active_clip (fst (feed_active_clip frame self w)) with
            | Some _ => true
            | None => false
            end,
   EventHandler.set_last_seen_time now (fst (feed_active_clip frame self w)),
   snd (feed_active_clip frame self w)).
Proof.
  intros Hdets Habsent Hgate.
  rewrite handle_after_feed.
  pose proof (feed_presence frame self w) as Hp.
  destruct (feed_active_clip frame self w) as [self1 w1].
  destruct Hp as (Hp1 & Hp2 & _).
  rewrite (len_pos dets Hdets). simpl.
  rewrite Hp1, Habsent. simpl.
  rewrite Hp2, Hgate. simpl. rewrite Hp1, Habsent. reflexivity.
Qed.

(** C1.  A call of [handle] with at least one detection, made while
    [_person_present] is false and with [now - _last_event_time] strictly
    below [EVENT_COOLDOWN_SECONDS], fires no event (no "PERSON DETECTED"
    record, no image, no thread) and leaves [_person_present] false and
    [_last_event_time] as it was; [_last_seen_time] becomes [now].  The
    call returns normally. *)
Theorem cooldown_suppresses_arrival
    (cfg : Config) (imencode : Frame -> option (list Z))
    (now : float) (iso_ts : string) (frame : Frame) (dets : list Detection)
    (self : EventHandler.t) (w : World) :
  dets <> [] ->
  EventHandler._person_present self = false ->
  (now - EventHandler._last_event_time self <? EVENT_COOLDOWN_SECONDS cfg)%float = true ->
  exists r self' w',
    EventHandler.handle cfg imencode now iso_ts frame dets self w = (Returned r, self', w')
    /\ events_fired w' = events_fired w
    /\ images w' = images w
    /\ threads w' = threads w
    /\ EventHandler._person_present self' = false
    /\ EventHandler._last_event_time self' = EventHandler._last_event_time self
    /\ EventHandler._last_seen_time self' = now.
Proof.
  intros Hdets Habsent Hcool.
  (* strictly below the cooldown: the test [>=] of line 163 fails *)
  apply ltb_not_leb in Hcool.
  rewrite (handle_gate_closed cfg imencode now iso_ts frame dets self w
             Hdets Habsent Hcool).
  pose proof (feed_presence frame self w) as Hp.
  pose proof (feed_world frame self w) as Hw.
  destruct (feed_active_clip frame self w) as [self1 w1].
  destruct Hp as (Hp1 & Hp2 & Hp3). destruct Hw as (Hw1 & Hw2 & Hw3 & _).
  eexists _, _, _. split; [reflexivity|].
  simpl. repeat split; congruence.
Qed.

(** ** The event-fire procedure *)

Section Fire.

Variable cfg : Config.
Variable imencode : Frame -> option (list Z).

Lemma send_alert_world (frame : option Frame) (dets : list Detection)
    (ts : string) (w : World) :
  let w' := notifier.send_alert cfg imencode frame dets ts w in
  events_fired w' = events_fired w
  /\ writers w' = writers w
  /\ images w' = images w
  /\ inferences w' = inferences w.
Proof.
  unfold events_fired. unfold_world. case_ifs; simpl;
    rewrite ?filter_app, ?app_nil_r; simpl; rewrite ?app_nil_r; auto.
Qed.

(** [_fire_event] writes exactly one "PERSON DETECTED" record, whatever
    else it does and however it ends, and does not touch the presence
    fields. *)
Lemma fire_event_once (frame : Frame) (dets : list Detection) (timestamp : float)
    (iso_ts : string) (self : EventHandler.t) (w : World) :
  let '(o, self', w') :=
    EventHandler._fire_event cfg imencode frame dets timestamp iso_ts self w in
  events_fired w' = S (events_fired w)
  /\ EventHandler._person_present self' = EventHandler._person_present self
  /\ EventHandler._last_event_time self' = EventHandler._last_event_time self
  /\ EventHandler._last_seen_time self' = EventHandler._last_seen_time self
  /\ inferences w' = inferences w.
Proof.
  unfold EventHandler._fire_event.
  destruct (shape frame) as [h wd].
  match goal with
  | |- context [notifier.send_alert cfg imencode ?f ?d ?ts] =>
      pose proof (fun w0 => send_alert_world f d ts w0) as Halert
  end.
  cbv zeta in Halert.
  unfold events_fired in *. unfold ClipWriter.__init__, ClipWriter.write,
    VideoWriter_new, VideoWriter_write, logger_info, add_log, add_image, set_writers.
  destruct (SAVE_SNAPSHOTS cfg), (SAVE_CLIPS cfg),
    (EventHandler._active_clip self) as [c|]; simpl;
    try destruct (VideoWriter_fourcc (CLIP_CODEC cfg)) as [fourcc|e0]; simpl;
    try destruct (bind (mul (CLIP_DURATION_S cfg) (CLIP_FPS cfg)) int) as [n|e]; simpl;
    try destruct (negb (ClipWriter.is_finished _)); simpl;
    try match goal with
        | |- context [notifier.send_alert cfg imencode ?f ?d ?ts ?w0] =>
            destruct (Halert w0) as (-> & _ & _ & ->)
        end;
    simpl; rewrite ?filter_app, ?length_app; simpl; repeat split; lia.
Qed.

End Fire.

(** ** C2: one event per visit *)

Section OneEventPerVisit.

Variable cfg : Config.
Variable imencode : Frame -> option (list Z).

(** What any one call does to the event count and the presence flag. *)
Lemma handle_fires_at_most_once (c : call) (self : EventHandler.t) (w : World) :
  let '(o, self', w') := handle_call cfg imencode c self w in
  (events_fired w' = events_fired w
   /\ (EventHandler._person_present self = true ->
       c_detections c <> [] ->
       EventHandler._person_present self' = true /\ exists r, o = Returned r))
  \/ (events_fired w' = S (events_fired w)
      /\ c_detections c <> []
      /\ EventHandler._person_present self = false
      /\ EventHandler._person_present self' = true
      /\ cooldown_ok cfg c self = true).
Proof.
  unfold handle_call, cooldown_ok. rewrite handle_after_feed.
  pose proof (feed_presence (c_frame c) self w) as Hp.
  pose proof (feed_world (c_frame c) self w) as Hw.
  destruct (feed_active_clip (c_frame c) self w) as [self1 w1].
  destruct Hp as (Hp1 & Hp2 & Hp3). destruct Hw as (Hw1 & _).
  destruct (c_detections c) as [|d ds] eqn:Hd.
  - (* no detection *)
    rewrite len_nil.
    destruct (EventHandler._person_present self1
              && (ABSENCE_GRACE_SECONDS cfg <=? c_now c - EventHandler._last_seen_time self1)%float);
      cbv beta iota zeta; left; (split; [|intros _ Hne; congruence]).
    + unfold logger_info. rewrite events_fired_add_log. simpl. lia.
    + assumption.
  - rewrite (len_pos (d :: ds)) by discriminate. simpl.
    rewrite Hp1, Hp2.
    destruct (EventHandler._person_present self) eqn:Hpres; simpl.
    + left. split; [assumption|]. intros _ _. split; [congruence|eauto].
    + destruct (EVENT_COOLDOWN_SECONDS cfg <=? c_now c - EventHandler._last_event_time self)%float
        eqn:Hcd.
      * pose proof (fire_event_once cfg imencode (c_frame c) (d :: ds) (c_now c) (c_iso_ts c)
                      (EventHandler.set_last_event_time (c_now c)
                         (EventHandler.set_person_present true
                            (EventHandler.set_last_seen_time (c_now c) self1))) w1) as Hf.
        destruct (EventHandler._fire_event cfg imencode (c_frame c) (d :: ds) (c_now c)
                    (c_iso_ts c) _ w1) as [[o self2] w2].
        destruct Hf as (Hf1 & Hf2 & _).
        simpl in Hf2.
        destruct o; simpl; right; repeat split; try congruence; try discriminate.
      * left. simpl. split; [assumption|]. intros Habs; discriminate.
Qed.

(** Once present, frames with detections never fire and never raise. *)
Lemma run_while_present (cs : list call) :
  forall (self : EventHandler.t) (w : World),
  Forall (fun c => c_detections c <> []) cs ->
  EventHandler._person_present self = true ->
  exists self' w',
    run cfg imencode cs self w = (Returned tt, self', w')
    /\ events_fired w' = events_fired w
    /\ EventHandler._person_present self' = true.
Proof.
  induction cs as [|c cs IH]; intros self w Hall Hpres.
  - exists self, w. auto.
  - inversion Hall as [|? ? Hc Hcs]; subst.
    simpl.
    pose proof (handle_fires_at_most_once c self w) as Hstep.
    destruct (handle_call cfg imencode c self w) as [[o self1] w1].
    destruct Hstep as [(Hev & Hkeep)|(_ & _ & Habs & _)]; [|congruence].
    destruct (Hkeep Hpres Hc) as (Hpres1 & r & ->).
    destruct (IH self1 w1 Hcs Hpres1) as (self2 & w2 & Hrun & Hev2 & Hpres2).
    exists self2, w2. rewrite Hrun. repeat split; congruence.
Qed.

End OneEventPerVisit.

(** C2.  (i) A call of [handle] runs the event-fire procedure at most
    once, and only when the call has a detection, [_person_present] was
    false before it, is true after it, and the cooldown gate held.
    (ii) From an absent state with the cooldown satisfied, a run of
    consecutive calls that all carry detections fires exactly one event,
    and it is the first call that fires it: the count after the first call
    and the count after the whole run are both one more than before. *)
Theorem event_fires_only_on_arrival
    (cfg : Config) (imencode : Frame -> option (list Z)) :
  (forall (c : call) (self : EventHandler.t) (w : World),
     let '(_, self', w') := handle_call cfg imencode c self w in
     events_fired w' = events_fired w
     \/ (events_fired w' = S (events_fired w)
         /\ c_detections c <> []
         /\ EventHandler._person_present self = false
         /\ EventHandler._person_present self' = true
         /\ cooldown_ok cfg c self = true))
  /\ (forall (c : call) (cs : list call) (self : EventHandler.t) (w : World),
        c_detections c <> [] ->
        Forall (fun c' => c_detections c' <> []) cs ->
        EventHandler._person_present self = false ->
        cooldown_ok cfg c self = true ->
        let '(_, _, w1) := handle_call cfg imencode c self w in
        let '(_, _, w2) := run cfg imencode (c :: cs) self w in
        events_fired w1 = S (events_fired w)
        /\ events_fired w2 = S (events_fired w)).
Proof.
  split.
  - intros c self w.
    pose proof (handle_fires_at_most_once cfg imencode c self w) as H.
    destruct (handle_call cfg imencode c self w) as [[o self1] w1].
    destruct H as [(H & _)|H]; [left|right]; assumption.
  - intros c cs self w Hc Hcs Habs Hcd.
    simpl.
    pose proof (handle_fires_at_most_once cfg imencode c self w) as H.
    assert (Hfire : let '(_, _, w1) := handle_call cfg imencode c self w in
                    events_fired w1 = S (events_fired w)).
    { revert H. unfold handle_call, cooldown_ok in *. rewrite handle_after_feed.
      pose proof (feed_presence (c_frame c) self w) as Hp.
      pose proof (feed_world (c_frame c) self w) as Hw.
      destruct (feed_active_clip (c_frame c) self w) as [self1 w1].
      destruct Hp as (Hp1 & Hp2 & Hp3). destruct Hw as (Hw1 & _).
      rewrite (len_pos _ Hc). simpl. rewrite Hp1, Hp2, Habs, Hcd. simpl.
      match goal with
      | |- context [EventHandler._fire_event cfg imencode ?f ?d ?n ?t ?s ?w0] =>
          pose proof (fire_event_once cfg imencode f d n t s w0) as Hf;
          destruct (EventHandler._fire_event cfg imencode f d n t s w0) as [[o self2] w2]
      end.
      destruct Hf as (Hf1 & _). intros _. destruct o; simpl; congruence. }
    destruct (handle_call cfg imencode c self w) as [[o self1] w1].
    destruct H as [(H & _)|(_ & _ & _ & Hpres1 & _)]; [lia|].
    destruct o as [r|e]; cbv beta iota zeta; [|split; assumption].
    destruct (run_while_present cfg imencode cs self1 w1 Hcs Hpres1)
      as (self2 & w2 & -> & Hev & _).
    split; congruence.
Qed.

(** ** C4: departure after the grace period *)

(** C4, as the specification states it, fails at the boundary: the
    source compares with [>=] (line 171), so an absence of exactly
    [ABSENCE_GRACE_SECONDS], which does not exceed the grace period and
    is still within the grace window, resets the flag and logs the
    departure.  Here the person was last seen at 5, the call comes at 7
    and the grace period is 2. *)
Lemma departure_at_exactly_the_grace_period :
  let self := EventHandler.mk 0 None true 5 in
  let '(o, self', w') :=
    EventHandler.handle default_config (fun _ => None) 7 "t" (mkFrame (2, 2) []) []
      self empty_world in
  (ABSENCE_GRACE_SECONDS default_config <? 7 - EventHandler._last_seen_time self)%float
  = false
  /\ (7 - EventHandler._last_seen_time self <=? ABSENCE_GRACE_SECONDS default_config)%float
     = true
  /\ EventHandler._person_present self = true
  /\ o = Returned false
  /\ EventHandler._person_present self' = false
  /\ log w' = [mkLogRecord INFO LogPersonLeft].
Proof. vm_compute. repeat split. Qed.

(** C4, amended.  A call of [handle] with no detection while
    [_person_present] is true, with [absent_for = now - _last_seen_time]
    compared as the source compares it.  When [absent_for] is at least
    [ABSENCE_GRACE_SECONDS] (it exceeds the grace period or equals it),
    the flag becomes false and the "Person left the frame" record is
    appended to the log; the call returns whether a clip is still
    recording.  Otherwise (strictly below the grace period) the flag stays
    true, the call returns true, and the state is exactly the one the clip
    feed left.  In both cases the two timestamps keep their values and
    nothing but the flag and the log differs from what the clip feed
    left. *)
Theorem absence_grace
    (cfg : Config) (imencode : Frame -> option (list Z))
    (now : float) (iso_ts : string) (frame : Frame)
    (self : EventHandler.t) (w : World) :
  EventHandler._person_present self = true ->
  let absent_for := (now - EventHandler._last_seen_time self)%float in
  let '(self1, w1) := feed_active_clip frame self w in
  let '(o, self', w') := EventHandler.handle cfg imencode now iso_ts frame [] self w in
  let departed :=
    o = Returned match EventHandler._active_clip self1 with
                 | Some _ => true
                 | None => false
                 end
    /\ EventHandler._person_present self' = false
    /\ log w' = log w1 ++ [mkLogRecord INFO LogPersonLeft]
    /\ EventHandler._active_clip self' = EventHandler._active_clip self1
    /\ EventHandler._last_seen_time self' = EventHandler._last_seen_time self
    /\ EventHandler._last_event_time self' = EventHandler._last_event_time self
    /\ writers w' = writers w1
    /\ images w' = images w1
    /\ threads w' = threads w1 in
  let stayed :=
    o = Returned true
    /\ EventHandler._person_present self' = true
    /\ self' = self1
    /\ w' = w1
    /\ EventHandler._last_seen_time self' = EventHandler._last_seen_time self
    /\ EventHandler._last_event_time self' = EventHandler._last_event_time self in
  (if (ABSENCE_GRACE_SECONDS cfg <=? absent_for)%float then departed else stayed)
  /\ ((ABSENCE_GRACE_SECONDS cfg <? absent_for)%float = true -> departed)
  /\ ((absent_for =? ABSENCE_GRACE_SECONDS cfg)%float = true -> departed)
  /\ ((absent_for <? ABSENCE_GRACE_SECONDS cfg)%float = true -> stayed).
Proof.
  intros Hpres. cbv zeta.
  rewrite handle_after_feed.
  pose proof (feed_presence frame self w) as Hp.
  destruct (feed_active_clip frame self w) as [self1 w1].
  destruct Hp as (Hp1 & Hp2 & Hp3).
  rewrite len_nil. cbv beta iota zeta. rewrite Hp1, Hp3, Hpres. cbn [andb].
  destruct (ABSENCE_GRACE_SECONDS cfg <=? now - EventHandler._last_seen_time self)%float
    eqn:Hle; cbv beta iota zeta;
    cbn [EventHandler._person_present EventHandler._active_clip
         EventHandler._last_seen_time EventHandler._last_event_time
         EventHandler.set_person_present orb];
    unfold logger_info, add_log; cbn [log writers images threads].
  - (* the test [>=] of line 171 holds: the person has left *)
    assert (Hdeparted :
      Returned match EventHandler._active_clip self1 with
               | Some _ => true
               | None => false
               end
      = Returned match EventHandler._active_clip self1 with
                 | Some _ => true
                 | None => false
                 end
      /\ false = false
      /\ log w1 ++ [mkLogRecord INFO LogPersonLeft]
         = log w1 ++ [mkLogRecord INFO LogPersonLeft]
      /\ EventHandler._active_clip self1 = EventHandler._active_clip self1
      /\ EventHandler._last_seen_time self1 = EventHandler._last_seen_time self
      /\ EventHandler._last_event_time self1 = EventHandler._last_event_time self
      /\ writers w1 = writers w1
      /\ images w1 = images w1
      /\ threads w1 = threads w1) by (repeat split; assumption).
    split; [exact Hdeparted|]. split; [intros _; exact Hdeparted|].
    split; [intros _; exact Hdeparted|].
    intros Hlt. apply ltb_not_leb in Hlt. congruence.
  - (* the test fails: still inside the grace period *)
    rewrite Hp1, Hpres. cbn [orb].
    split; [repeat split; assumption|].
    split; [intros Hlt; apply ltb_leb in Hlt; congruence|].
    split; [intros Heq; apply eqb_leb in Heq; congruence|].
    intros _. repeat split; assumption.
Qed.

(** ** C9: nothing happens while the scene stays empty *)

(** A call without a detection, made while absent, is the clip feed and
    nothing else. *)
Lemma handle_idle
    (cfg : Config) (imencode : Frame -> option (list Z))
    (c : call) (self : EventHandler.t) (w : World) :
  c_detections c = [] ->
  EventHandler._person_present self = false ->
  handle_call cfg imencode c self w =
  (Returned match EventHandler._active_clip (fst (feed_active_clip (c_frame c) self w)) with
            | Some _ => true
            | None => false
            end,
   fst (feed_active_clip (c_frame c) self w),
   snd (feed_active_clip (c_frame c) self w)).
Proof.
  intros Hc Habs.
  unfold handle_call. rewrite handle_after_feed, Hc.
  pose proof (feed_presence (c_frame c) self w) as Hp.
  destruct (feed_active_clip (c_frame c) self w) as [self1 w1].
  destruct Hp as (Hp1 & _).
  rewrite len_nil. cbv beta iota zeta. rewrite Hp1, Habs. simpl.
  rewrite Hp1, Habs. reflexivity.
Qed.

(** Such calls keep the handler absent and its debounce anchor in place. *)
Lemma idle_run_keeps_anchor
    (cfg : Config) (imencode : Frame -> option (list Z)) (cs : list call) :
  forall (self : EventHandler.t) (w : World),
  Forall (fun c => c_detections c = []) cs ->
  EventHandler._person_present self = false ->
  exists self' w',
    run cfg imencode cs self w = (Returned tt, self', w')
    /\ events_fired w' = events_fired w
    /\ EventHandler._person_present self' = false
    /\ EventHandler._last_event_time self' = EventHandler._last_event_time self.
Proof.
  induction cs as [|c cs IH]; intros self w Hall Habs.
  - exists self, w. auto.
  - inversion Hall as [|? ? Hc Hcs]; subst.
    simpl. rewrite (handle_idle cfg imencode c self w Hc Habs).
    pose proof (feed_presence (c_frame c) self w) as Hp.
    pose proof (feed_world (c_frame c) self w) as Hw.
    destruct (feed_active_clip (c_frame c) self w) as [self1 w1].
    destruct Hp as (Hp1 & Hp2 & _). destruct Hw as (Hw1 & _).
    destruct (IH self1 w1 Hcs) as (self2 & w2 & Hrun & He & Hq1 & Hq2);
      [simpl; congruence|].
    exists self2, w2. simpl. rewrite Hrun. simpl in *. repeat split; congruence.
Qed.

(** C9.  From a state with [_person_present] false, any number of calls
    of [handle] with no detection all return, fire no event, and leave
    [_person_present] false and both [_last_seen_time] and
    [_last_event_time] unmodified. *)
Theorem idle_after_departure
    (cfg : Config) (imencode : Frame -> option (list Z)) (cs : list call) :
  forall (self : EventHandler.t) (w : World),
  Forall (fun c => c_detections c = []) cs ->
  EventHandler._person_present self = false ->
  exists self' w',
    run cfg imencode cs self w = (Returned tt, self', w')
    /\ events_fired w' = events_fired w
    /\ EventHandler._person_present self' = false
    /\ EventHandler._last_seen_time self' = EventHandler._last_seen_time self
    /\ EventHandler._last_event_time self' = EventHandler._last_event_time self.
Proof.
  induction cs as [|c cs IH]; intros self w Hall Habs.
  - exists self, w. auto.
  - inversion Hall as [|? ? Hc Hcs]; subst.
    (* the first call: line 168 onwards, with the flag already false *)
    simpl. unfold handle_call. rewrite handle_after_feed, Hc.
    pose proof (feed_presence (c_frame c) self w) as Hp.
    pose proof (feed_world (c_frame c) self w) as Hw.
    destruct (feed_active_clip (c_frame c) self w) as [self1 w1].
    destruct Hp as (Hp1 & Hp2 & Hp3). destruct Hw as (Hw1 & _).
    rewrite len_nil. cbv beta iota zeta. rewrite Hp1, Habs. simpl.
    (* the remaining calls *)
    destruct (IH self1 w1 Hcs) as (self2 & w2 & Hrun & He & Hq1 & Hq2 & Hq3);
      [congruence|].
    exists self2, w2. rewrite Hrun. repeat split; congruence.
Qed.

(** ** C10: the first arrival is gated against the clock origin *)

Lemma init_state (cfg : Config) (w0 : World) :
  fst (EventHandler.__init__ cfg w0) = EventHandler.mk 0 None false 0
  /\ events_fired (snd (EventHandler.__init__ cfg w0)) = events_fired w0
  /\ writers (snd (EventHandler.__init__ cfg w0)) = writers w0.
Proof.
  unfold EventHandler.__init__, notifier.send_session_start. simpl.
  destruct (negb (notifier._is_configured cfg)); auto.
Qed.

(** C10.  [_last_event_time] starts at 0.0, so the cooldown of the first
    arrival is measured from the origin of the monotonic clock: in a
    session where the calls before the first detection carried none, and
    the first call with a detection is made at [now < EVENT_COOLDOWN_SECONDS],
    that call fires no event and leaves [_person_present] false; the count
    of fired events is still what it was before the session. *)
Theorem first_arrival_gated_by_clock_origin
    (cfg : Config) (imencode : Frame -> option (list Z))
    (w0 : World) (cs : list call) (c : call) :
  Forall (fun c' => c_detections c' = []) cs ->
  c_detections c <> [] ->
  (c_now c <? EVENT_COOLDOWN_SECONDS cfg)%float = true ->
  exists self1 w1 r self2 w2,
    run cfg imencode cs (fst (EventHandler.__init__ cfg w0))
        (snd (EventHandler.__init__ cfg w0)) = (Returned tt, self1, w1)
    /\ handle_call cfg imencode c self1 w1 = (Returned r, self2, w2)
    /\ events_fired w2 = events_fired w0
    /\ EventHandler._person_present self2 = false
    /\ cooldown_ok cfg c self1 = false.
Proof.
  intros Hcs Hc Hnow.
  destruct (init_state cfg w0) as (Hinit & Hev0 & _).
  destruct (idle_run_keeps_anchor cfg imencode cs (fst (EventHandler.__init__ cfg w0))
              (snd (EventHandler.__init__ cfg w0)) Hcs)
    as (self1 & w1 & Hrun & Hev1 & Hpres1 & Hlast1).
  { rewrite Hinit. reflexivity. }
  rewrite Hinit in Hlast1. simpl in Hlast1.
  (* the anchor is still 0.0, and [now - 0.0] is [now] *)
  assert (Hgate : cooldown_ok cfg c self1 = false).
  { unfold cooldown_ok. rewrite Hlast1, sub_zero_r. apply ltb_not_leb. exact Hnow. }
  pose proof (handle_gate_closed cfg imencode (c_now c) (c_iso_ts c) (c_frame c)
                (c_detections c) self1 w1 Hc Hpres1 Hgate) as Hh.
  pose proof (feed_presence (c_frame c) self1 w1) as Hp.
  pose proof (feed_world (c_frame c) self1 w1) as Hw.
  destruct (feed_active_clip (c_frame c) self1 w1) as [self2 w2].
  destruct Hp as (Hp1 & _). destruct Hw as (Hw1 & _).
  eexists self1, w1, _, _, _.
  split; [exact Hrun|]. split; [exact Hh|].
  simpl. repeat split; congruence.
Qed.

(** ** Video writers: list positions *)

Lemma length_list_update {A : Type} (f : A -> A) (l : list A) :
  forall i, List.length (list_update i f l) = List.length l.
Proof.
  induction l as [|x l IH]; intros [|i]; simpl; auto.
Qed.

Lemma nth_error_list_update {A : Type} (f : A -> A) (l : list A) :
  forall i j,
  nth_error (list_update i f l) j =
  if Nat.eqb j i then option_map f (nth_error l j) else nth_error l j.
Proof.
  induction l as [|x l IH]; intros [|i] [|j]; simpl; auto;
    destruct (Nat.eqb _ _); reflexivity.
Qed.

Lemma nth_error_snoc {A : Type} (l : list A) (x : A) (j : nat) :
  nth_error (l ++ [x]) j =
  if Nat.ltb j (List.length l) then nth_error l j
  else if Nat.eqb j (List.length l) then Some x else None.
Proof.
  destruct (Nat.ltb j (List.length l)) eqn:Hlt.
  - apply Nat.ltb_lt in Hlt. now apply nth_error_app1.
  - apply Nat.ltb_ge in Hlt. rewrite nth_error_app2 by assumption.
    destruct (Nat.eqb j (List.length l)) eqn:He.
    + apply Nat.eqb_eq in He. subst. now rewrite Nat.sub_diag.
    + apply Nat.eqb_neq in He.
      destruct (j - List.length l)%nat as [|k] eqn:Hk; [lia|].
      simpl. now destruct k.
Qed.

Lemma filter_none {A : Type} (p : A -> bool) (l : list A) :
  (forall i v, nth_error l i = Some v -> p v = false) ->
  filter p l = [].
Proof.
  induction l as [|x l IH]; intros H; simpl; [reflexivity|].
  rewrite (H 0%nat x eq_refl).
  apply IH. intros i v Hi. exact (H (S i) v Hi).
Qed.

(** If only position [k] can satisfy [p], at most one element does. *)
Lemma filter_at_most_one {A : Type} (p : A -> bool) (l : list A) :
  forall k,
  (forall i v, nth_error l i = Some v -> p v = true -> i = k) ->
  (List.length (filter p l) <= 1)%nat.
Proof.
  induction l as [|x l IH]; intros k H; simpl; [lia|].
  assert (Htail : k = 0%nat -> filter p l = []).
  { intros ->. apply filter_none. intros j y Hj.
    destruct (p y) eqn:Hpy; [|reflexivity].
    specialize (H (S j) y Hj Hpy). discriminate. }
  destruct (p x) eqn:Hx.
  - assert (k = 0)%nat by (symmetry; apply (H 0%nat x); auto).
    rewrite (Htail H0). simpl. lia.
  - destruct k as [|k].
    + rewrite (Htail eq_refl). simpl. lia.
    + apply (IH k). intros i v Hi Hp.
      specialize (H (S i) v Hi Hp). lia.
Qed.

(** ** The clip bookkeeping is an invariant *)

Section ClipInvariant.

Variable cfg : Config.
Variable imencode : Frame -> option (list Z).

(** What the clip feed does to the writers: it keeps the bookkeeping, it
    creates no writer, and a writer it releases holds the full count. *)
Lemma feed_inv (frame : Frame) (self : EventHandler.t) (w : World) :
  clip_inv cfg (EventHandler._active_clip self) w ->
  let '(self1, w1) := feed_active_clip frame self w in
  clip_inv cfg (EventHandler._active_clip self1) w1
  /\ List.length (writers w1) = List.length (writers w)
  /\ (forall i v v1 n,
        nth_error (writers w) i = Some v -> vw_released v = false ->
        nth_error (writers w1) i = Some v1 -> vw_released v1 = true ->
        clip_frames cfg = Returned n ->
        Z.of_nat (List.length (vw_frames v1)) = Z.max 0 n).
Proof.
  intros [Hopen Hact].
  unfold feed_active_clip.
  destruct (EventHandler._active_clip self) as [c|] eqn:Hc.
  2:{ rewrite Hc. split; [split; assumption|]. split; [reflexivity|].
      intros i v v1 n Hi Hr. destruct (Hopen i v Hi Hr) as (c & Habs & _). discriminate. }
  destruct (Hact c eq_refl) as (v & Hv & Hrel & Hlen & Hmax & Hbound).
  assert (Honly : forall i u, nth_error (writers w) i = Some u -> vw_released u = false ->
                    i = ClipWriter._writer c).
  { intros i u Hi Hu. destruct (Hopen i u Hi Hu) as (c' & Hc' & <-). congruence. }
  unfold ClipWriter.write, ClipWriter.is_finished, ClipWriter.close, ClipWriter.filepath,
    VideoWriter_release, VideoWriter_write, logger_info, add_log, set_writers, clip_inv.
  destruct (ClipWriter._max_frames c <=? ClipWriter._written c) eqn:Hfin; simpl.
  - (* already complete: nothing is written, the clip is finalised *)
    rewrite Hfin. simpl.
    apply Z.leb_le in Hfin.
    split; [|split].
    + split; [|intros c' Hc'; discriminate].
      intros i u Hi Hu. exfalso.
      rewrite nth_error_list_update in Hi.
      destruct (Nat.eqb i (ClipWriter._writer c)) eqn:He.
      * destruct (nth_error (writers w) i); simpl in Hi; [|discriminate].
        inversion Hi; subst u. discriminate.
      * apply Nat.eqb_neq in He. apply He. eapply Honly; eauto.
    + apply length_list_update.
    + intros i u u1 n Hi Hu Hi1 Hu1 Hn.
      assert (i = ClipWriter._writer c) by (eapply Honly; eauto). subst i.
      rewrite nth_error_list_update, Nat.eqb_refl, Hv in Hi1. simpl in Hi1.
      inversion Hi1; subst u1. simpl.
      assert (n = ClipWriter._max_frames c) by congruence. subst n.
      lia.
  - (* one more frame *)
    apply Z.leb_gt in Hfin.
    set (wr := fun v0 : VideoWriter =>
                 if vw_released v0 then v0
                 else mkVideoWriter (vw_filename v0) (vw_fourcc v0) (vw_fps v0)
                        (vw_frame_size v0) (vw_frames v0 ++ [frame]) false).
    assert (Hwr : wr v = mkVideoWriter (vw_filename v) (vw_fourcc v) (vw_fps v)
                         (vw_frame_size v) (vw_frames v ++ [frame]) false).
    { unfold wr. rewrite Hrel. reflexivity. }
    destruct (ClipWriter._max_frames c <=? ClipWriter._written c + 1) eqn:Hfin'; simpl.
    + (* the clip is complete and is finalised *)
      apply Z.leb_le in Hfin'.
      split; [|split].
      * split; [|intros c' Hc'; discriminate].
        intros i u Hi Hu. exfalso.
        rewrite !nth_error_list_update in Hi.
        destruct (Nat.eqb i (ClipWriter._writer c)) eqn:He.
        -- destruct (nth_error (writers w) i); simpl in Hi; [|discriminate].
           inversion Hi; subst u. discriminate.
        -- apply Nat.eqb_neq in He. apply He. eapply Honly; eauto.
      * rewrite !length_list_update. reflexivity.
      * intros i u u1 n Hi Hu Hi1 Hu1 Hn.
        assert (i = ClipWriter._writer c) by (eapply Honly; eauto). subst i.
        rewrite !nth_error_list_update, Nat.eqb_refl, Hv in Hi1. simpl in Hi1.
        fold wr in Hi1. rewrite Hwr in Hi1.
        inversion Hi1; subst u1. simpl.
        assert (n = ClipWriter._max_frames c) by congruence. subst n.
        rewrite length_app. simpl. lia.
    + (* still recording *)
      apply Z.leb_gt in Hfin'.
      split; [|split].
      * split.
        -- intros i u Hi Hu.
           rewrite nth_error_list_update in Hi.
           destruct (Nat.eqb i (ClipWriter._writer c)) eqn:He.
           ++ apply Nat.eqb_eq in He. eexists. split; [reflexivity|]. simpl. auto.
           ++ apply Nat.eqb_neq in He. exfalso. apply He. eapply Honly; eauto.
        -- intros c' Hc'. inversion Hc'; subst c'. simpl.
           exists (wr v).
           rewrite nth_error_list_update, Nat.eqb_refl, Hv. simpl. fold wr.
           split; [reflexivity|]. rewrite Hwr. simpl.
           rewrite length_app. simpl.
           repeat split; try assumption; lia.
      * apply length_list_update.
      * intros i u u1 n Hi Hu Hi1 Hu1 Hn. exfalso.
        assert (i = ClipWriter._writer c) by (eapply Honly; eauto). subst i.
        rewrite nth_error_list_update, Nat.eqb_refl, Hv in Hi1. simpl in Hi1.
        fold wr in Hi1. rewrite Hwr in Hi1.
        inversion Hi1; subst u1. discriminate.
Qed.

Lemma clip_inv_same_writers (active : option ClipWriter.t) (w w' : World) :
  writers w' = writers w -> clip_inv cfg active w -> clip_inv cfg active w'.
Proof. unfold clip_inv. intros ->. auto. Qed.

(** What [_fire_event] does to the writers: with a clip active it touches
    none and keeps the clip; without one it may append one writer, for the
    clip it opens; the writers that existed are left as they were. *)
Lemma fire_event_inv (frame : Frame) (dets : list Detection) (timestamp : float)
    (iso_ts : string) (self : EventHandler.t) (w : World) :
  clip_inv cfg (EventHandler._active_clip self) w ->
  let '(o, self', w') :=
    EventHandler._fire_event cfg imencode frame dets timestamp iso_ts self w in
  (o = Returned tt -> clip_inv cfg (EventHandler._active_clip self') w')
  /\ (forall i, (i < List.length (writers w))%nat ->
        nth_error (writers w') i = nth_error (writers w) i)
  /\ (forall c, EventHandler._active_clip self = Some c ->
        EventHandler._active_clip self' = Some c /\ writers w' = writers w)
  /\ (forall e, o = Raised e ->
        forall i v, nth_error (writers w') i = Some v -> vw_released v = false ->
                    i = List.length (writers w)).
Proof.
  intros Hinv.
  unfold EventHandler._fire_event.
  destruct (shape frame) as [h wd].
  set (w1 := logger_info _ w).
  set (w2 := if SAVE_SNAPSHOTS cfg then _ else w1).
  assert (Hw2 : writers w2 = writers w).
  { unfold w2, w1. destruct (SAVE_SNAPSHOTS cfg); reflexivity. }
  clearbody w2. clear w1.
  apply (clip_inv_same_writers _ _ _ Hw2) in Hinv.
  rewrite <- Hw2. clear Hw2.
  destruct (SAVE_CLIPS cfg) eqn:Hsave, (EventHandler._active_clip self) as [c|] eqn:Hc;
    try (match goal with
         | |- context [notifier.send_alert cfg imencode ?f ?d ?ts ?w0] =>
             destruct (send_alert_world cfg imencode f d ts w0) as (_ & Hwr & _)
         end;
         cbv beta iota zeta; rewrite Hwr;
         split; [intros _; rewrite ?Hc; apply (clip_inv_same_writers _ _ _ Hwr); assumption|];
         split; [reflexivity|];
         split; [intros c0 Hc0; split; [congruence|reflexivity]|discriminate]).
  (* a new clip is opened *)
  destruct Hinv as [Hopen _].
  assert (Hclosed : forall i v, nth_error (writers w2) i = Some v -> vw_released v = true).
  { intros i v Hi. destruct (vw_released v) eqn:Hr; [reflexivity|].
    destruct (Hopen i v Hi Hr) as (c & Habs & _). discriminate. }
  unfold ClipWriter.__init__, VideoWriter_new.
  destruct (VideoWriter_fourcc (CLIP_CODEC cfg)) as [fourcc|e0].
  2:{ (* the codec is refused: no writer is created *)
      cbv beta iota zeta. split; [discriminate|]. split; [reflexivity|].
      split; [discriminate|].
      intros e1 _ i v Hi Hr. rewrite (Hclosed i v Hi) in Hr. discriminate. }
  fold (clip_frames cfg).
  destruct (clip_frames cfg) as [n|e] eqn:Hn.
  2:{ cbv beta iota zeta. split; [discriminate|]. unfold set_writers; simpl.
      split; [|split; [discriminate|]].
      - intros i Hi. now apply nth_error_app1.
      - intros e0 _ i v Hi Hr. rewrite nth_error_snoc in Hi.
        destruct (Nat.ltb i (List.length (writers w2))).
        + rewrite (Hclosed i v Hi) in Hr. discriminate.
        + destruct (Nat.eqb i (List.length (writers w2))) eqn:He; [|discriminate].
          now apply Nat.eqb_eq in He. }
  unfold ClipWriter.write, ClipWriter.is_finished, VideoWriter_write, logger_info,
    add_log, set_writers.
  cbn [ClipWriter._max_frames ClipWriter._written ClipWriter._writer writers negb].
  match goal with
  | |- context [notifier.send_alert cfg imencode ?f ?d ?ts] =>
      pose proof (fun w0 => send_alert_world cfg imencode f d ts w0) as Halert
  end.
  cbv zeta in Halert.
  unfold clip_inv.
  destruct (n <=? 0) eqn:Hfin; cbn [negb]; cbv beta iota zeta;
    match goal with
    | |- context [notifier.send_alert cfg imencode ?f ?d ?ts ?w0] =>
        destruct (Halert w0) as (_ & Hwr & _); rewrite !Hwr
    end;
    cbn [writers EventHandler._active_clip EventHandler.set_active_clip].
  - (* a clip of no frame: the trigger frame is not written *)
    apply Z.leb_le in Hfin.
    split; [intros _|split; [|split; discriminate]].
    + split.
      * intros i v Hi Hr. rewrite nth_error_snoc in Hi.
        destruct (Nat.ltb i (List.length (writers w2))).
        -- rewrite (Hclosed i v Hi) in Hr. discriminate.
        -- destruct (Nat.eqb i (List.length (writers w2))) eqn:He; [|discriminate].
           apply Nat.eqb_eq in He. eexists. split; [reflexivity|]. simpl. auto.
      * intros c Hc'. inversion Hc'; subst c. simpl.
        eexists. rewrite nth_error_snoc, Nat.ltb_irrefl, Nat.eqb_refl.
        split; [reflexivity|]. simpl. repeat split; try reflexivity; try assumption; lia.
    + intros i Hi. now apply nth_error_app1.
  - (* the trigger frame is the clip's first frame *)
    apply Z.leb_gt in Hfin.
    split; [intros _|split; [|split; discriminate]].
    + split.
      * intros i v Hi Hr. rewrite nth_error_list_update in Hi.
        destruct (Nat.eqb i (List.length (writers w2))) eqn:He.
        -- apply Nat.eqb_eq in He. eexists. split; [reflexivity|]. simpl. auto.
        -- rewrite nth_error_snoc, He in Hi.
           destruct (Nat.ltb i (List.length (writers w2))); [|discriminate].
           rewrite (Hclosed i v Hi) in Hr. discriminate.
      * intros c Hc'. inversion Hc'; subst c. simpl.
        eexists. rewrite nth_error_list_update, Nat.eqb_refl, nth_error_snoc,
          Nat.ltb_irrefl, Nat.eqb_refl.
        split; [reflexivity|]. simpl. repeat split; try reflexivity; try assumption; lia.
    + intros i Hi. rewrite nth_error_list_update.
      destruct (Nat.eqb i (List.length (writers w2))) eqn:He.
      * apply Nat.eqb_eq in He. lia.
      * now apply nth_error_app1.
Qed.

(** One call of [handle]: the bookkeeping survives a call that returns,
    and a writer released during the call holds the full frame count. *)
Lemma handle_clips (c : call) (self : EventHandler.t) (w : World) :
  clip_inv cfg (EventHandler._active_clip self) w ->
  let '(o, self', w') := handle_call cfg imencode c self w in
  ((exists r, o = Returned r) -> clip_inv cfg (EventHandler._active_clip self') w')
  /\ (forall i v v' n,
        nth_error (writers w) i = Some v -> vw_released v = false ->
        nth_error (writers w') i = Some v' -> vw_released v' = true ->
        clip_frames cfg = Returned n ->
        Z.of_nat (List.length (vw_frames v')) = Z.max 0 n)
  /\ (forall e, o = Raised e ->
        forall i v, nth_error (writers w') i = Some v -> vw_released v = false ->
                    i = List.length (writers w)).
Proof.
  intros Hinv. unfold handle_call. rewrite handle_after_feed.
  pose proof (feed_inv (c_frame c) self w Hinv) as Hfeed.
  destruct (feed_active_clip (c_frame c) self w) as [self1 w1].
  destruct Hfeed as (Hinv1 & Hlen & Hrel).
  destruct (0 <? len (c_detections c)); cbv beta iota zeta.
  - cbn [EventHandler._person_present EventHandler.set_last_seen_time
         EventHandler._last_event_time].
    destruct (negb (EventHandler._person_present self1)); cbv beta iota zeta.
    + destruct (EVENT_COOLDOWN_SECONDS cfg <=? c_now c - EventHandler._last_event_time self1)%float;
        cbv beta iota zeta.
      * match goal with
        | |- context [EventHandler._fire_event cfg imencode ?f ?d ?n ?t ?s ?w0] =>
            pose proof (fire_event_inv f d n t s w0 Hinv1) as Hf;
            destruct (EventHandler._fire_event cfg imencode f d n t s w0) as [[o self2] w2]
        end.
        destruct Hf as (Hf1 & Hf2 & Hf3 & Hf4).
        assert (Hold : forall i v v' n,
                  nth_error (writers w) i = Some v -> vw_released v = false ->
                  nth_error (writers w2) i = Some v' -> vw_released v' = true ->
                  clip_frames cfg = Returned n ->
                  Z.of_nat (List.length (vw_frames v')) = Z.max 0 n).
        { intros i v v' n Hi Hr Hi' Hr' Hn.
          assert (Hlt : (i < List.length (writers w1))%nat).
          { rewrite Hlen. apply nth_error_Some. congruence. }
          rewrite (Hf2 i Hlt) in Hi'. eapply Hrel; eauto. }
        destruct o as [[]|e]; cbv beta iota zeta; (split; [|split; [exact Hold|]]).
        -- intros _. apply Hf1. reflexivity.
        -- discriminate.
        -- intros [r Hr]. discriminate.
        -- intros e0 _. rewrite <- Hlen. exact (Hf4 e eq_refl).
      * split; [intros _; exact Hinv1|split; [exact Hrel|discriminate]].
    + split; [intros _; exact Hinv1|split; [exact Hrel|discriminate]].
  - destruct (EventHandler._person_present self1
              && (ABSENCE_GRACE_SECONDS cfg <=? c_now c - EventHandler._last_seen_time self1)%float);
      cbv beta iota zeta; (split; [intros _; exact Hinv1|split; [exact Hrel|discriminate]]).
Qed.

Lemma shutdown_inv (self : EventHandler.t) (w : World) :
  clip_inv cfg (EventHandler._active_clip self) w ->
  clip_inv cfg (EventHandler._active_clip (fst (EventHandler.shutdown cfg self w)))
           (snd (EventHandler.shutdown cfg self w)).
Proof.
  intros [Hopen Hact]. unfold EventHandler.shutdown.
  destruct (EventHandler._active_clip self) as [c|] eqn:Hc.
  - assert (Hwr : forall w0, writers (notifier.send_session_end cfg w0) = writers w0).
    { intros w0. unfold notifier.send_session_end.
      destruct (negb (notifier._is_configured cfg)); reflexivity. }
    unfold clip_inv. simpl. rewrite Hwr. simpl.
    split; [|intros c' Hc'; discriminate].
    intros i v Hi Hr. exfalso.
    rewrite nth_error_list_update in Hi.
    destruct (Nat.eqb i (ClipWriter._writer c)) eqn:He.
    + destruct (nth_error (writers w) i); simpl in Hi; [|discriminate].
      inversion Hi; subst v. discriminate.
    + apply Nat.eqb_neq in He. apply He.
      destruct (Hopen i v Hi Hr) as (c' & Hc' & <-). congruence.
  - simpl. rewrite Hc.
    apply (clip_inv_same_writers None w); [|split; assumption].
    unfold notifier.send_session_end.
    destruct (negb (notifier._is_configured cfg)); reflexivity.
Qed.

Lemma shutdown_releases_only (self : EventHandler.t) (w : World) (k : nat) :
  (forall i v, nth_error (writers w) i = Some v -> vw_released v = false -> i = k) ->
  forall i v,
    nth_error (writers (snd (EventHandler.shutdown cfg self w))) i = Some v ->
    vw_released v = false -> i = k.
Proof.
  intros Honly i v.
  assert (Hwr : forall w0, writers (notifier.send_session_end cfg w0) = writers w0).
  { intros w0. unfold notifier.send_session_end.
    destruct (negb (notifier._is_configured cfg)); reflexivity. }
  unfold EventHandler.shutdown.
  destruct (EventHandler._active_clip self) as [c|]; simpl; rewrite Hwr; simpl.
  - rewrite nth_error_list_update.
    destruct (Nat.eqb i (ClipWriter._writer c)).
    + destruct (nth_error (writers w) i); simpl; [|discriminate].
      intros Hi Hr. inversion Hi; subst v. discriminate.
    + apply Honly.
  - apply Honly.
Qed.

(** The bookkeeping holds in every state of a session. *)
Lemma reachable_inv (self : EventHandler.t) (w : World) :
  reachable cfg imencode self w -> clip_inv cfg (EventHandler._active_clip self) w.
Proof.
  induction 1 as [w0 Hw0|self w c r self' w' _ IH Hstep|self w _ IH].
  - destruct (init_state cfg w0) as (-> & _ & Hwr).
    unfold clip_inv. rewrite Hwr, Hw0. split.
    + intros i v Hi. destruct i; discriminate.
    + intros c Hc. discriminate.
  - pose proof (handle_clips c self w IH) as Hh.
    rewrite Hstep in Hh. destruct Hh as [Hh _]. apply Hh. eauto.
  - now apply shutdown_inv.
Qed.


End ClipInvariant.

(** ** C3: the length of a clip *)

(** C3, as the specification states it, fails: with 2.5 s at 15 fps the
    product is 37.5; the clip opened by the first call is finalised by the
    37th call with 37 frames in its file, and [round] gives 38. *)
Lemma clip_length_is_not_rounded :
  let '(h0, w0) := EventHandler.__init__ half_frame_config empty_world in
  let '(o, h, w) :=
    run half_frame_config (fun _ => None) (repeat person_call 37) h0 w0 in
  o = Returned tt
  /\ EventHandler._active_clip h = None
  /\ map (fun v => (vw_released v, Z.of_nat (List.length (vw_frames v)))) (writers w)
     = [(true, 37)]
  /\ last (log w) (mkLogRecord INFO LogSessionEnded)
     = mkLogRecord INFO (LogClipSaved "outputs/clips/clip_2026-01-01T00-00-00Z.mp4")
  /\ clip_frames_rounded half_frame_config = Returned 38
  /\ clip_frames half_frame_config = Returned 37.
Proof. vm_compute. repeat split. Qed.

Lemma write_when_finished (clip : ClipWriter.t) (frame : Frame) (w : World) :
  ClipWriter.is_finished clip = true -> ClipWriter.write clip frame w = (clip, w).
Proof. intros H. unfold ClipWriter.write. rewrite H. reflexivity. Qed.

(** C3, amended.  In every state of a session, a video writer that a call
    of [handle] releases (the clip is auto-finalised; [shutdown] is not
    involved) holds exactly [int(CLIP_DURATION_S * CLIP_FPS)] frames, the
    product truncated toward zero and not rounded (no frame when that
    number is negative); and [ClipWriter.write] on a finished clip changes
    neither the clip nor the world. *)
Theorem auto_finalized_clip_length
    (cfg : Config) (imencode : Frame -> option (list Z)) :
  (forall (self : EventHandler.t) (w : World) (c : call)
          (o : outcome bool) (self' : EventHandler.t) (w' : World)
          (n : Z) (i : nat) (v v' : VideoWriter),
     reachable cfg imencode self w ->
     handle_call cfg imencode c self w = (o, self', w') ->
     clip_frames cfg = Returned n ->
     nth_error (writers w) i = Some v -> vw_released v = false ->
     nth_error (writers w') i = Some v' -> vw_released v' = true ->
     Z.of_nat (List.length (vw_frames v')) = Z.max 0 n)
  /\ (forall (clip : ClipWriter.t) (frame : Frame) (w : World),
        ClipWriter.is_finished clip = true ->
        ClipWriter.write clip frame w = (clip, w)).
Proof.
  split.
  - intros self w c o self' w' n i v v' Hreach Hstep Hn Hi Hr Hi' Hr'.
    pose proof (handle_clips cfg imencode c self w (reachable_inv cfg imencode self w Hreach))
      as Hh.
    rewrite Hstep in Hh. destruct Hh as (_ & Hh & _). eapply Hh; eauto.
  - exact write_when_finished.
Qed.

(** ** C5: one clip at a time *)

(** Where [ClipWriter.__init__] raises, the call of [handle] raises after
    the presence flag is set and the event is logged; the video writer
    that was just created stays unreleased, and it is the only one. *)
Example handle_raises_when_the_clip_length_is_not_finite :
  let '(o, self, w) :=
    handle_call endless_clip_config (fun _ => None) person_call
      (EventHandler.mk 0 None false 0) empty_world in
  o = Raised OverflowError
  /\ self = EventHandler.mk 100 None true 100
  /\ events_fired w = 1%nat
  /\ List.length (open_writers w) = 1%nat
  /\ threads w = [].
Proof. vm_compute. repeat split. Qed.

(** With a clip active, [_fire_event] keeps it and creates no writer. *)
Lemma fire_event_keeps_active_clip
    (cfg : Config) (imencode : Frame -> option (list Z))
    (frame : Frame) (dets : list Detection) (timestamp : float) (iso_ts : string)
    (self : EventHandler.t) (w : World) (c : ClipWriter.t) :
  EventHandler._active_clip self = Some c ->
  let '(o, self', w') :=
    EventHandler._fire_event cfg imencode frame dets timestamp iso_ts self w in
  o = Returned tt
  /\ EventHandler._active_clip self' = Some c
  /\ writers w' = writers w.
Proof.
  intros Hc. unfold EventHandler._fire_event. rewrite Hc.
  destruct (shape frame) as [h wd].
  match goal with
  | |- context [notifier.send_alert cfg imencode ?f ?d ?ts] =>
      pose proof (fun w0 => send_alert_world cfg imencode f d ts w0) as Halert
  end.
  cbv zeta in Halert.
  destruct (SAVE_SNAPSHOTS cfg), (SAVE_CLIPS cfg); cbv beta iota zeta;
    match goal with
    | |- context [notifier.send_alert cfg imencode ?f ?d ?ts ?w0] =>
        destruct (Halert w0) as (_ & -> & _)
    end; auto.
Qed.


(** ** C7: the constructor validates nothing *)

(** C7, as the specification states it, fails: a cooldown of -1.0 and a
    grace period of 0.0 are accepted; the constructor returns a handler,
    and the handler works (its first call with a detection returns and
    fires an event). *)
Lemma nonpositive_config_is_accepted :
  (EVENT_COOLDOWN_SECONDS nonpositive_config <=? 0)%float = true
  /\ (ABSENCE_GRACE_SECONDS nonpositive_config <=? 0)%float = true
  /\ EventHandler.__init__ nonpositive_config empty_world
     = (EventHandler.mk 0 None false 0, empty_world)
  /\ (let '(o, _, w) :=
         handle_call nonpositive_config (fun _ => None) person_call
           (EventHandler.mk 0 None false 0) empty_world in
       o = Returned true /\ events_fired w = 1%nat).
Proof. vm_compute. repeat split. Qed.

(** C7, amended.  The constructor rejects no configuration: whatever
    [EVENT_COOLDOWN_SECONDS] and [ABSENCE_GRACE_SECONDS] are, positive or
    not, it returns a handler in the initial state (absent, both
    timestamps 0.0, no clip) after sending the session-start notice, and
    it logs nothing. *)
Theorem constructor_accepts_every_config (cfg : Config) (w : World) :
  exists self w',
    EventHandler.__init__ cfg w = (self, w')
    /\ self = EventHandler.mk 0 None false 0
    /\ w' = notifier.send_session_start cfg w
    /\ log w' = log w
    /\ writers w' = writers w.
Proof.
  exists (fst (EventHandler.__init__ cfg w)), (snd (EventHandler.__init__ cfg w)).
  destruct (init_state cfg w) as (Hself & _ & Hwriters).
  split; [apply surjective_pairing|].
  split; [exact Hself|]. split; [reflexivity|]. split; [|exact Hwriters].
  (* the session-start notice goes to a thread or nowhere, never to the log *)
  simpl. unfold notifier.send_session_start.
  destruct (negb (notifier._is_configured cfg)); reflexivity.
Qed.

(** ** C8: the unconfigured notifier *)

Lemma not_configured (cfg : Config) :
  _BOT_TOKEN cfg = EmptyString \/ _CHAT_ID cfg = EmptyString ->
  notifier._is_configured cfg = false.
Proof.
  unfold notifier._is_configured.
  intros [H|H]; rewrite H; simpl; [reflexivity|].
  destruct (truthy (_BOT_TOKEN cfg)) eqn:Ht; [reflexivity|exact Ht].
Qed.

(** C8, as the specification states it, fails for [send_alert]: with no
    credentials it writes a WARNING record to the log, which goes to the
    log file and to the console. *)
Lemma unconfigured_alert_logs_a_warning :
  notifier._is_configured default_config = false
  /\ log empty_world = []
  /\ log (notifier.send_alert default_config (fun _ => None) (Some person_frame)
            (c_detections person_call) "2026-01-01 00-00-00 UTC" empty_world)
     = [mkLogRecord WARNING LogTelegramNotConfigured].
Proof. vm_compute. repeat split. Qed.

(** C8, amended.  When the bot token or the chat id is missing, none of
    [send_alert], [send_session_start], [send_session_end] starts a thread
    (nothing is sent); the two session notices leave the world exactly as
    it was, while [send_alert] adds one WARNING record to the log and
    changes nothing else. *)
Theorem unconfigured_notifier_sends_nothing
    (cfg : Config) (imencode : Frame -> option (list Z))
    (frame : option Frame) (dets : list Detection) (ts : string) (w : World) :
  _BOT_TOKEN cfg = EmptyString \/ _CHAT_ID cfg = EmptyString ->
  notifier.send_alert cfg imencode frame dets ts w
    = logger_warning LogTelegramNotConfigured w
  /\ threads (notifier.send_alert cfg imencode frame dets ts w) = threads w
  /\ notifier.send_session_start cfg w = w
  /\ notifier.send_session_end cfg w = w.
Proof.
  intros H. apply not_configured in H.
  unfold notifier.send_alert, notifier.send_session_start, notifier.send_session_end.
  rewrite H. simpl. auto.
Qed.

(** ** C6: the cadence of the detector *)

Section Cadence.

Variable cfg : Config.
Variable imencode : Frame -> option (list Z).
Variable predict : float -> Frame -> list Detection.
Variable draw_overlays : Frame -> list Detection -> bool -> Frame.

(** [handle] never runs the detector. *)
Lemma handle_inferences (now : float) (iso_ts : string) (frame : Frame)
    (dets : list Detection) (self : EventHandler.t) (w : World) :
  let '(_, _, w') := EventHandler.handle cfg imencode now iso_ts frame dets self w in
  inferences w' = inferences w.
Proof.
  rewrite handle_after_feed.
  pose proof (feed_world frame self w) as Hw.
  destruct (feed_active_clip frame self w) as [self1 w1].
  destruct Hw as (_ & _ & _ & Hinf & _).
  destruct (0 <? len dets); cbv beta iota zeta.
  - destruct (negb _); cbv beta iota zeta; [|assumption].
    destruct (_ <=? _)%float; cbv beta iota zeta; [|assumption].
    match goal with
    | |- context [EventHandler._fire_event cfg imencode ?f ?d ?n ?t ?s ?w0] =>
        pose proof (fire_event_once cfg imencode f d n t s w0) as Hf;
        destruct (EventHandler._fire_event cfg imencode f d n t s w0) as [[o self2] w2]
    end.
    destruct Hf as (_ & _ & _ & _ & Hf).
    destruct o; cbv beta iota zeta; congruence.
  - destruct (_ && _); cbv beta iota zeta; assumption.
Qed.

(** The detections an unpaused iteration works with, and the world after
    its detection step. *)
Lemma iteration_unpaused (i : main.tick) (l : main.locals) (w : World) (frame : Frame) :
  FRAME_SKIP cfg <> 0 ->
  main.paused l = false ->
  main.cap_read i = Some frame ->
  let fc := main.frame_count l + 1 in
  let ran := fc mod FRAME_SKIP cfg =? 0 in
  let dets := if ran then predict (CONFIDENCE_THRESH w) frame else main.detections l in
  let w1 := if ran then add_inference frame w else w in
  let '(o, l', w') := main.iteration cfg imencode predict draw_overlays i l w in
  let '(oh, h, wh) :=
    EventHandler.handle cfg imencode (main.now i) (main.iso_ts i) frame dets
      (main.event_handler l) w1 in
  main.frame_count l' = fc
  /\ main.detections l' = dets
  /\ main.event_handler l' = h
  /\ inferences w' = inferences w1
  /\ writers w' = writers wh
  /\ threads w' = threads wh
  /\ events_fired w' = events_fired wh
  /\ match oh with
     | Returned a => main.alert_active l' = a /\ exists ctl, o = Returned ctl
     | Raised e => o = Raised e
     end.
Proof.
  intros Hskip Hpaused Hread.
  unfold main.iteration. rewrite Hread. cbn [main.paused]. rewrite Hpaused.
  unfold mod_. rewrite (proj2 (Z.eqb_neq _ _) Hskip).
  unfold main.detect.
  cbv zeta.
  destruct (_ mod FRAME_SKIP cfg =? 0);
    cbn [main.event_handler main.paused main.detections main.alert_active
         main.conf_thresh main.frame_count];
    match goal with
    | |- context [EventHandler.handle cfg imencode ?n ?t ?f ?d ?s ?w0] =>
        pose proof (handle_inferences n t f d s w0) as Hinf;
        destruct (EventHandler.handle cfg imencode n t f d s w0) as [[oh h] wh]
    end;
    (destruct oh as [a|e]; [|simpl; repeat split; auto]);
    repeat match goal with
           | |- context [if ?b then _ else _] => destruct b
           end;
    simpl; repeat split; eauto;
    unfold events_fired; simpl; rewrite ?filter_app; simpl; rewrite ?app_nil_r; reflexivity.
Qed.

End Cadence.

(** C6.  In an iteration of the main loop that reads a frame and is not
    paused, with [FRAME_SKIP >= 1]: the detector runs on the frame exactly
    when the incremented frame counter is a multiple of [FRAME_SKIP]; when
    it does not run the previous detection list is kept unchanged; and in
    both cases [handle] is called on this frame with the detections in
    force, its result being the handler state the iteration leaves. *)
Theorem detector_cadence
    (cfg : Config) (imencode : Frame -> option (list Z))
    (predict : float -> Frame -> list Detection)
    (draw_overlays : Frame -> list Detection -> bool -> Frame)
    (i : main.tick) (l : main.locals) (w : World) (frame : Frame) :
  1 <= FRAME_SKIP cfg ->
  main.paused l = false ->
  main.cap_read i = Some frame ->
  let fc := main.frame_count l + 1 in
  let '(o, l', w') := main.iteration cfg imencode predict draw_overlays i l w in
  main.frame_count l' = fc
  /\ (fc mod FRAME_SKIP cfg = 0 ->
      inferences w' = inferences w ++ [frame]
      /\ main.detections l' = predict (CONFIDENCE_THRESH w) frame)
  /\ (fc mod FRAME_SKIP cfg <> 0 ->
      inferences w' = inferences w
      /\ main.detections l' = main.detections l)
  /\ (let '(oh, h, wh) :=
        EventHandler.handle cfg imencode (main.now i) (main.iso_ts i) frame
          (main.detections l') (main.event_handler l)
          (if fc mod FRAME_SKIP cfg =? 0 then add_inference frame w else w) in
      main.event_handler l' = h
      /\ writers w' = writers wh
      /\ threads w' = threads wh
      /\ events_fired w' = events_fired wh
      /\ match oh with
         | Returned a => main.alert_active l' = a /\ exists ctl, o = Returned ctl
         | Raised e => o = Raised e
         end).
Proof.
  intros Hskip Hpaused Hread. cbv zeta.
  assert (Hne : FRAME_SKIP cfg <> 0) by lia.
  pose proof (iteration_unpaused cfg imencode predict draw_overlays i l w frame
                Hne Hpaused Hread) as H.
  cbv zeta in H.
  destruct (main.iteration cfg imencode predict draw_overlays i l w) as [[o l'] w'].
  destruct ((main.frame_count l + 1) mod FRAME_SKIP cfg =? 0) eqn:Hran.
  - apply Z.eqb_eq in Hran.
    destruct (EventHandler.handle cfg imencode (main.now i) (main.iso_ts i) frame
                (predict (CONFIDENCE_THRESH w) frame) (main.event_handler l)
                (add_inference frame w)) as [[oh h] wh] eqn:Hh.
    destruct H as (H1 & H2 & H3 & H4 & H5 & H6 & H7 & H8).
    rewrite H2, Hh.
    split; [assumption|]. split; [intros _; split; [exact H4|reflexivity]|].
    split; [intros Habs; contradiction|].
    repeat split; assumption.
  - apply Z.eqb_neq in Hran.
    destruct (EventHandler.handle cfg imencode (main.now i) (main.iso_ts i) frame
                (main.detections l) (main.event_handler l) w) as [[oh h] wh] eqn:Hh.
    destruct H as (H1 & H2 & H3 & H4 & H5 & H6 & H7 & H8).
    rewrite H2, Hh.
    split; [assumption|]. split; [intros Habs; contradiction|].
    split; [intros _; split; [exact H4|reflexivity]|].
    repeat split; assumption.
Qed.

(** ** The theorems at concrete sessions *)

Lemma cooldown_suppresses_arrival_witness :
  c_detections person_call <> []
  /\ EventHandler._person_present (EventHandler.mk 100 None false 95) = false
  /\ (105 - EventHandler._last_event_time (EventHandler.mk 100 None false 95)
      <? EVENT_COOLDOWN_SECONDS default_config)%float = true
  /\ exists r self' w',
       EventHandler.handle default_config (fun _ => None) 105 "2026-01-01T00-00-05Z"
         person_frame (c_detections person_call)
         (EventHandler.mk 100 None false 95) empty_world = (Returned r, self', w')
       /\ events_fired w' = events_fired empty_world
       /\ images w' = images empty_world
       /\ threads w' = threads empty_world
       /\ EventHandler._person_present self' = false
       /\ EventHandler._last_event_time self' =
          EventHandler._last_event_time (EventHandler.mk 100 None false 95)
       /\ EventHandler._last_seen_time self' = 105%float.
Proof.
  assert (H1 : c_detections person_call <> []) by discriminate.
  split; [exact H1|]. split; [reflexivity|]. split; [reflexivity|].
  exact (cooldown_suppresses_arrival default_config (fun _ => None) 105
           "2026-01-01T00-00-05Z" person_frame (c_detections person_call)
           (EventHandler.mk 100 None false 95) empty_world H1 eq_refl eq_refl).
Defined.

Lemma event_fires_only_on_arrival_witness :
  c_detections person_call <> []
  /\ Forall (fun c' => c_detections c' <> []) [person_call; person_call]
  /\ EventHandler._person_present (EventHandler.mk 0 None false 0) = false
  /\ cooldown_ok default_config person_call (EventHandler.mk 0 None false 0) = true
  /\ (let '(_, _, w1) :=
        handle_call default_config (fun _ => None) person_call
          (EventHandler.mk 0 None false 0) empty_world in
      let '(_, _, w2) :=
        run default_config (fun _ => None) (person_call :: [person_call; person_call])
          (EventHandler.mk 0 None false 0) empty_world in
      events_fired w1 = S (events_fired empty_world)
      /\ events_fired w2 = S (events_fired empty_world)).
Proof.
  assert (H1 : c_detections person_call <> []) by discriminate.
  assert (H2 : Forall (fun c' => c_detections c' <> []) [person_call; person_call])
    by (repeat constructor; exact H1).
  split; [exact H1|]. split; [exact H2|]. split; [reflexivity|]. split; [reflexivity|].
  exact (proj2 (event_fires_only_on_arrival default_config (fun _ => None))
           person_call [person_call; person_call] (EventHandler.mk 0 None false 0)
           empty_world H1 H2 eq_refl eq_refl).
Defined.

Lemma recording_is_reachable :
  reachable two_frame_config (fun _ => None) recording_handler recording_world.
Proof.
  apply (reach_handle two_frame_config (fun _ => None)
           (fst (EventHandler.__init__ two_frame_config empty_world))
           (snd (EventHandler.__init__ two_frame_config empty_world))
           person_call true).
  - apply reach_init. reflexivity.
  - reflexivity.
Defined.

Lemma auto_finalized_clip_length_witness :
  let v := mkVideoWriter "outputs/clips/clip_2026-01-01T00-00-00Z.mp4" "mp4v" (Int 1)
             (2, 2) [person_frame] false in
  let v' := mkVideoWriter "outputs/clips/clip_2026-01-01T00-00-00Z.mp4" "mp4v" (Int 1)
              (2, 2) [person_frame; person_frame] true in
  let step := handle_call two_frame_config (fun _ => None) person_call
                recording_handler recording_world in
  reachable two_frame_config (fun _ => None) recording_handler recording_world
  /\ clip_frames two_frame_config = Returned 2
  /\ nth_error (writers recording_world) 0 = Some v
  /\ vw_released v = false
  /\ nth_error (writers (snd step)) 0 = Some v'
  /\ vw_released v' = true
  /\ Z.of_nat (List.length (vw_frames v')) = Z.max 0 2.
Proof.
  intros v v' step.
  split; [exact recording_is_reachable|].
  split; [reflexivity|]. split; [reflexivity|]. split; [reflexivity|].
  split; [reflexivity|]. split; [reflexivity|].
  exact (proj1 (auto_finalized_clip_length two_frame_config (fun _ => None))
           recording_handler recording_world person_call
           (fst (fst step)) (snd (fst step)) (snd step) 2 0%nat v v'
           recording_is_reachable eq_refl eq_refl eq_refl eq_refl eq_refl eq_refl).
Defined.

Lemma absence_grace_witness :
  let present := EventHandler.mk 0 None true 5 in
  EventHandler._person_present present = true
  /\ (ABSENCE_GRACE_SECONDS default_config <? 8 - EventHandler._last_seen_time present)%float
     = true
  /\ (let '(o, self', w') :=
        EventHandler.handle default_config (fun _ => None) 8 "t" person_frame []
          present empty_world in
      o = Returned false
      /\ EventHandler._person_present self' = false
      /\ log w' = [mkLogRecord INFO LogPersonLeft])
  /\ (7 - EventHandler._last_seen_time present =? ABSENCE_GRACE_SECONDS default_config)%float
     = true
  /\ (let '(o, self', w') :=
        EventHandler.handle default_config (fun _ => None) 7 "t" person_frame []
          present empty_world in
      o = Returned false
      /\ EventHandler._person_present self' = false
      /\ log w' = [mkLogRecord INFO LogPersonLeft])
  /\ (6 - EventHandler._last_seen_time present <? ABSENCE_GRACE_SECONDS default_config)%float
     = true
  /\ (let '(o, self', w') :=
        EventHandler.handle default_config (fun _ => None) 6 "t" person_frame []
          present empty_world in
      o = Returned true
      /\ EventHandler._person_present self' = true
      /\ self' = present
      /\ w' = empty_world).
Proof.
  intros present.
  split; [reflexivity|]. split; [reflexivity|].
  pose proof (proj1 (proj2 (proj2 (absence_grace default_config (fun _ => None) 7 "t"
                                     person_frame present empty_world eq_refl))) eq_refl)
    as (E1 & E2 & E3 & _).
  pose proof (proj1 (proj2 (absence_grace default_config (fun _ => None) 8 "t"
                              person_frame present empty_world eq_refl)) eq_refl)
    as (D1 & D2 & D3 & _).
  pose proof (proj2 (proj2 (proj2 (absence_grace default_config (fun _ => None) 6 "t"
                                     person_frame present empty_world eq_refl))) eq_refl)
    as (S1 & S2 & S3 & S4 & _).
  split; [exact (conj D1 (conj D2 D3))|].
  split; [reflexivity|].
  split; [exact (conj E1 (conj E2 E3))|].
  split; [reflexivity|].
  exact (conj S1 (conj S2 (conj S3 S4))).
Defined.


Lemma detector_cadence_witness :
  let predict := fun (_ : float) (_ : Frame) => c_detections person_call in
  let draw := fun (f : Frame) (_ : list Detection) (_ : bool) => f in
  let i := main.mkTick (Some person_frame) 100 "2026-01-01T00-00-00Z" 255
             "2026-01-01T00-00-00Z" in
  let l := main.mkLocals (EventHandler.mk 0 None false 0) false 0 [] false
             (CONFIDENCE_THRESH empty_world) in
  1 <= FRAME_SKIP default_config
  /\ main.paused l = false
  /\ main.cap_read i = Some person_frame
  /\ (let '(o, l', w') :=
        main.iteration default_config (fun _ => None) predict draw i l empty_world in
      main.frame_count l' = main.frame_count l + 1
      /\ inferences w' = [person_frame]
      /\ main.detections l' = c_detections person_call
      /\ events_fired w' = 1%nat).
Proof.
  intros predict draw i l.
  assert (H1 : 1 <= FRAME_SKIP default_config) by (apply Z.le_refl).
  split; [exact H1|]. split; [reflexivity|]. split; [reflexivity|].
  pose proof (detector_cadence default_config (fun _ => None) predict draw i l
                empty_world person_frame H1 eq_refl eq_refl) as H.
  cbv zeta in H.
  destruct (main.iteration default_config (fun _ => None) predict draw i l empty_world)
    as [[o l'] w'].
  destruct H as (Hfc & Hran & _ & Hhandle).
  destruct (Hran eq_refl) as (Hinf & Hdets).
  split; [exact Hfc|]. split; [exact Hinf|]. split; [exact Hdets|].
  rewrite Hdets in Hhandle.
  exact (proj1 (proj2 (proj2 (proj2 Hhandle)))).
Defined.

Lemma unconfigured_notifier_sends_nothing_witness :
  (_BOT_TOKEN default_config = EmptyString \/ _CHAT_ID default_config = EmptyString)
  /\ notifier.send_alert default_config (fun _ => None) (Some person_frame)
       (c_detections person_call) "2026-01-01 00-00-00 UTC" empty_world
     = logger_warning LogTelegramNotConfigured empty_world
  /\ threads (notifier.send_alert default_config (fun _ => None) (Some person_frame)
                (c_detections person_call) "2026-01-01 00-00-00 UTC" empty_world)
     = threads empty_world
  /\ notifier.send_session_start default_config empty_world = empty_world
  /\ notifier.send_session_end default_config empty_world = empty_world.
Proof.
  split; [left; reflexivity|].
  exact (unconfigured_notifier_sends_nothing default_config (fun _ => None)
           (Some person_frame) (c_detections person_call) "2026-01-01 00-00-00 UTC"
           empty_world (or_introl eq_refl)).
Defined.

Lemma idle_after_departure_witness :
  Forall (fun c => c_detections c = []) [empty_call 101; empty_call 102]
  /\ EventHandler._person_present (EventHandler.mk 90 None false 95) = false
  /\ exists self' w',
       run default_config (fun _ => None) [empty_call 101; empty_call 102]
         (EventHandler.mk 90 None false 95) empty_world = (Returned tt, self', w')
       /\ events_fired w' = events_fired empty_world
       /\ EventHandler._person_present self' = false
       /\ EventHandler._last_seen_time self' =
          EventHandler._last_seen_time (EventHandler.mk 90 None false 95)
       /\ EventHandler._last_event_time self' =
          EventHandler._last_event_time (EventHandler.mk 90 None false 95).
Proof.
  assert (H1 : Forall (fun c => c_detections c = []) [empty_call 101; empty_call 102])
    by (repeat constructor).
  split; [exact H1|]. split; [reflexivity|].
  exact (idle_after_departure default_config (fun _ => None)
           [empty_call 101; empty_call 102] (EventHandler.mk 90 None false 95)
           empty_world H1 eq_refl).
Defined.

Lemma first_arrival_gated_by_clock_origin_witness :
  Forall (fun c' => c_detections c' = []) [empty_call 1; empty_call 2]
  /\ c_detections early_call <> []
  /\ (c_now early_call <? EVENT_COOLDOWN_SECONDS default_config)%float = true
  /\ exists self1 w1 r self2 w2,
       run default_config (fun _ => None) [empty_call 1; empty_call 2]
         (fst (EventHandler.__init__ default_config empty_world))
         (snd (EventHandler.__init__ default_config empty_world))
       = (Returned tt, self1, w1)
       /\ handle_call default_config (fun _ => None) early_call self1 w1
          = (Returned r, self2, w2)
       /\ events_fired w2 = events_fired empty_world
       /\ EventHandler._person_present self2 = false
       /\ cooldown_ok default_config early_call self1 = false.
Proof.
  assert (H1 : Forall (fun c' => c_detections c' = []) [empty_call 1; empty_call 2])
    by (repeat constructor).
  assert (H2 : c_detections early_call <> []) by discriminate.
  split; [exact H1|]. split; [exact H2|]. split; [reflexivity|].
  exact (first_arrival_gated_by_clock_origin default_config (fun _ => None) empty_world
           [empty_call 1; empty_call 2] early_call H1 H2 eq_refl).
Defined.

(* ====================================================================== *)
(** * Part III: further properties of the code *)
(* ====================================================================== *)

(** ** What one call of [handle] adds to the world *)

Section CallEffects.

Variable cfg : Config.
Variable imencode : Frame -> option (list Z).

Lemma writer_extends_refl (v : VideoWriter) : writer_extends v v.
Proof.
  split; [reflexivity|]. split; [exists []; now rewrite app_nil_r|auto].
Qed.

Lemma writer_extends_trans (v1 v2 v3 : VideoWriter) :
  writer_extends v1 v2 -> writer_extends v2 v3 -> writer_extends v1 v3.
Proof.
  intros (Hn1 & [fs1 Hf1] & Hr1) (Hn2 & [fs2 Hf2] & Hr2).
  split; [congruence|]. split.
  - exists (fs1 ++ fs2). rewrite Hf2, Hf1. now rewrite app_assoc.
  - intros Hr. specialize (Hr1 Hr). subst v2. auto.
Qed.

(** Writing to a video writer and releasing it both extend it. *)
Lemma write_extends (frame : Frame) (v : VideoWriter) :
  writer_extends v
    (if vw_released v then v
     else mkVideoWriter (vw_filename v) (vw_fourcc v) (vw_fps v) (vw_frame_size v)
            (vw_frames v ++ [frame]) false).
Proof.
  destruct (vw_released v) eqn:Hr; [apply writer_extends_refl|].
  split; [reflexivity|]. split; [exists [frame]; reflexivity|].
  intros Habs. congruence.
Qed.

Lemma release_extends (v : VideoWriter) :
  writer_extends v
    (mkVideoWriter (vw_filename v) (vw_fourcc v) (vw_fps v) (vw_frame_size v)
       (vw_frames v) true).
Proof.
  split; [reflexivity|]. split; [exists []; simpl; now rewrite app_nil_r|].
  intros Hr. destruct v; simpl in *. now subst.
Qed.

Lemma list_update_extends (f : VideoWriter -> VideoWriter) (k : nat)
    (l : list VideoWriter) (i : nat) (v : VideoWriter) :
  (forall u, writer_extends u (f u)) ->
  nth_error l i = Some v ->
  exists v', nth_error (list_update k f l) i = Some v' /\ writer_extends v v'.
Proof.
  intros Hf Hi. rewrite nth_error_list_update.
  destruct (Nat.eqb i k); rewrite Hi; simpl; eexists; split; try reflexivity.
  - apply Hf.
  - apply writer_extends_refl.
Qed.

(** The clip feed: the log grows at its end, every video writer is
    extended, and none is created. *)
Lemma feed_effects (frame : Frame) (self : EventHandler.t) (w : World) :
  let '(self1, w1) := feed_active_clip frame self w in
  (exists l, log w1 = log w ++ l)
  /\ List.length (writers w1) = List.length (writers w)
  /\ (forall i v, nth_error (writers w) i = Some v ->
        exists v', nth_error (writers w1) i = Some v' /\ writer_extends v v').
Proof.
  unfold feed_active_clip, ClipWriter.write, ClipWriter.close,
    VideoWriter_write, VideoWriter_release, logger_info, add_log, set_writers.
  destruct (EventHandler._active_clip self) as [c|].
  2:{ split; [exists []; now rewrite app_nil_r|]. split; [reflexivity|].
      intros i v Hi. exists v. split; [assumption|apply writer_extends_refl]. }
  destruct (negb (ClipWriter.is_finished c)); cbv beta iota zeta;
    match goal with |- context [if ?b then _ else _] => destruct b end;
    cbn [log writers ClipWriter._writer];
    (split; [eexists; try reflexivity; now rewrite app_nil_r|]);
    rewrite ?length_list_update; (split; [reflexivity|]);
    intros i v Hi.
  - destruct (list_update_extends _ (ClipWriter._writer c) _ i v
                (write_extends frame) Hi) as (v1 & Hv1 & He1).
    destruct (list_update_extends _ (ClipWriter._writer c) _ i v1
                release_extends Hv1) as (v2 & Hv2 & He2).
    exists v2. split; [exact Hv2|]. eapply writer_extends_trans; eauto.
  - apply list_update_extends; [apply write_extends|assumption].
  - apply list_update_extends; [apply release_extends|assumption].
  - exists v. split; [assumption|apply writer_extends_refl].
Qed.

(** The event-fire procedure: one snapshot when snapshots are on, one
    thread when the notifier is configured and the procedure returns, no
    change to an existing video writer; it raises only where the
    constructor of the clip it opens does. *)
Lemma fire_event_effects (frame : Frame) (dets : list Detection) (timestamp : float)
    (iso_ts : string) (self : EventHandler.t) (w : World) :
  let '(o, self', w') :=
    EventHandler._fire_event cfg imencode frame dets timestamp iso_ts self w in
  (exists l, log w' = log w ++ l)
  /\ images w' =
     images w ++ (if SAVE_SNAPSHOTS cfg then [(snapshot_path cfg iso_ts, frame)] else [])
  /\ threads w' =
     threads w ++
     match o with
     | Returned _ =>
         if notifier._is_configured cfg
         then [alert_thread imencode (mkCall timestamp iso_ts frame dets)]
         else []
     | Raised _ => []
     end
  /\ (forall i, (i < List.length (writers w))%nat ->
        nth_error (writers w') i = nth_error (writers w) i)
  /\ (List.length (writers w) <= List.length (writers w'))%nat
  /\ (forall e, o = Raised e ->
        clip_opens cfg = Raised e /\ SAVE_CLIPS cfg = true
        /\ EventHandler._active_clip self = None).
Proof.
  unfold EventHandler._fire_event, alert_thread, snapshot_path, clip_opens.
  destruct (shape frame) as [h wd].
  cbn [c_frame c_detections c_iso_ts].
  set (w1 := logger_info _ w).
  set (w2 := if SAVE_SNAPSHOTS cfg then _ else w1).
  assert (H2 : (exists l, log w2 = log w ++ l)
               /\ images w2 =
                  images w ++
                  (if SAVE_SNAPSHOTS cfg
                   then [(path_join (SNAPSHOTS_DIR cfg)
                            ("snapshot_" ++ iso_ts ++ ".jpg")%string, frame)]
                   else [])
               /\ threads w2 = threads w
               /\ writers w2 = writers w).
  { unfold w2, w1, logger_info, add_log, add_image.
    destruct (SAVE_SNAPSHOTS cfg); cbn [log images threads writers];
      rewrite ?app_nil_r; rewrite <- ?app_assoc; repeat split; eexists; reflexivity. }
  clearbody w2. clear w1.
  destruct H2 as ([l2 Hlog2] & Himg & Hthr & Hwr).
  rewrite <- Himg, <- Hthr, <- Hwr. clear Himg Hthr Hwr.
  assert (Hgoal : forall lg : list LogRecord,
    (exists l, lg = log w2 ++ l) ->
    forall P : Prop, P ->
    (exists l, lg = log w ++ l) /\ P).
  { intros lg [l Hl] P HP. split; [|exact HP].
    exists (l2 ++ l). rewrite Hl, Hlog2. now rewrite app_assoc. }
  unfold notifier.send_alert, ClipWriter.__init__, VideoWriter_new.
  fold (clip_frames cfg).
  unfold ClipWriter.write, ClipWriter.is_finished, VideoWriter_write,
    logger_info, logger_warning, add_log, start_thread, set_writers.
  destruct (SAVE_CLIPS cfg) eqn:Hsave, (EventHandler._active_clip self) as [c|] eqn:Hc;
    try destruct (VideoWriter_fourcc (CLIP_CODEC cfg)) as [fourcc|e1] eqn:Hfourcc;
    try destruct (clip_frames cfg) as [n|e] eqn:Hn;
    cbv beta iota zeta;
    cbn [ClipWriter._max_frames ClipWriter._written ClipWriter._writer negb
         log images threads writers bind];
    try destruct (n <=? 0); cbn [negb]; cbv beta iota zeta;
    destruct (notifier._is_configured cfg); cbn [negb];
    try destruct (imencode frame) as [buf|];
    cbn [log images threads writers];
    rewrite ?app_nil_r;
    (apply Hgoal;
     [rewrite <- ?app_assoc; eexists; try reflexivity; now rewrite app_nil_r|]);
    (split; [reflexivity|]);
    (split; [reflexivity|]);
    (split; [intros i Hi; rewrite ?nth_error_list_update;
             try (replace (Nat.eqb i (List.length (writers w2))) with false
                    by (symmetry; apply Nat.eqb_neq; lia));
             try reflexivity; now apply nth_error_app1|]);
    (split; [rewrite ?length_list_update, ?length_app; simpl; lia|]);
    intros e0 He0; try discriminate; inversion He0; subst; auto.
Qed.

(** One call of [handle], in full: what it appends, and the two ways it
    can go, without an event or with one. *)
Lemma handle_effects (c : call) (self : EventHandler.t) (w : World) :
  let '(o, self', w') := handle_call cfg imencode c self w in
  (exists l, log w' = log w ++ l)
  /\ (List.length (writers w) <= List.length (writers w'))%nat
  /\ (forall i v, nth_error (writers w) i = Some v ->
        exists v', nth_error (writers w') i = Some v' /\ writer_extends v v')
  /\ ((events_fired w' = events_fired w
       /\ images w' = images w
       /\ threads w' = threads w
       /\ EventHandler._last_event_time self' = EventHandler._last_event_time self
       /\ exists r, o = Returned r)
      \/ (events_fired w' = S (events_fired w)
          /\ images w' =
             images w ++
             (if SAVE_SNAPSHOTS cfg then [(snapshot_path cfg (c_iso_ts c), c_frame c)]
              else [])
          /\ threads w' =
             threads w ++
             match o with
             | Returned _ =>
                 if notifier._is_configured cfg then [alert_thread imencode c] else []
             | Raised _ => []
             end
          /\ EventHandler._last_event_time self' = c_now c
          /\ (forall e, o = Raised e ->
                clip_opens cfg = Raised e /\ SAVE_CLIPS cfg = true))).
Proof.
  unfold handle_call. rewrite handle_after_feed.
  pose proof (feed_presence (c_frame c) self w) as Hp.
  pose proof (feed_world (c_frame c) self w) as Hw.
  pose proof (feed_effects (c_frame c) self w) as He.
  destruct (feed_active_clip (c_frame c) self w) as [self1 w1].
  destruct Hp as (Hp1 & Hp2 & Hp3).
  destruct Hw as (Hw1 & Hw2 & Hw3 & _).
  destruct He as (Hlog & Hlen & Hext).
  assert (Hquiet :
    (exists l, log w1 = log w ++ l)
    /\ (List.length (writers w) <= List.length (writers w1))%nat
    /\ (forall i v, nth_error (writers w) i = Some v ->
          exists v', nth_error (writers w1) i = Some v' /\ writer_extends v v')).
  { split; [assumption|]. split; [lia|assumption]. }
  destruct (0 <? len (c_detections c)); cbv beta iota zeta.
  - cbn [EventHandler._person_present EventHandler.set_last_seen_time
         EventHandler._last_event_time].
    destruct (negb (EventHandler._person_present self1)); cbv beta iota zeta;
      [|destruct Hquiet as (Q1 & Q2 & Q3); repeat split; try assumption;
        left; repeat split; try assumption; eauto].
    destruct (EVENT_COOLDOWN_SECONDS cfg <=? c_now c - EventHandler._last_event_time self1)%float;
      cbv beta iota zeta;
      [|destruct Hquiet as (Q1 & Q2 & Q3); repeat split; try assumption;
        left; repeat split; try assumption; eauto].
    match goal with
    | |- context [EventHandler._fire_event cfg imencode ?f ?d ?n ?t ?s ?w0] =>
        pose proof (fire_event_once cfg imencode f d n t s w0) as Hf;
        pose proof (fire_event_effects f d n t s w0) as Hg;
        destruct (EventHandler._fire_event cfg imencode f d n t s w0) as [[o self2] w2]
    end.
    destruct Hf as (Hf1 & _ & Hf3 & _).
    destruct Hg as ([l2 Hg1] & Hg2 & Hg3 & Hg4 & Hg5 & Hg6).
    destruct Hlog as [l1 Hlog].
    assert (Hall :
      (exists l, log w2 = log w ++ l)
      /\ (List.length (writers w) <= List.length (writers w2))%nat
      /\ (forall i v, nth_error (writers w) i = Some v ->
            exists v', nth_error (writers w2) i = Some v' /\ writer_extends v v')
      /\ events_fired w2 = S (events_fired w)
      /\ images w2 =
         images w ++
         (if SAVE_SNAPSHOTS cfg then [(snapshot_path cfg (c_iso_ts c), c_frame c)] else [])
      /\ EventHandler._last_event_time self2 = c_now c).
    { split; [exists (l1 ++ l2); rewrite Hg1, Hlog; now rewrite app_assoc|].
      split; [lia|]. split.
      - intros i v Hi. destruct (Hext i v Hi) as (v' & Hv' & Hvv').
        exists v'. split; [|assumption].
        rewrite Hg4; [assumption|]. apply nth_error_Some. congruence.
      - repeat split; try congruence. rewrite Hf3. reflexivity. }
    destruct Hall as (A1 & A2 & A3 & A4 & A5 & A6).
    assert (Hthreads : threads w2 =
              threads w ++
              match o with
              | Returned _ =>
                  if notifier._is_configured cfg then [alert_thread imencode c] else []
              | Raised _ => []
              end).
    { rewrite Hg3, Hw3. destruct c; reflexivity. }
    destruct o as [[]|e]; cbv beta iota zeta;
      (split; [exact A1|]); (split; [exact A2|]); (split; [exact A3|]); right;
      (split; [exact A4|]); (split; [exact A5|]); (split; [exact Hthreads|]);
      (split; [exact A6|]).
    + discriminate.
    + intros e0 He0. inversion He0; subst e0.
      destruct (Hg6 e eq_refl) as (G1 & G2 & _). auto.
  - destruct (EventHandler._person_present self1
              && (ABSENCE_GRACE_SECONDS cfg <=? c_now c - EventHandler._last_seen_time self1)%float);
      cbv beta iota zeta; destruct Hquiet as ([l1 Q1] & Q2 & Q3).
    + unfold logger_info, add_log; cbn [log writers images threads].
      split; [exists (l1 ++ [mkLogRecord INFO LogPersonLeft]); rewrite Q1;
              now rewrite app_assoc|].
      split; [assumption|]. split; [assumption|].
      left. unfold events_fired in *. cbn [log]. rewrite filter_app, length_app.
      simpl. repeat split; try assumption; try lia; eauto.
    + split; [eauto|]. split; [assumption|]. split; [assumption|].
      left. repeat split; try assumption; eauto.
Qed.

End CallEffects.

(** ** X1: a session only appends *)

(** X1.  Over any run of calls of [handle], whether it ends normally or
    by an exception, the log, the saved images and the started threads
    only grow at their end, and every video writer that existed is still
    there with the same file name and its frames extended at the end; a
    writer that was released is left exactly as it was. *)
Theorem run_only_appends
    (cfg : Config) (imencode : Frame -> option (list Z)) (cs : list call) :
  forall (self : EventHandler.t) (w : World),
  let '(_, _, w') := run cfg imencode cs self w in
  (exists l, log w' = log w ++ l)
  /\ (exists l, images w' = images w ++ l)
  /\ (exists l, threads w' = threads w ++ l)
  /\ (forall i v, nth_error (writers w) i = Some v ->
        exists v', nth_error (writers w') i = Some v' /\ writer_extends v v').
Proof.
  induction cs as [|c cs IH]; intros self w.
  - simpl. repeat split; try (exists []; now rewrite app_nil_r).
    intros i v Hi. exists v. split; [assumption|apply writer_extends_refl].
  - simpl.
    pose proof (handle_effects cfg imencode c self w) as Hstep.
    destruct (handle_call cfg imencode c self w) as [[o self1] w1].
    destruct Hstep as ([l1 Hlog] & _ & Hext & Hcase).
    assert (Himg : exists l, images w1 = images w ++ l).
    { destruct Hcase as [(_ & -> & _)|(_ & -> & _)]; eexists; try reflexivity.
      now rewrite app_nil_r. }
    assert (Hthr : exists l, threads w1 = threads w ++ l).
    { destruct Hcase as [(_ & _ & -> & _)|(_ & _ & -> & _)]; eexists; try reflexivity.
      now rewrite app_nil_r. }
    destruct Himg as [l2 Himg]. destruct Hthr as [l3 Hthr].
    destruct o as [r|e].
    + specialize (IH self1 w1).
      destruct (run cfg imencode cs self1 w1) as [[o2 self2] w2].
      destruct IH as ([m1 IH1] & [m2 IH2] & [m3 IH3] & IH4).
      split; [exists (l1 ++ m1); rewrite IH1, Hlog; now rewrite app_assoc|].
      split; [exists (l2 ++ m2); rewrite IH2, Himg; now rewrite app_assoc|].
      split; [exists (l3 ++ m3); rewrite IH3, Hthr; now rewrite app_assoc|].
      intros i v Hi.
      destruct (Hext i v Hi) as (v1 & Hv1 & He1).
      destruct (IH4 i v1 Hv1) as (v2 & Hv2 & He2).
      exists v2. split; [assumption|]. eapply writer_extends_trans; eauto.
    + repeat split; eauto.
Qed.

(** ** X2: the debounce anchor *)

(** X2.  A call of [handle] either fires no event and leaves
    [_last_event_time] as it was, or fires exactly one and sets
    [_last_event_time] to the time of the call; in the second case that
    time is at least [EVENT_COOLDOWN_SECONDS] after the previous anchor.
    So [_last_event_time] is always the time of the latest event, and two
    events are never closer than the cooldown. *)
Theorem debounce_anchor
    (cfg : Config) (imencode : Frame -> option (list Z))
    (c : call) (self : EventHandler.t) (w : World) :
  let '(_, self', w') := handle_call cfg imencode c self w in
  (events_fired w' = events_fired w
   /\ EventHandler._last_event_time self' = EventHandler._last_event_time self)
  \/ (events_fired w' = S (events_fired w)
      /\ EventHandler._last_event_time self' = c_now c
      /\ (EVENT_COOLDOWN_SECONDS cfg
          <=? c_now c - EventHandler._last_event_time self)%float = true).
Proof.
  pose proof (handle_effects cfg imencode c self w) as He.
  pose proof (handle_fires_at_most_once cfg imencode c self w) as Hf.
  destruct (handle_call cfg imencode c self w) as [[o self1] w1].
  destruct He as (_ & _ & _ & [(E1 & _ & _ & E2 & _)|(E1 & _ & _ & E2 & _)]).
  - left. split; assumption.
  - right. split; [assumption|]. split; [assumption|].
    destruct Hf as [(F1 & _)|(_ & _ & _ & _ & F2)]; [lia|exact F2].
Qed.

(** ** X3, X4: what an event produces *)

(** X3.  A call of [handle] that fires an event saves, when
    [SAVE_SNAPSHOTS] is on, exactly one image: the frame of that call,
    under the snapshot path of its timestamp; a call that fires none saves
    no image.  Over any run of calls the number of images saved is the
    number of events fired (none when [SAVE_SNAPSHOTS] is off). *)
Theorem one_snapshot_per_event
    (cfg : Config) (imencode : Frame -> option (list Z)) :
  (forall (c : call) (self : EventHandler.t) (w : World),
     let '(_, _, w') := handle_call cfg imencode c self w in
     (events_fired w' = events_fired w /\ images w' = images w)
     \/ (events_fired w' = S (events_fired w)
         /\ images w' =
            images w ++
            (if SAVE_SNAPSHOTS cfg then [(snapshot_path cfg (c_iso_ts c), c_frame c)]
             else [])))
  /\ (forall (cs : list call) (self : EventHandler.t) (w : World),
        let '(_, _, w') := run cfg imencode cs self w in
        exists k,
          events_fired w' = (events_fired w + k)%nat
          /\ List.length (images w') =
             (List.length (images w) + (if SAVE_SNAPSHOTS cfg then k else 0))%nat).
Proof.
  assert (Hcall : forall c self w,
            let '(_, _, w') := handle_call cfg imencode c self w in
            (events_fired w' = events_fired w /\ images w' = images w)
            \/ (events_fired w' = S (events_fired w)
                /\ images w' =
                   images w ++
                   (if SAVE_SNAPSHOTS cfg
                    then [(snapshot_path cfg (c_iso_ts c), c_frame c)] else []))).
  { intros c self w.
    pose proof (handle_effects cfg imencode c self w) as He.
    destruct (handle_call cfg imencode c self w) as [[o self1] w1].
    destruct He as (_ & _ & _ & [(E1 & E2 & _)|(E1 & E2 & _)]); [left|right]; auto. }
  split; [exact Hcall|].
  induction cs as [|c cs IH]; intros self w.
  - simpl. exists 0%nat. destruct (SAVE_SNAPSHOTS cfg); lia.
  - simpl. specialize (Hcall c self w).
    destruct (handle_call cfg imencode c self w) as [[o self1] w1].
    assert (Hone : exists k, events_fired w1 = (events_fired w + k)%nat
                     /\ List.length (images w1) =
                        (List.length (images w)
                         + (if SAVE_SNAPSHOTS cfg then k else 0))%nat).
    { destruct Hcall as [(E1 & E2)|(E1 & E2)].
      - exists 0%nat. rewrite E1, E2. destruct (SAVE_SNAPSHOTS cfg); lia.
      - exists 1%nat. rewrite E1, E2, length_app.
        destruct (SAVE_SNAPSHOTS cfg); simpl; lia. }
    destruct Hone as (k1 & Hk1 & Hi1).
    destruct o as [r|e]; [|exists k1; auto].
    specialize (IH self1 w1).
    destruct (run cfg imencode cs self1 w1) as [[o2 self2] w2].
    destruct IH as (k2 & Hk2 & Hi2).
    exists (k1 + k2)%nat. rewrite Hk2, Hi2, Hk1, Hi1.
    destruct (SAVE_SNAPSHOTS cfg); lia.
Qed.

(** X4.  A call of [handle] that fires an event and returns starts, when
    the notifier is configured, exactly one thread: the photo with the
    caption of that call when the frame could be encoded, the caption as
    text otherwise; a call that fires no event starts none.  Over a run of
    calls that ends normally the number of threads started is the number
    of events fired (none when the notifier is not configured). *)
Theorem one_notification_per_event
    (cfg : Config) (imencode : Frame -> option (list Z)) :
  (forall (c : call) (self : EventHandler.t) (w : World),
     let '(o, _, w') := handle_call cfg imencode c self w in
     (events_fired w' = events_fired w /\ threads w' = threads w)
     \/ (events_fired w' = S (events_fired w)
         /\ forall r, o = Returned r ->
            threads w' =
            threads w ++
            (if notifier._is_configured cfg then [alert_thread imencode c] else [])))
  /\ (forall (cs : list call) (self : EventHandler.t) (w : World),
        let '(o, _, w') := run cfg imencode cs self w in
        o = Returned tt ->
        exists k,
          events_fired w' = (events_fired w + k)%nat
          /\ List.length (threads w') =
             (List.length (threads w)
              + (if notifier._is_configured cfg then k else 0))%nat).
Proof.
  assert (Hcall : forall c self w,
            let '(o, _, w') := handle_call cfg imencode c self w in
            (events_fired w' = events_fired w /\ threads w' = threads w)
            \/ (events_fired w' = S (events_fired w)
                /\ forall r, o = Returned r ->
                   threads w' =
                   threads w ++
                   (if notifier._is_configured cfg then [alert_thread imencode c]
                    else []))).
  { intros c self w.
    pose proof (handle_effects cfg imencode c self w) as He.
    destruct (handle_call cfg imencode c self w) as [[o self1] w1].
    destruct He as (_ & _ & _ & [(E1 & _ & E3 & _)|(E1 & _ & E3 & _)]); [left|right]; auto.
    split; [assumption|]. intros r ->. exact E3. }
  split; [exact Hcall|].
  induction cs as [|c cs IH]; intros self w.
  - simpl. intros _. exists 0%nat. destruct (notifier._is_configured cfg); lia.
  - simpl. specialize (Hcall c self w).
    destruct (handle_call cfg imencode c self w) as [[o self1] w1].
    destruct o as [r|e]; [|discriminate].
    assert (Hone : exists k, events_fired w1 = (events_fired w + k)%nat
                     /\ List.length (threads w1) =
                        (List.length (threads w)
                         + (if notifier._is_configured cfg then k else 0))%nat).
    { destruct Hcall as [(E1 & E2)|(E1 & E2)].
      - exists 0%nat. rewrite E1, E2. destruct (notifier._is_configured cfg); lia.
      - exists 1%nat. rewrite E1, (E2 r eq_refl), length_app.
        destruct (notifier._is_configured cfg); simpl; lia. }
    destruct Hone as (k1 & Hk1 & Hi1).
    specialize (IH self1 w1).
    destruct (run cfg imencode cs self1 w1) as [[o2 self2] w2].
    intros Ho. destruct (IH Ho) as (k2 & Hk2 & Hi2).
    exists (k1 + k2)%nat. rewrite Hk2, Hi2, Hk1, Hi1.
    destruct (notifier._is_configured cfg); lia.
Qed.

(** ** X5: when [handle] can raise *)

Lemma clip_frames_of_ints (cfg : Config) (a b : Z) :
  CLIP_DURATION_S cfg = Int a -> CLIP_FPS cfg = Int b ->
  clip_frames cfg = Returned (a * b).
Proof. unfold clip_frames. intros -> ->. reflexivity. Qed.

(** The constructor of a clip returns exactly when the codec has four
    characters and the frame count can be computed. *)
Lemma clip_opens_iff (cfg : Config) (n : Z) :
  clip_opens cfg = Returned n <->
  String.length (CLIP_CODEC cfg) = 4%nat /\ clip_frames cfg = Returned n.
Proof.
  unfold clip_opens, VideoWriter_fourcc.
  destruct (Nat.eqb (String.length (CLIP_CODEC cfg)) 4) eqn:He; cbn [bind].
  - apply Nat.eqb_eq in He. tauto.
  - apply Nat.eqb_neq in He. split; [discriminate|tauto].
Qed.

Lemma clip_opens_bad_codec (cfg : Config) :
  String.length (CLIP_CODEC cfg) <> 4%nat -> clip_opens cfg = Raised TypeError.
Proof.
  intros Hne. unfold clip_opens, VideoWriter_fourcc.
  apply Nat.eqb_neq in Hne. now rewrite Hne.
Qed.

(** The exceptions the constructor of a clip can raise. *)
Lemma clip_opens_exceptions (cfg : Config) (e : exn) :
  clip_opens cfg = Raised e ->
  e = TypeError \/ e = ValueError \/ e = OverflowError.
Proof.
  unfold clip_opens, VideoWriter_fourcc, clip_frames, mul, float_of_int, int.
  destruct (Nat.eqb (String.length (CLIP_CODEC cfg)) 4); cbn [bind];
    [|intros H; inversion H; auto].
  destruct (CLIP_DURATION_S cfg) as [a|f], (CLIP_FPS cfg) as [b|g]; cbn [bind];
    repeat match goal with
           | |- context [if ?b then _ else _] => destruct b; cbn [bind]
           | |- context [match Prim2SF ?x with _ => _ end] => destruct (Prim2SF x)
           end;
    intros H; inversion H; auto.
Qed.

(** [ClipWriter.__init__] ends as [clip_opens] says. *)
Lemma ClipWriter_init_raises (cfg : Config) (filepath : string) (frame_size : Z * Z)
    (w : World) (e : exn) :
  clip_opens cfg = Raised e ->
  fst (ClipWriter.__init__ cfg filepath frame_size w) = Raised e.
Proof.
  unfold clip_opens, ClipWriter.__init__, VideoWriter_new.
  destruct (VideoWriter_fourcc (CLIP_CODEC cfg)) as [fourcc|e0]; cbn [bind].
  - unfold clip_frames. intros ->. reflexivity.
  - intros H. inversion H. reflexivity.
Qed.

(** The call that fires with no clip active, where the constructor of the
    clip raises: the exception leaves [handle]. *)
Lemma handle_raises_opening_a_clip
    (cfg : Config) (imencode : Frame -> option (list Z))
    (c : call) (self : EventHandler.t) (w : World) (e : exn) :
  SAVE_CLIPS cfg = true ->
  clip_opens cfg = Raised e ->
  c_detections c <> [] ->
  EventHandler._person_present self = false ->
  cooldown_ok cfg c self = true ->
  EventHandler._active_clip (fst (feed_active_clip (c_frame c) self w)) = None ->
  exists self' w', handle_call cfg imencode c self w = (Raised e, self', w').
Proof.
  intros Hsave Hopen Hdets Habs Hgate Hnone.
  unfold handle_call, cooldown_ok in *. rewrite handle_after_feed.
  pose proof (feed_presence (c_frame c) self w) as Hp.
  destruct (feed_active_clip (c_frame c) self w) as [self1 w1].
  destruct Hp as (Hp1 & Hp2 & _). cbn [fst] in Hnone.
  rewrite (len_pos _ Hdets).
  cbn [EventHandler._person_present EventHandler.set_last_seen_time
       EventHandler._last_event_time].
  rewrite Hp1, Hp2, Habs, Hgate. cbn [negb]. cbv beta iota zeta.
  unfold EventHandler._fire_event.
  cbn [EventHandler._active_clip EventHandler.set_last_event_time
       EventHandler.set_person_present EventHandler.set_last_seen_time].
  rewrite Hnone, Hsave.
  destruct (shape (c_frame c)) as [h wd].
  match goal with
  | |- context [ClipWriter.__init__ cfg ?p ?fs ?w0] =>
      pose proof (ClipWriter_init_raises cfg p fs w0 e Hopen) as Hinit;
      destruct (ClipWriter.__init__ cfg p fs w0) as [o3 w3]
  end.
  cbn [fst] in Hinit. subst o3. cbv beta iota zeta. eauto.
Qed.

(** X5.  [handle] raises only where it opens a clip and the constructor of
    the clip raises.  Where clips are off, or the codec has four
    characters and the clip length [int(CLIP_DURATION_S * CLIP_FPS)] can
    be computed (as it always can when both constants are ints), no call
    of [handle] raises: every run of calls goes to its end.  Where clips
    are on and the constructor raises, as it does with [TypeError] for
    every codec that has not four characters, the call that fires an
    event with no clip active raises that exception. *)
Theorem handle_raises_only_opening_a_clip
    (cfg : Config) (imencode : Frame -> option (list Z)) :
  (SAVE_CLIPS cfg = false
   \/ (String.length (CLIP_CODEC cfg) = 4%nat
       /\ ((exists a b, CLIP_DURATION_S cfg = Int a /\ CLIP_FPS cfg = Int b)
           \/ (exists n, clip_frames cfg = Returned n))) ->
   forall (cs : list call) (self : EventHandler.t) (w : World),
   exists self' w', run cfg imencode cs self w = (Returned tt, self', w'))
  /\ (forall (e : exn) (c : call) (self : EventHandler.t) (w : World),
        SAVE_CLIPS cfg = true ->
        clip_opens cfg = Raised e ->
        c_detections c <> [] ->
        EventHandler._person_present self = false ->
        cooldown_ok cfg c self = true ->
        EventHandler._active_clip (fst (feed_active_clip (c_frame c) self w)) = None ->
        exists self' w', handle_call cfg imencode c self w = (Raised e, self', w'))
  /\ (forall (c : call) (self : EventHandler.t) (w : World),
        SAVE_CLIPS cfg = true ->
        String.length (CLIP_CODEC cfg) <> 4%nat ->
        c_detections c <> [] ->
        EventHandler._person_present self = false ->
        cooldown_ok cfg c self = true ->
        EventHandler._active_clip (fst (feed_active_clip (c_frame c) self w)) = None ->
        exists self' w', handle_call cfg imencode c self w = (Raised TypeError, self', w')).
Proof.
  split; [|split].
  - intros Hcfg.
    assert (Hok : SAVE_CLIPS cfg = false \/ exists n, clip_opens cfg = Returned n).
    { destruct Hcfg as [H|[Hcodec [(a & b & Ha & Hb)|[n Hn]]]]; auto; right.
      - exists (a * b). apply clip_opens_iff. split; [assumption|].
        now apply clip_frames_of_ints.
      - exists n. apply clip_opens_iff. auto. }
    clear Hcfg.
    induction cs as [|c cs IH]; intros self w; simpl; [eauto|].
    pose proof (handle_effects cfg imencode c self w) as He.
    destruct (handle_call cfg imencode c self w) as [[o self1] w1].
    destruct o as [r|e]; [apply IH|exfalso].
    destruct He as (_ & _ & _ & [(_ & _ & _ & _ & r & Hr)|(_ & _ & _ & _ & Hraise)]);
      [discriminate|].
    destruct (Hraise e eq_refl) as (Hfr & Hsave).
    destruct Hok as [Hoff|[n Hn]]; congruence.
  - intros e c self w. apply handle_raises_opening_a_clip.
  - intros c self w Hsave Hcodec.
    apply handle_raises_opening_a_clip; [exact Hsave|].
    apply clip_opens_bad_codec. exact Hcodec.
Qed.

(** ** X6: what a clip file holds *)

Section ClipContents.

Variable cfg : Config.
Variable imencode : Frame -> option (list Z).

(** After the clip feed, the rest of [handle] leaves the video writers
    that exist as they are, and an active clip active. *)
Lemma handle_keeps_after_feed (c : call) (self : EventHandler.t) (w : World) :
  let '(self1, w1) := feed_active_clip (c_frame c) self w in
  let '(_, self', w') := handle_call cfg imencode c self w in
  (forall i, (i < List.length (writers w1))%nat ->
     nth_error (writers w') i = nth_error (writers w1) i)
  /\ (forall cl, EventHandler._active_clip self1 = Some cl ->
        EventHandler._active_clip self' = Some cl).
Proof.
  unfold handle_call. rewrite handle_after_feed.
  destruct (feed_active_clip (c_frame c) self w) as [self1 w1].
  destruct (0 <? len (c_detections c)); cbv beta iota zeta.
  - cbn [EventHandler._person_present EventHandler.set_last_seen_time
         EventHandler._last_event_time].
    destruct (negb (EventHandler._person_present self1)); cbv beta iota zeta; [|auto].
    destruct (EVENT_COOLDOWN_SECONDS cfg <=? c_now c - EventHandler._last_event_time self1)%float;
      cbv beta iota zeta; [|auto].
    match goal with
    | |- context [EventHandler._fire_event cfg imencode ?f ?d ?n ?t ?s ?w0] =>
        pose proof (fire_event_effects cfg imencode f d n t s w0) as Hg;
        pose proof (fun cl => fire_event_keeps_active_clip cfg imencode f d n t s w0 cl) as Hk;
        destruct (EventHandler._fire_event cfg imencode f d n t s w0) as [[o self2] w2]
    end.
    destruct Hg as (_ & _ & _ & Hg4 & _).
    assert (Hact : forall cl, EventHandler._active_clip self1 = Some cl ->
                     EventHandler._active_clip self2 = Some cl).
    { intros cl Hcl. destruct (Hk cl Hcl) as (_ & H & _). exact H. }
    destruct o; cbv beta iota zeta; auto.
  - destruct (EventHandler._person_present self1
              && (ABSENCE_GRACE_SECONDS cfg <=? c_now c - EventHandler._last_seen_time self1)%float);
      cbv beta iota zeta; auto.
Qed.

(** One call while a clip is recording: what becomes of its video writer. *)
Lemma handle_recording (c : call) (self : EventHandler.t) (w : World)
    (clip : ClipWriter.t) (v : VideoWriter) :
  EventHandler._active_clip self = Some clip ->
  nth_error (writers w) (ClipWriter._writer clip) = Some v ->
  vw_released v = false ->
  let '(_, self', w') := handle_call cfg imencode c self w in
  if ClipWriter._max_frames clip <=? ClipWriter._written clip then
    nth_error (writers w') (ClipWriter._writer clip)
    = Some (mkVideoWriter (vw_filename v) (vw_fourcc v) (vw_fps v) (vw_frame_size v)
              (vw_frames v) true)
  else if ClipWriter._max_frames clip <=? ClipWriter._written clip + 1 then
    nth_error (writers w') (ClipWriter._writer clip)
    = Some (mkVideoWriter (vw_filename v) (vw_fourcc v) (vw_fps v) (vw_frame_size v)
              (vw_frames v ++ [c_frame c]) true)
  else
    nth_error (writers w') (ClipWriter._writer clip)
    = Some (mkVideoWriter (vw_filename v) (vw_fourcc v) (vw_fps v) (vw_frame_size v)
              (vw_frames v ++ [c_frame c]) false)
    /\ EventHandler._active_clip self'
       = Some (ClipWriter.mk (ClipWriter._writer clip) (ClipWriter._max_frames clip)
                 (ClipWriter._written clip + 1) (ClipWriter._filepath clip)).
Proof.
  intros Hc Hv Hr.
  pose proof (handle_keeps_after_feed c self w) as Hk.
  assert (Hlt : (ClipWriter._writer clip < List.length (writers w))%nat)
    by (apply nth_error_Some; congruence).
  revert Hk.
  unfold feed_active_clip. rewrite Hc.
  unfold ClipWriter.write, ClipWriter.is_finished, ClipWriter.close,
    VideoWriter_write, VideoWriter_release, logger_info, add_log, set_writers.
  destruct (handle_call cfg imencode c self w) as [[o self'] w'].
  destruct (ClipWriter._max_frames clip <=? ClipWriter._written clip) eqn:Hfin;
    cbn [negb ClipWriter._max_frames ClipWriter._written ClipWriter._writer];
    cbv beta iota zeta.
  - rewrite Hfin. cbn [writers]. intros [Hk _].
    rewrite Hk by (now rewrite length_list_update).
    rewrite nth_error_list_update, Nat.eqb_refl, Hv. reflexivity.
  - destruct (ClipWriter._max_frames clip <=? ClipWriter._written clip + 1) eqn:Hfin';
      cbn [writers EventHandler._active_clip EventHandler.set_active_clip];
      intros [Hk Ha].
    + rewrite Hk by (now rewrite !length_list_update).
      rewrite !nth_error_list_update, Nat.eqb_refl, Hv. simpl. rewrite Hr. reflexivity.
    + split; [|apply Ha; reflexivity].
      rewrite Hk by (now rewrite length_list_update).
      rewrite nth_error_list_update, Nat.eqb_refl, Hv. simpl. rewrite Hr. reflexivity.
Qed.

Lemma handle_call_returns (c : call) (self : EventHandler.t) (w : World) (n : Z) :
  clip_opens cfg = Returned n ->
  exists r self' w', handle_call cfg imencode c self w = (Returned r, self', w').
Proof.
  intros Hn.
  pose proof (handle_effects cfg imencode c self w) as He.
  destruct (handle_call cfg imencode c self w) as [[o self1] w1].
  destruct o as [r|e]; [eauto|exfalso].
  destruct He as (_ & _ & _ & [(_ & _ & _ & _ & r & Hr)|(_ & _ & _ & _ & Hraise)]);
    [discriminate|].
  destruct (Hraise e eq_refl) as (Hfr & _). congruence.
Qed.

(** A released video writer is out of reach of every later call. *)
Lemma run_after_release (n : Z) (cs : list call) :
  clip_opens cfg = Returned n ->
  forall (self : EventHandler.t) (w : World) (i : nat) (v : VideoWriter),
  nth_error (writers w) i = Some v -> vw_released v = true ->
  exists self' w',
    run cfg imencode cs self w = (Returned tt, self', w')
    /\ nth_error (writers w') i = Some v.
Proof.
  intros Hn. induction cs as [|c cs IH]; intros self w i v Hi Hr; simpl; [eauto|].
  destruct (handle_call_returns c self w n Hn) as (r & self1 & w1 & Hstep).
  pose proof (handle_effects cfg imencode c self w) as He.
  rewrite Hstep in *.
  destruct He as (_ & _ & Hext & _).
  destruct (Hext i v Hi) as (v1 & Hv1 & (_ & _ & Hsame)).
  rewrite (Hsame Hr) in Hv1.
  apply (IH self1 w1 i v Hv1 Hr).
Qed.

(** A clip that is recording, fed by a run of calls long enough to
    complete it: its file is released holding the frames it had followed by
    the frames of the next calls, up to its frame count. *)
Lemma recording_run (cs : list call) :
  String.length (CLIP_CODEC cfg) = 4%nat ->
  forall (self : EventHandler.t) (w : World) (clip : ClipWriter.t) (v : VideoWriter),
  clip_inv cfg (EventHandler._active_clip self) w ->
  EventHandler._active_clip self = Some clip ->
  nth_error (writers w) (ClipWriter._writer clip) = Some v ->
  Z.max 1 (ClipWriter._max_frames clip - ClipWriter._written clip)
    <= Z.of_nat (List.length cs) ->
  exists self' w' v',
    run cfg imencode cs self w = (Returned tt, self', w')
    /\ nth_error (writers w') (ClipWriter._writer clip) = Some v'
    /\ vw_released v' = true
    /\ vw_filename v' = vw_filename v
    /\ vw_frames v' =
       vw_frames v
       ++ firstn (Z.to_nat (ClipWriter._max_frames clip - ClipWriter._written clip))
                 (map c_frame cs).
Proof.
  intros Hcodec.
  induction cs as [|c cs IH]; intros self w clip v Hinv Hc Hv Hlen.
  - simpl in Hlen. lia.
  - destruct (proj2 Hinv clip Hc) as (v0 & Hv0 & Hr & _ & Hmax & _).
    assert (v0 = v) by congruence. subst v0.
    apply (fun H => proj2 (clip_opens_iff cfg _) (conj Hcodec H)) in Hmax.
    destruct (handle_call_returns c self w _ Hmax) as (r & self1 & w1 & Hstep).
    pose proof (handle_recording c self w clip v Hc Hv Hr) as Hrec.
    pose proof (handle_clips cfg imencode c self w Hinv) as Hcl.
    simpl. rewrite Hstep in *.
    destruct Hcl as (Hinv1 & _). specialize (Hinv1 (ex_intro _ r eq_refl)).
    destruct (ClipWriter._max_frames clip <=? ClipWriter._written clip) eqn:Hfin.
    + (* complete already: this call releases it, unchanged *)
      apply Z.leb_le in Hfin.
      destruct (run_after_release _ cs Hmax self1 w1 _ _ Hrec eq_refl)
        as (self2 & w2 & Hrun & Hv2).
      exists self2, w2. eexists. split; [exact Hrun|]. split; [exact Hv2|].
      simpl. repeat split.
      replace (Z.to_nat (ClipWriter._max_frames clip - ClipWriter._written clip))
        with 0%nat by lia.
      simpl. now rewrite app_nil_r.
    + apply Z.leb_gt in Hfin.
      destruct (ClipWriter._max_frames clip <=? ClipWriter._written clip + 1) eqn:Hfin'.
      * (* this call writes the last frame and releases the file *)
        apply Z.leb_le in Hfin'.
        destruct (run_after_release _ cs Hmax self1 w1 _ _ Hrec eq_refl)
          as (self2 & w2 & Hrun & Hv2).
        exists self2, w2. eexists. split; [exact Hrun|]. split; [exact Hv2|].
        simpl. repeat split.
        replace (Z.to_nat (ClipWriter._max_frames clip - ClipWriter._written clip))
          with 1%nat by lia.
        reflexivity.
      * (* one more frame, and the recording goes on *)
        apply Z.leb_gt in Hfin'.
        destruct Hrec as (Hv1 & Hc1).
        destruct (IH self1 w1 _ _ Hinv1 Hc1 Hv1) as (self2 & w2 & v2 & Hrun & Hv2 & Hr2 & Hn2 & Hf2).
        { cbn [ClipWriter._max_frames ClipWriter._written].
          simpl List.length in Hlen. lia. }
        exists self2, w2, v2. split; [exact Hrun|]. split; [exact Hv2|].
        split; [exact Hr2|]. split; [exact Hn2|].
        rewrite Hf2. cbn [vw_frames ClipWriter._max_frames ClipWriter._written].
        replace (Z.to_nat (ClipWriter._max_frames clip - ClipWriter._written clip))
          with (S (Z.to_nat (ClipWriter._max_frames clip - (ClipWriter._written clip + 1))))
          by lia.
        simpl. now rewrite <- app_assoc.
Qed.

(** The call that fires with no clip active opens one: a new video writer
    at the end of the list, holding the trigger frame when the clip is to
    have at least one frame. *)
Lemma handle_opens_clip (c : call) (self : EventHandler.t) (w : World) (n : Z) :
  EventHandler._active_clip self = None ->
  EventHandler._person_present self = false ->
  c_detections c <> [] ->
  cooldown_ok cfg c self = true ->
  SAVE_CLIPS cfg = true ->
  clip_opens cfg = Returned n ->
  exists r self1 w1,
    handle_call cfg imencode c self w = (Returned r, self1, w1)
    /\ EventHandler._active_clip self1
       = Some (ClipWriter.mk (List.length (writers w)) n (if n <=? 0 then 0 else 1)
                 (clip_path cfg (c_iso_ts c)))
    /\ nth_error (writers w1) (List.length (writers w))
       = Some (mkVideoWriter (clip_path cfg (c_iso_ts c)) (CLIP_CODEC cfg) (CLIP_FPS cfg)
                 (snd (shape (c_frame c)), fst (shape (c_frame c)))
                 (if n <=? 0 then [] else [c_frame c]) false).
Proof.
  intros Hnone Habs Hdets Hgate Hsave Hn.
  apply clip_opens_iff in Hn. destruct Hn as [Hcodec Hn].
  unfold handle_call, cooldown_ok in *. rewrite handle_after_feed.
  unfold feed_active_clip. rewrite Hnone.
  rewrite (len_pos _ Hdets).
  cbn [EventHandler._person_present EventHandler.set_last_seen_time
       EventHandler._last_event_time].
  rewrite Habs, Hgate. cbn [negb]. cbv beta iota zeta.
  unfold EventHandler._fire_event.
  cbn [EventHandler._active_clip EventHandler.set_last_event_time
       EventHandler.set_person_present EventHandler.set_last_seen_time].
  rewrite Hnone, Hsave.
  destruct (shape (c_frame c)) as [h wd].
  set (w2 := if SAVE_SNAPSHOTS cfg then _ else _).
  assert (H2 : writers w2 = writers w)
    by (unfold w2; destruct (SAVE_SNAPSHOTS cfg); reflexivity).
  clearbody w2. rewrite <- H2. clear H2.
  unfold ClipWriter.__init__, VideoWriter_fourcc, VideoWriter_new.
  rewrite Hcodec. cbn [Nat.eqb]. fold (clip_frames cfg). rewrite Hn.
  unfold ClipWriter.write, ClipWriter.is_finished.
  cbn [ClipWriter._max_frames ClipWriter._written ClipWriter._writer].
  match goal with
  | |- context [notifier.send_alert cfg imencode ?f ?d ?ts] =>
      pose proof (fun w0 => send_alert_world cfg imencode f d ts w0) as Halert
  end.
  cbv zeta in Halert.
  unfold clip_path.
  unfold VideoWriter_write, logger_info, add_log, set_writers.
  destruct (n <=? 0); cbn [negb writers]; cbv beta iota zeta;
    match goal with
    | |- context [notifier.send_alert cfg imencode ?f ?d ?ts ?w0] =>
        destruct (Halert w0) as (_ & Hwr & _);
        set (w3 := notifier.send_alert cfg imencode f d ts w0) in *
    end;
    clearbody w3;
    eexists _, _, w3; (split; [reflexivity|]);
    cbn [EventHandler._active_clip EventHandler.set_active_clip fst snd];
    (split; [reflexivity|]);
    rewrite Hwr; cbn [writers];
    rewrite ?nth_error_list_update, ?Nat.eqb_refl, nth_error_snoc,
      Nat.ltb_irrefl, Nat.eqb_refl; reflexivity.
Qed.

End ClipContents.

(** X6.  When an event fires with no clip active (clips on, a codec of
    four characters, a clip length [n = int(CLIP_DURATION_S * CLIP_FPS)])
    and the calls that follow are
    enough to complete the clip, the run ends with the clip's file, the
    newest video writer at the time of the event, released under the clip
    path of the event's timestamp and holding exactly the frames of the
    first [n] calls counted from the triggering one, in order: the trigger
    frame first, no frame skipped and none repeated, whatever those calls
    detect. *)
Theorem clip_holds_the_frames_from_the_trigger
    (cfg : Config) (imencode : Frame -> option (list Z))
    (self : EventHandler.t) (w : World) (c : call) (cs : list call) (n : Z) :
  reachable cfg imencode self w ->
  EventHandler._active_clip self = None ->
  EventHandler._person_present self = false ->
  c_detections c <> [] ->
  cooldown_ok cfg c self = true ->
  SAVE_CLIPS cfg = true ->
  String.length (CLIP_CODEC cfg) = 4%nat ->
  clip_frames cfg = Returned n ->
  Z.max 1 (n - 1) <= Z.of_nat (List.length cs) ->
  exists self' w' v,
    run cfg imencode (c :: cs) self w = (Returned tt, self', w')
    /\ nth_error (writers w') (List.length (writers w)) = Some v
    /\ vw_released v = true
    /\ vw_filename v = clip_path cfg (c_iso_ts c)
    /\ vw_frames v = firstn (Z.to_nat n) (map c_frame (c :: cs)).
Proof.
  intros Hreach Hnone Habs Hdets Hgate Hsave Hcodec Hn Hlen.
  destruct (handle_opens_clip cfg imencode c self w n Hnone Habs Hdets Hgate Hsave
              (proj2 (clip_opens_iff cfg n) (conj Hcodec Hn)))
    as (r & self1 & w1 & Hstep & Hclip & Hv).
  pose proof (handle_clips cfg imencode c self w
                (reachable_inv cfg imencode self w Hreach)) as Hcl.
  rewrite Hstep in Hcl. destruct Hcl as (Hinv1 & _).
  specialize (Hinv1 (ex_intro _ r eq_refl)).
  destruct (recording_run cfg imencode cs Hcodec self1 w1 _ _ Hinv1 Hclip Hv)
    as (self2 & w2 & v2 & Hrun & Hv2 & Hr2 & Hn2 & Hf2).
  { cbn [ClipWriter._max_frames ClipWriter._written].
    destruct (n <=? 0) eqn:Hle; [apply Z.leb_le in Hle|apply Z.leb_gt in Hle]; lia. }
  exists self2, w2, v2. simpl run. rewrite Hstep.
  split; [exact Hrun|]. split; [exact Hv2|]. split; [exact Hr2|].
  split; [exact Hn2|].
  rewrite Hf2. cbn [vw_frames ClipWriter._max_frames ClipWriter._written].
  destruct (n <=? 0) eqn:Hle; [apply Z.leb_le in Hle|apply Z.leb_gt in Hle].
  - replace (Z.to_nat (n - 0)) with 0%nat by lia.
    replace (Z.to_nat n) with 0%nat by lia. reflexivity.
  - replace (Z.to_nat n) with (S (Z.to_nat (n - 1))) by lia. reflexivity.
Qed.

(** ** X7: shutdown *)



(** ** X8: clips switched off *)

Lemma fire_event_without_clips
    (cfg : Config) (imencode : Frame -> option (list Z))
    (frame : Frame) (dets : list Detection) (timestamp : float) (iso_ts : string)
    (self : EventHandler.t) (w : World) :
  SAVE_CLIPS cfg = false ->
  let '(_, self', w') :=
    EventHandler._fire_event cfg imencode frame dets timestamp iso_ts self w in
  writers w' = writers w
  /\ EventHandler._active_clip self' = EventHandler._active_clip self.
Proof.
  intros Hoff. unfold EventHandler._fire_event. rewrite Hoff.
  destruct (shape frame) as [h wd].
  match goal with
  | |- context [notifier.send_alert cfg imencode ?f ?d ?ts] =>
      pose proof (fun w0 => send_alert_world cfg imencode f d ts w0) as Halert
  end.
  cbv zeta in Halert. cbv beta iota zeta.
  match goal with
  | |- context [notifier.send_alert cfg imencode ?f ?d ?ts ?w0] =>
      destruct (Halert w0) as (_ & -> & _)
  end.
  destruct (SAVE_SNAPSHOTS cfg); split; reflexivity.
Qed.

(** X8.  With [SAVE_CLIPS] off, no state of a session has a video writer
    or an active clip: no video file is ever created. *)
Theorem no_clips_no_video_writer
    (cfg : Config) (imencode : Frame -> option (list Z))
    (self : EventHandler.t) (w : World) :
  SAVE_CLIPS cfg = false ->
  reachable cfg imencode self w ->
  writers w = [] /\ EventHandler._active_clip self = None.
Proof.
  intros Hoff Hreach.
  induction Hreach as [w0 Hw0|self w c r self' w' _ IH Hstep|self w _ IH].
  - destruct (init_state cfg w0) as (-> & _ & ->). auto.
  - destruct IH as [Hw Hnone].
    revert Hstep. unfold handle_call. rewrite handle_after_feed.
    unfold feed_active_clip. rewrite Hnone.
    destruct (0 <? len (c_detections c)); cbv beta iota zeta.
    + cbn [EventHandler._person_present EventHandler.set_last_seen_time
           EventHandler._last_event_time].
      destruct (negb (EventHandler._person_present self)); cbv beta iota zeta;
        [|intros H; inversion H; subst; auto].
      destruct (EVENT_COOLDOWN_SECONDS cfg <=? c_now c - EventHandler._last_event_time self)%float;
        cbv beta iota zeta; [|intros H; inversion H; subst; auto].
      match goal with
      | |- context [EventHandler._fire_event cfg imencode ?f ?d ?n ?t ?s ?w0] =>
          pose proof (fire_event_without_clips cfg imencode f d n t s w0 Hoff) as Hf;
          destruct (EventHandler._fire_event cfg imencode f d n t s w0) as [[o self2] w2]
      end.
      destruct Hf as [Hf1 Hf2]. simpl in Hf2.
      destruct o; cbv beta iota zeta; intros H; inversion H; subst.
      split; congruence.
    + destruct (EventHandler._person_present self
                && (ABSENCE_GRACE_SECONDS cfg <=? c_now c - EventHandler._last_seen_time self)%float);
        cbv beta iota zeta; intros H; inversion H; subst; auto.
  - destruct IH as [Hw Hnone].
    unfold EventHandler.shutdown, notifier.send_session_end. rewrite Hnone.
    destruct (negb (notifier._is_configured cfg)); simpl; auto.
Qed.

(** ** X9: a clip writer on its own *)

(** X9.  Writing a list of frames to a clip whose video writer is open
    writes the first ones, as many as the clip still has room for
    ([_max_frames - _written], none if that is not positive), in order,
    and drops the rest without an error; [_written] counts what was
    written, and the clip is finished afterwards exactly when the frames
    offered were at least the room it had. *)
Theorem write_all_fills_the_clip (frames : list Frame) :
  forall (clip : ClipWriter.t) (w : World) (v : VideoWriter),
  nth_error (writers w) (ClipWriter._writer clip) = Some v ->
  vw_released v = false ->
  let room := Z.to_nat (ClipWriter._max_frames clip - ClipWriter._written clip) in
  let '(clip', w') := write_all clip frames w in
  clip' = ClipWriter.mk (ClipWriter._writer clip) (ClipWriter._max_frames clip)
            (ClipWriter._written clip + Z.of_nat (List.length (firstn room frames)))
            (ClipWriter._filepath clip)
  /\ nth_error (writers w') (ClipWriter._writer clip)
     = Some (mkVideoWriter (vw_filename v) (vw_fourcc v) (vw_fps v) (vw_frame_size v)
               (vw_frames v ++ firstn room frames) false)
  /\ List.length (writers w') = List.length (writers w)
  /\ (ClipWriter.is_finished clip' = true <-> (room <= List.length frames)%nat).
Proof.
  induction frames as [|frame frames IH]; intros clip w v Hv Hr; cbv zeta.
  - simpl. rewrite firstn_nil. simpl. rewrite app_nil_r, Z.add_0_r.
    split; [destruct clip; reflexivity|].
    split; [rewrite Hv; destruct v; simpl in *; now subst|].
    split; [reflexivity|].
    unfold ClipWriter.is_finished. simpl. rewrite Z.leb_le. lia.
  - simpl write_all. unfold ClipWriter.write, ClipWriter.is_finished.
    destruct (ClipWriter._max_frames clip <=? ClipWriter._written clip) eqn:Hfin;
      cbn [negb]; cbv beta iota zeta.
    + (* no room: the frame is dropped *)
      apply Z.leb_le in Hfin.
      specialize (IH clip w v Hv Hr). cbv zeta in IH.
      destruct (write_all clip frames w) as [clip' w'].
      replace (Z.to_nat (ClipWriter._max_frames clip - ClipWriter._written clip))
        with 0%nat in * by lia.
      simpl firstn in *. destruct IH as (I1 & I2 & I3 & I4).
      repeat split; try assumption; simpl; intros; try lia.
      apply I4. simpl. lia.
    + (* room for this frame *)
      apply Z.leb_gt in Hfin.
      set (clip1 := ClipWriter.mk (ClipWriter._writer clip) (ClipWriter._max_frames clip)
                      (ClipWriter._written clip + 1) (ClipWriter._filepath clip)).
      set (w1 := VideoWriter_write (ClipWriter._writer clip) frame w).
      set (v1 := mkVideoWriter (vw_filename v) (vw_fourcc v) (vw_fps v) (vw_frame_size v)
                   (vw_frames v ++ [frame]) false).
      assert (Hv1 : nth_error (writers w1) (ClipWriter._writer clip1) = Some v1).
      { unfold w1, VideoWriter_write, set_writers. cbn [writers ClipWriter._writer clip1].
        rewrite nth_error_list_update, Nat.eqb_refl, Hv. simpl. rewrite Hr. reflexivity. }
      assert (Hlen1 : List.length (writers w1) = List.length (writers w)).
      { unfold w1, VideoWriter_write, set_writers. cbn [writers].
        apply length_list_update. }
      specialize (IH clip1 w1 v1 Hv1 eq_refl). cbv zeta in IH.
      destruct (write_all clip1 frames w1) as [clip' w'].
      cbn [ClipWriter._writer ClipWriter._max_frames ClipWriter._written
           ClipWriter._filepath clip1 vw_filename vw_fourcc vw_fps vw_frame_size
           vw_frames v1] in IH.
      replace (Z.to_nat (ClipWriter._max_frames clip - ClipWriter._written clip))
        with (S (Z.to_nat (ClipWriter._max_frames clip - (ClipWriter._written clip + 1))))
        by lia.
      destruct IH as (I1 & I2 & I3 & I4).
      simpl firstn. simpl List.length.
      split; [rewrite I1; f_equal; lia|].
      split; [rewrite I2, <- app_assoc; reflexivity|].
      split; [congruence|].
      rewrite I4. lia.
Qed.

(** ** X10: gaps shorter than the grace period *)

(** X10.  While a person is present, a run of calls in which every call
    without a detection comes less than [ABSENCE_GRACE_SECONDS] after the
    latest call with one ([visit_continues]) ends normally with the person
    still present and no further event fired: short gaps in the
    detections neither end the visit nor start a new one. *)
Theorem short_gaps_do_not_end_a_visit
    (cfg : Config) (imencode : Frame -> option (list Z)) (cs : list call) :
  forall (self : EventHandler.t) (w : World),
  EventHandler._person_present self = true ->
  visit_continues cfg (EventHandler._last_seen_time self) cs ->
  exists self' w',
    run cfg imencode cs self w = (Returned tt, self', w')
    /\ events_fired w' = events_fired w
    /\ EventHandler._person_present self' = true
    /\ EventHandler._last_event_time self' = EventHandler._last_event_time self.
Proof.
  induction cs as [|c cs IH]; intros self w Hpres Hvisit.
  - exists self, w. auto.
  - simpl in Hvisit. simpl run. unfold handle_call. rewrite handle_after_feed.
    pose proof (feed_presence (c_frame c) self w) as Hp.
    pose proof (feed_world (c_frame c) self w) as Hw.
    destruct (feed_active_clip (c_frame c) self w) as [self1 w1].
    destruct Hp as (Hp1 & Hp2 & Hp3). destruct Hw as (Hw1 & _).
    destruct (c_detections c) as [|d ds] eqn:Hd.
    + (* a gap: still inside the grace period *)
      destruct Hvisit as [Hgrace Hrest].
      rewrite len_nil. cbv beta iota zeta.
      rewrite Hp1, Hp3, Hpres, (ltb_not_leb _ _ Hgrace). simpl.
      destruct (IH self1 w1) as (self2 & w2 & Hrun & He & Hq & Hl);
        [congruence|rewrite Hp3; exact Hrest|].
      exists self2, w2. rewrite Hrun. repeat split; congruence.
    + (* a detection: the person is seen again, nothing fires *)
      rewrite (len_pos (d :: ds)) by discriminate.
      cbn [EventHandler._person_present EventHandler.set_last_seen_time
           EventHandler._last_event_time].
      rewrite Hp1, Hpres. simpl.
      destruct (IH (EventHandler.set_last_seen_time (c_now c) self1) w1)
        as (self2 & w2 & Hrun & He & Hq & Hl);
        [simpl; congruence|exact Hvisit|].
      exists self2, w2. rewrite Hrun. simpl in Hl. repeat split; congruence.
Qed.

(** ** X11: the configured notifier *)

Lemma is_configured_iff (cfg : Config) :
  notifier._is_configured cfg = true
  <-> _BOT_TOKEN cfg <> EmptyString /\ _CHAT_ID cfg <> EmptyString.
Proof.
  unfold notifier._is_configured.
  destruct (_BOT_TOKEN cfg), (_CHAT_ID cfg); simpl; split;
    try discriminate; try (intros [H1 H2]; congruence);
    intros _; split; discriminate.
Qed.

(** X11.  The notifier counts as configured exactly when the bot token
    and the chat id are both non-empty.  Then each of its three calls
    starts exactly one thread and writes nothing to the log; the alert
    goes out as a photo when the frame is given and can be encoded, and
    falls back to the caption as text when there is no frame or the
    encoding fails; the caption carries the number of detections and their
    confidences in order. *)
Theorem configured_notifier_starts_one_thread
    (cfg : Config) (imencode : Frame -> option (list Z))
    (frame : option Frame) (dets : list Detection) (ts : string) (w : World) :
  (notifier._is_configured cfg = true
   <-> _BOT_TOKEN cfg <> EmptyString /\ _CHAT_ID cfg <> EmptyString)
  /\
  (notifier._is_configured cfg = true ->
  let caption := mkCaption ts (Z.of_nat (List.length dets)) (map confidence dets) in
  notifier.send_alert cfg imencode frame dets ts w
  = start_thread
      match frame with
      | Some fr =>
          match imencode fr with
          | Some buf => Thread_send_photo_bytes buf caption
          | None => Thread_send_text (MsgAlert caption)
          end
      | None => Thread_send_text (MsgAlert caption)
      end w
  /\ log (notifier.send_alert cfg imencode frame dets ts w) = log w
  /\ notifier.send_session_start cfg w = start_thread (Thread_send_text MsgSessionStart) w
  /\ notifier.send_session_end cfg w = start_thread (Thread_send_text MsgSessionEnd) w).
Proof.
  split; [apply is_configured_iff|].
  intros Hcfg.
  unfold notifier.send_alert, notifier.send_session_start, notifier.send_session_end.
  rewrite Hcfg. cbn [negb]. cbv zeta. unfold len.
  destruct frame as [fr|]; [destruct (imencode fr)|]; repeat split; reflexivity.
Qed.

(** ** The capture loop *)

Section CaptureLoop.

Variable cfg : Config.
Variable imencode : Frame -> option (list Z).
Variable predict : float -> Frame -> list Detection.
Variable draw_overlays : Frame -> list Detection -> bool -> Frame.

#[local] Set Warnings "-inexact-float".

(** [handle] leaves [config.CONFIDENCE_THRESH] alone. *)
Lemma handle_CONFIDENCE_THRESH (now : float) (iso_ts : string) (frame : Frame)
    (dets : list Detection) (self : EventHandler.t) (w : World) :
  let '(_, _, w') := EventHandler.handle cfg imencode now iso_ts frame dets self w in
  CONFIDENCE_THRESH w' = CONFIDENCE_THRESH w.
Proof.
  rewrite handle_after_feed.
  pose proof (feed_world frame self w) as Hw.
  destruct (feed_active_clip frame self w) as [self1 w1].
  destruct Hw as (_ & _ & _ & _ & Hthr).
  destruct (0 <? len dets); cbv beta iota zeta.
  - destruct (negb _); cbv beta iota zeta; [|assumption].
    destruct (_ <=? _)%float; cbv beta iota zeta; [|assumption].
    rewrite <- Hthr.
    assert (Halert : forall f d ts w0,
              CONFIDENCE_THRESH (notifier.send_alert cfg imencode f d ts w0)
              = CONFIDENCE_THRESH w0).
    { intros f d ts w0. unfold notifier.send_alert.
      destruct (negb (notifier._is_configured cfg)); [reflexivity|].
      destruct f as [fr|]; [destruct (imencode fr)|]; reflexivity. }
    unfold EventHandler._fire_event.
    destruct (shape frame) as [h wd].
    set (w2 := if SAVE_SNAPSHOTS cfg then _ else _).
    assert (H2 : CONFIDENCE_THRESH w2 = CONFIDENCE_THRESH w1)
      by (unfold w2; destruct (SAVE_SNAPSHOTS cfg); reflexivity).
    clearbody w2. rewrite <- H2. clear H2.
    unfold ClipWriter.__init__, ClipWriter.write, VideoWriter_new, VideoWriter_write,
      logger_info, add_log, set_writers.
    cbn [EventHandler._active_clip EventHandler.set_last_event_time
         EventHandler.set_person_present EventHandler.set_last_seen_time].
    destruct (SAVE_CLIPS cfg), (EventHandler._active_clip self1);
      cbv beta iota zeta; rewrite ?Halert; try reflexivity.
    destruct (VideoWriter_fourcc _); cbv beta iota zeta; [|reflexivity].
    destruct (bind _ _); cbv beta iota zeta; [|reflexivity].
    destruct (negb _); cbv beta iota zeta; rewrite Halert; reflexivity.
  - destruct (_ && _); cbv beta iota zeta; assumption.
Qed.

Lemma py_min_le (a x : float) : (a <=? a)%float = true -> (main.py_min a x <=? a)%float = true.
Proof.
  intros Ha. unfold main.py_min.
  destruct (x <? a)%float eqn:Hlt; [now apply ltb_leb|exact Ha].
Qed.

Lemma py_max_ge (a x : float) : (a <=? a)%float = true -> (a <=? main.py_max a x)%float = true.
Proof.
  intros Ha. unfold main.py_max.
  destruct (a <? x)%float eqn:Hlt; [now apply ltb_leb|exact Ha].
Qed.

(** X12.  An iteration that cannot read a frame changes nothing, the
    frame counter included.  An iteration that reads a frame while paused
    counts the frame and does nothing else to the session: the detector is
    not run, [handle] is not called (handler, detections and alert flag
    stay as they were) and the world is untouched; Q ends the loop, SPACE
    resumes, any other key leaves the loop paused. *)
Theorem paused_frames_bypass_the_tracker (i : main.tick) (l : main.locals) (w : World) :
  (main.cap_read i = None ->
   main.iteration cfg imencode predict draw_overlays i l w = (Returned main.Continue, l, w))
  /\ (forall frame,
        main.cap_read i = Some frame ->
        main.paused l = true ->
        let key := Z.land (main.wait_key i) 255 in
        main.iteration cfg imencode predict draw_overlays i l w
        = (Returned (if key =? 113 then main.Break else main.Continue),
           main.mkLocals (main.event_handler l)
             (if key =? 113 then true else negb (key =? 32))
             (main.frame_count l + 1) (main.detections l) (main.alert_active l)
             (main.conf_thresh l),
           w)).
Proof.
  split.
  - intros Hread. unfold main.iteration. rewrite Hread. reflexivity.
  - intros frame Hread Hpaused. cbv zeta.
    unfold main.iteration. rewrite Hread. cbn [main.paused]. rewrite Hpaused.
    cbn [main.event_handler main.detections main.alert_active main.conf_thresh].
    unfold main.ord_q, main.ord_space.
    destruct (Z.land (main.wait_key i) 255 =? 113) eqn:Hq; [reflexivity|].
    destruct (Z.land (main.wait_key i) 255 =? 32); reflexivity.
Qed.

(** X13.  Whatever an iteration does, [config.CONFIDENCE_THRESH], which
    the detector reads, stays equal to the loop's [conf_thresh] if it was;
    and the threshold either keeps its value, or was raised by a key and
    is then at most 0.99, or was lowered by a key and is then at least
    0.05. *)
Theorem threshold_keys_stay_in_bounds (i : main.tick) (l : main.locals) (w : World) :
  let '(_, l', w') := main.iteration cfg imencode predict draw_overlays i l w in
  (CONFIDENCE_THRESH w = main.conf_thresh l ->
   CONFIDENCE_THRESH w' = main.conf_thresh l')
  /\ (main.conf_thresh l' = main.conf_thresh l
      \/ (main.conf_thresh l' = main.py_min 0.99 (main.conf_thresh l + 0.05)%float
          /\ (main.conf_thresh l' <=? 0.99)%float = true)
      \/ (main.conf_thresh l' = main.py_max 0.05 (main.conf_thresh l - 0.05)%float
          /\ (0.05 <=? main.conf_thresh l')%float = true)).
Proof.
  unfold main.iteration.
  destruct (main.cap_read i) as [frame|]; [|auto].
  cbn [main.paused main.event_handler main.detections main.alert_active
       main.conf_thresh main.frame_count].
  destruct (main.paused l).
  { repeat match goal with
           | |- context [if ?b then _ else _] => destruct b
           end; cbn [main.conf_thresh]; auto. }
  destruct (mod_ (main.frame_count l + 1) (FRAME_SKIP cfg)) as [r|e];
    [|cbn [main.conf_thresh]; auto].
  assert (Hkeep : forall dets w0, CONFIDENCE_THRESH w0 = CONFIDENCE_THRESH w ->
            let '(_, _, w') :=
              EventHandler.handle cfg imencode (main.now i) (main.iso_ts i) frame dets
                (main.event_handler l) w0 in
            CONFIDENCE_THRESH w' = CONFIDENCE_THRESH w).
  { intros dets w0 H0.
    pose proof (handle_CONFIDENCE_THRESH (main.now i) (main.iso_ts i) frame dets
                  (main.event_handler l) w0) as H.
    destruct (EventHandler.handle _ _ _ _ _ _ _ _) as [[o h] wh]. congruence. }
  unfold main.detect.
  destruct (r =? 0);
    cbn [main.event_handler main.paused main.detections main.alert_active
         main.conf_thresh main.frame_count];
    match goal with
    | |- context [EventHandler.handle cfg imencode ?n ?t ?f ?d ?s ?w0] =>
        pose proof (Hkeep d w0 eq_refl) as Hthr;
        destruct (EventHandler.handle cfg imencode n t f d s w0) as [[oh h] wh]
    end;
    (destruct oh as [a|e]; [|cbn [main.conf_thresh]; split; [congruence|auto]]);
    repeat match goal with
           | |- context [if ?b then _ else _] => destruct b
           end;
    cbn [main.conf_thresh CONFIDENCE_THRESH];
    unfold main.save_manual_snapshot, logger_info, add_log, add_image,
      set_CONFIDENCE_THRESH;
    cbn [CONFIDENCE_THRESH];
    (split; [intros; congruence|]);
    try (left; reflexivity);
    try (right; left; split; [reflexivity|apply py_min_le; reflexivity]);
    try (right; right; split; [reflexivity|apply py_max_ge; reflexivity]).
Qed.

(** X14.  With [FRAME_SKIP = 0] the first frame read while not paused
    raises [ZeroDivisionError] at the modulo, before the detector and
    before [handle]: nothing but the frame counter has changed.  In
    [main], once the camera has opened, this ends the loop at once, and
    the [finally] block still shuts the handler down. *)
Theorem zero_frame_skip_stops_the_loop
    (i : main.tick) (ticks : list main.tick) (l : main.locals) (w : World) (frame : Frame) :
  FRAME_SKIP cfg = 0 ->
  main.cap_read i = Some frame ->
  (main.paused l = false ->
   main.iteration cfg imencode predict draw_overlays i l w
   = (Raised ZeroDivisionError,
      main.mkLocals (main.event_handler l) false (main.frame_count l + 1)
        (main.detections l) (main.alert_active l) (main.conf_thresh l),
      w))
  /\ main.main cfg imencode predict draw_overlays true (i :: ticks) w
     = (main.Finished (Raised ZeroDivisionError)
          (main.mkLocals
             (fst (EventHandler.shutdown cfg (fst (EventHandler.__init__ cfg w))
                     (snd (EventHandler.__init__ cfg w))))
             false 1 [] false (CONFIDENCE_THRESH (snd (EventHandler.__init__ cfg w)))),
        snd (EventHandler.shutdown cfg (fst (EventHandler.__init__ cfg w))
               (snd (EventHandler.__init__ cfg w)))).
Proof.
  intros Hskip Hread.
  assert (Hit : forall l0 w0, main.paused l0 = false ->
            main.iteration cfg imencode predict draw_overlays i l0 w0
            = (Raised ZeroDivisionError,
               main.mkLocals (main.event_handler l0) false (main.frame_count l0 + 1)
                 (main.detections l0) (main.alert_active l0) (main.conf_thresh l0),
               w0)).
  { intros l0 w0 Hp. unfold main.iteration. rewrite Hread. cbn [main.paused].
    rewrite Hp. unfold mod_. rewrite Hskip. reflexivity. }
  split; [apply Hit|].
  unfold main.main.
  destruct (EventHandler.__init__ cfg w) as [h0 w1] eqn:Hinit.
  cbn [main.open_camera negb main.loop fst snd]. rewrite Hit by reflexivity.
  cbn [main.event_handler main.paused main.frame_count main.detections
       main.alert_active main.conf_thresh].
  destruct (EventHandler.shutdown cfg h0 w1) as [h2 w2]. reflexivity.
Qed.

(** The clip bookkeeping through one iteration: kept when the iteration
    returns; when it raises, a single position can hold an unreleased
    writer. *)
Lemma iteration_inv (i : main.tick) (l : main.locals) (w : World) :
  clip_inv cfg (EventHandler._active_clip (main.event_handler l)) w ->
  let '(o, l', w') := main.iteration cfg imencode predict draw_overlays i l w in
  match o with
  | Returned _ => clip_inv cfg (EventHandler._active_clip (main.event_handler l')) w'
  | Raised _ =>
      exists k, forall j v,
        nth_error (writers w') j = Some v -> vw_released v = false -> j = k
  end.
Proof.
  intros Hinv.
  assert (Hone : exists k, forall j v,
            nth_error (writers w) j = Some v -> vw_released v = false -> j = k).
  { destruct Hinv as [Hopen _].
    destruct (EventHandler._active_clip (main.event_handler l)) as [c|].
    - exists (ClipWriter._writer c). intros j v Hj Hr.
      destruct (Hopen j v Hj Hr) as (c' & Hc' & <-). congruence.
    - exists 0%nat. intros j v Hj Hr.
      destruct (Hopen j v Hj Hr) as (c' & Hc' & _). discriminate. }
  unfold main.iteration.
  destruct (main.cap_read i) as [frame|]; [|exact Hinv].
  cbn [main.paused main.event_handler main.detections main.alert_active
       main.conf_thresh main.frame_count].
  destruct (main.paused l).
  { repeat match goal with
           | |- context [if ?b then _ else _] => destruct b
           end; exact Hinv. }
  destruct (mod_ (main.frame_count l + 1) (FRAME_SKIP cfg)) as [r|e]; [|exact Hone].
  assert (Hstep : forall dets w0, writers w0 = writers w ->
            let '(oh, h, wh) :=
              EventHandler.handle cfg imencode (main.now i) (main.iso_ts i) frame dets
                (main.event_handler l) w0 in
            match oh with
            | Returned _ => clip_inv cfg (EventHandler._active_clip h) wh
            | Raised _ =>
                exists k, forall j v,
                  nth_error (writers wh) j = Some v -> vw_released v = false -> j = k
            end).
  { intros dets w0 Hw0.
    pose proof (handle_clips cfg imencode
                  (mkCall (main.now i) (main.iso_ts i) frame dets)
                  (main.event_handler l) w0
                  (clip_inv_same_writers cfg _ _ _ Hw0 Hinv)) as Hh.
    unfold handle_call in Hh. cbn [c_now c_iso_ts c_frame c_detections] in Hh.
    destruct (EventHandler.handle _ _ _ _ _ _ _ _) as [[oh h] wh].
    destruct Hh as (Hret & _ & Hraise).
    destruct oh as [a|e]; [apply Hret; eauto|].
    eexists. exact (Hraise e eq_refl). }
  unfold main.detect.
  destruct (r =? 0);
    cbn [main.event_handler main.paused main.detections main.alert_active
         main.conf_thresh main.frame_count];
    match goal with
    | |- context [EventHandler.handle cfg imencode ?n ?t ?f ?d ?s ?w0] =>
        pose proof (Hstep d w0 eq_refl) as Hh;
        destruct (EventHandler.handle cfg imencode n t f d s w0) as [[oh h] wh]
    end;
    (destruct oh as [a|e]; [|exact Hh]);
    repeat match goal with
           | |- context [if ?b then _ else _] => destruct b
           end;
    cbn [main.event_handler];
    try exact Hh;
    eapply clip_inv_same_writers; try exact Hh; reflexivity.
Qed.

Lemma loop_inv (ticks : list main.tick) :
  forall (l : main.locals) (w : World),
  clip_inv cfg (EventHandler._active_clip (main.event_handler l)) w ->
  let '(o, l', w') := main.loop cfg imencode predict draw_overlays ticks l w in
  match o with
  | Some (Raised _) =>
      exists k, forall j v,
        nth_error (writers w') j = Some v -> vw_released v = false -> j = k
  | _ => clip_inv cfg (EventHandler._active_clip (main.event_handler l')) w'
  end.
Proof.
  induction ticks as [|i ticks IH]; intros l w Hinv; simpl; [exact Hinv|].
  pose proof (iteration_inv i l w Hinv) as Hit.
  destruct (main.iteration cfg imencode predict draw_overlays i l w) as [[o l1] w1].
  destruct o as [[|]|e]; [apply IH; exact Hit|exact Hit|exact Hit].
Qed.

(** No step of the loop raises [KeyboardInterrupt]: the exceptions of an
    iteration are those of the modulo and of [handle]. *)
Lemma loop_exceptions (ticks : list main.tick) :
  forall (l : main.locals) (w : World) (e : exn),
  fst (fst (main.loop cfg imencode predict draw_overlays ticks l w)) = Some (Raised e) ->
  e = ZeroDivisionError \/ clip_opens cfg = Raised e.
Proof.
  induction ticks as [|i ticks IH]; intros l w e; simpl; [discriminate|].
  assert (Hit : forall e0,
            fst (fst (main.iteration cfg imencode predict draw_overlays i l w)) = Raised e0 ->
            e0 = ZeroDivisionError \/ clip_opens cfg = Raised e0).
  { intros e0. unfold main.iteration.
    destruct (main.cap_read i) as [frame|]; [|discriminate].
    cbn [main.paused main.event_handler main.detections main.alert_active
         main.conf_thresh main.frame_count].
    destruct (main.paused l).
    { repeat match goal with
             | |- context [if ?b then _ else _] => destruct b
             end; discriminate. }
    unfold mod_.
    destruct (FRAME_SKIP cfg =? 0); [intros H; inversion H; auto|].
    assert (Hh : forall dets w0 oh h wh,
              EventHandler.handle cfg imencode (main.now i) (main.iso_ts i) frame dets
                (main.event_handler l) w0 = (oh, h, wh) ->
              forall e1, oh = Raised e1 -> clip_opens cfg = Raised e1).
    { intros dets w0 oh h wh Hcall e1 ->.
      pose proof (handle_effects cfg imencode
                    (mkCall (main.now i) (main.iso_ts i) frame dets)
                    (main.event_handler l) w0) as He.
      unfold handle_call in He. cbn [c_now c_iso_ts c_frame c_detections] in He.
      rewrite Hcall in He.
      destruct He as (_ & _ & _ & [(_ & _ & _ & _ & r & Hr)|(_ & _ & _ & _ & Hraise)]);
        [discriminate|].
      exact (proj1 (Hraise e1 eq_refl)). }
    unfold main.detect.
    destruct (_ =? 0);
      cbn [main.event_handler main.paused main.detections main.alert_active
           main.conf_thresh main.frame_count];
      match goal with
      | |- context [EventHandler.handle cfg imencode ?n ?t ?f ?d ?s ?w0] =>
          pose proof (Hh d w0) as Hh';
          destruct (EventHandler.handle cfg imencode n t f d s w0) as [[oh h] wh]
      end;
      specialize (Hh' _ _ _ eq_refl);
      (destruct oh as [a|e1];
       [repeat match goal with
               | |- context [if ?b then _ else _] => destruct b
               end; discriminate
       |intros H; inversion H; subst; right; apply Hh'; reflexivity]). }
  destruct (main.iteration cfg imencode predict draw_overlays i l w) as [[o l1] w1].
  cbn [fst] in Hit.
  destruct o as [[|]|e0]; cbn [fst].
  - apply IH.
  - discriminate.
  - intros H. inversion H; subst. apply Hit. reflexivity.
Qed.

(** With the clip bookkeeping in place, at most one video writer is
    unreleased. *)
Lemma clip_inv_one_open (active : option ClipWriter.t) (w : World) :
  clip_inv cfg active w ->
  exists k, forall j v,
    nth_error (writers w) j = Some v -> vw_released v = false -> j = k.
Proof.
  intros [Hopen _]. destruct active as [c|].
  - exists (ClipWriter._writer c). intros j v Hj Hr.
    destruct (Hopen j v Hj Hr) as (c' & Hc' & <-). congruence.
  - exists 0%nat. intros j v Hj Hr.
    destruct (Hopen j v Hj Hr) as (c' & Hc' & _). discriminate.
Qed.

(** X15.  [main] shuts the handler down when, and only when, the camera
    opened.  If [open_camera] cannot open the camera, [main] leaves by
    [sys.exit(1)] with the handler constructed and the session announced,
    and [shutdown] never runs: the state is the one [EventHandler()] left,
    with no record added to the log.  If the camera opened, then while
    the loop runs at most one video writer is unreleased, and however the
    loop ends (Q is pressed, or an iteration raises) the [finally] block
    has shut the handler down: the last log record is the session-end
    record, no clip is active, at most one video writer is unreleased, and
    none is when the loop did not end by an exception. *)
Theorem main_shuts_down_unless_the_camera_fails
    (isOpened : bool) (ticks : list main.tick) (w0 : World) :
  writers w0 = [] ->
  match main.main cfg imencode predict draw_overlays isOpened ticks w0 with
  | (main.Exited e h, w) =>
      isOpened = false
      /\ e = SystemExit 1
      /\ (h, w) = EventHandler.__init__ cfg w0
      /\ log w = log w0
      /\ threads w =
         threads w0
         ++ (if notifier._is_configured cfg then [Thread_send_text MsgSessionStart] else [])
  | (main.InLoop l, w) =>
      isOpened = true
      /\ (List.length (open_writers w) <= 1)%nat
  | (main.Finished o l, w) =>
      isOpened = true
      /\ last (log w) (mkLogRecord WARNING LogTelegramNotConfigured)
         = mkLogRecord INFO LogSessionEnded
      /\ EventHandler._active_clip (main.event_handler l) = None
      /\ (List.length (open_writers w) <= 1)%nat
      /\ (o = Returned tt -> open_writers w = [])
  end.
Proof.
  intros Hw0. unfold main.main.
  destruct (init_state cfg w0) as (Hself & _ & Hwr).
  assert (Hstart : log (snd (EventHandler.__init__ cfg w0)) = log w0
                   /\ threads (snd (EventHandler.__init__ cfg w0)) =
                      threads w0
                      ++ (if notifier._is_configured cfg
                          then [Thread_send_text MsgSessionStart] else [])).
  { unfold EventHandler.__init__, notifier.send_session_start, start_thread.
    destruct (notifier._is_configured cfg); cbn [negb snd log threads];
      rewrite ?app_nil_r; auto. }
  destruct (EventHandler.__init__ cfg w0) as [h0 w1]. cbn [fst snd] in Hself, Hwr, Hstart.
  destruct isOpened; cbn [main.open_camera negb].
  2:{ (* the camera did not open *)
      destruct Hstart as [Hlog Hthr]. repeat split; assumption. }
  assert (Hinv0 : clip_inv cfg (EventHandler._active_clip h0) w1).
  { subst h0. unfold clip_inv. rewrite Hwr, Hw0. split.
    - intros j v Hj. destruct j; discriminate.
    - intros c Hc. discriminate. }
  pose proof (loop_inv ticks
                (main.mkLocals h0 false 0 [] false (CONFIDENCE_THRESH w1)) w1 Hinv0) as Hloop.
  pose proof (loop_exceptions ticks
                (main.mkLocals h0 false 0 [] false (CONFIDENCE_THRESH w1)) w1) as Hexn.
  destruct (main.loop cfg imencode predict draw_overlays ticks _ w1) as [[[o|] l] w].
  2:{ (* the readings are used up: still looping *)
      split; [reflexivity|].
      destruct (clip_inv_one_open _ _ Hloop) as [k Hk]. unfold open_writers.
      apply (filter_at_most_one _ _ k).
      intros j v Hj Hr. apply negb_true_iff in Hr. eauto. }
  cbn [fst] in Hexn.
  (* the [except] clause catches nothing the loop raises *)
  assert (Hexcept : match o with
                    | Raised KeyboardInterrupt => Returned tt
                    | _ => o
                    end = o).
  { destruct o as [u|e]; [reflexivity|].
    destruct (Hexn e eq_refl) as [->|Hopen]; [reflexivity|].
    destruct (clip_opens_exceptions cfg e Hopen) as [->|[->| ->]]; reflexivity. }
  rewrite Hexcept. clear Hexcept Hexn.
  assert (Hone : exists k, forall j v,
            nth_error (writers (snd (EventHandler.shutdown cfg (main.event_handler l) w))) j
              = Some v ->
            vw_released v = false -> j = k).
  { destruct o as [u|e].
    - pose proof (shutdown_inv cfg _ _ Hloop) as [Hopen _].
      exists 0%nat. intros j v Hj Hr.
      destruct (Hopen j v Hj Hr) as (c & Hc & Hj').
      destruct (EventHandler._active_clip (fst (EventHandler.shutdown cfg _ w))) eqn:Hs;
        [|discriminate].
      revert Hs. unfold EventHandler.shutdown.
      destruct (EventHandler._active_clip (main.event_handler l)) eqn:Ha;
        simpl; rewrite ?Ha; discriminate.
    - destruct Hloop as [k Hk]. exists k. now apply shutdown_releases_only. }
  assert (Hnone : o = Returned tt ->
            open_writers (snd (EventHandler.shutdown cfg (main.event_handler l) w)) = []).
  { intros ->.
    pose proof (shutdown_inv cfg _ _ Hloop) as [Hopen _].
    assert (Hs : EventHandler._active_clip
                   (fst (EventHandler.shutdown cfg (main.event_handler l) w)) = None).
    { unfold EventHandler.shutdown.
      destruct (EventHandler._active_clip (main.event_handler l)) eqn:Ha;
        simpl; rewrite ?Ha; reflexivity. }
    unfold open_writers. apply filter_none. intros j v Hj.
    destruct (vw_released v) eqn:Hr; [reflexivity|].
    destruct (Hopen j v Hj Hr) as (c & Hc & _). congruence. }
  assert (Hlast : last (log (snd (EventHandler.shutdown cfg (main.event_handler l) w)))
                    (mkLogRecord WARNING LogTelegramNotConfigured)
                  = mkLogRecord INFO LogSessionEnded).
  { unfold EventHandler.shutdown, notifier.send_session_end, logger_info, add_log,
      start_thread.
    destruct (EventHandler._active_clip (main.event_handler l));
      destruct (negb (notifier._is_configured cfg)); cbn [snd log];
      apply last_last. }
  assert (Hact : EventHandler._active_clip
                   (fst (EventHandler.shutdown cfg (main.event_handler l) w)) = None).
  { unfold EventHandler.shutdown.
    destruct (EventHandler._active_clip (main.event_handler l)) eqn:Ha;
      simpl; rewrite ?Ha; reflexivity. }
  destruct (EventHandler.shutdown cfg (main.event_handler l) w) as [h2 w2].
  cbn [fst snd main.event_handler] in *.
  split; [reflexivity|].
  split; [exact Hlast|]. split; [exact Hact|]. split; [|exact Hnone].
  destruct Hone as [k Hk]. unfold open_writers.
  apply (filter_at_most_one _ _ k).
  intros j v Hj Hr. apply negb_true_iff in Hr. eauto.
Qed.

End CaptureLoop.

(** ** The FPS counter *)

Lemma tick_state (now : float) (self : FPSCounter.t) :
  snd (FPSCounter.tick now self)
  = FPSCounter.mk (FPSCounter._window self)
      (if FPSCounter._window self <? len (FPSCounter._times self ++ [now])
       then tl (FPSCounter._times self ++ [now])
       else FPSCounter._times self ++ [now]).
Proof.
  unfold FPSCounter.tick. cbv zeta.
  destruct (len _ <? 2); [reflexivity|].
  destruct (0 <? _)%float; reflexivity.
Qed.

(** X16.  The counter keeps a sliding window: after any number of ticks,
    starting from a buffer no longer than the window, the buffer holds the
    most recent [window] timestamps of all those seen, oldest first (all of
    them while they are fewer), so it never grows beyond the window. *)
Theorem fps_counter_keeps_the_last_window (k : nat) (nows : list float) :
  forall ts : list float,
  (List.length ts <= k)%nat ->
  FPSCounter.ticks nows (FPSCounter.mk (Z.of_nat k) ts)
  = FPSCounter.mk (Z.of_nat k)
      (skipn (List.length (ts ++ nows) - k) (ts ++ nows))
  /\ (List.length (FPSCounter._times
                    (FPSCounter.ticks nows (FPSCounter.mk (Z.of_nat k) ts))) <= k)%nat.
Proof.
  induction nows as [|now nows IH]; intros ts Hts.
  - simpl. rewrite app_nil_r.
    replace (List.length ts - k)%nat with 0%nat by lia. simpl. auto.
  - simpl FPSCounter.ticks. rewrite tick_state.
    cbn [FPSCounter._window FPSCounter._times].
    unfold len. rewrite length_app. simpl List.length.
    destruct (Z.of_nat k <? Z.of_nat (List.length ts + 1)) eqn:Hpop.
    + (* the buffer was full: the oldest timestamp goes *)
      apply Z.ltb_lt in Hpop.
      assert (Hfull : List.length ts = k) by lia.
      destruct ts as [|t0 ts0].
      * (* a window of no timestamp *)
        simpl in Hfull. subst k. destruct (IH [] (Nat.le_refl 0)) as [IH1 IH2].
        split; [|exact IH2]. simpl tl. rewrite IH1. f_equal.
        cbn [app]. rewrite !Nat.sub_0_r.
        now rewrite !skipn_all.
      * simpl in Hfull.
        destruct (IH (ts0 ++ [now])) as [IH1 IH2];
          [rewrite length_app; simpl; lia|].
        split; [|exact IH2]. simpl tl. rewrite IH1. f_equal.
        rewrite <- app_assoc.
        change ([now] ++ nows) with (now :: nows).
        change ((t0 :: ts0) ++ now :: nows) with (t0 :: (ts0 ++ now :: nows)).
        set (L := ts0 ++ now :: nows).
        assert (HL : (k <= List.length L)%nat)
          by (unfold L; rewrite length_app; simpl; lia).
        replace (List.length (t0 :: L) - k)%nat with (S (List.length L - k))
          by (simpl List.length; lia).
        reflexivity.
    + (* room left *)
      apply Z.ltb_ge in Hpop.
      destruct (IH (ts ++ [now])) as [IH1 IH2];
        [rewrite length_app; simpl; lia|].
      split; [|exact IH2]. rewrite IH1. rewrite <- !app_assoc. reflexivity.
Qed.

Lemma positive_is_not_zero (e : float) : (0 <? e)%float = true -> (e =? 0)%float = false.
Proof.
  rewrite ltb_spec, eqb_spec. unfold SFltb, SFeqb.
  rewrite (SFcompare_swap (Prim2SF 0) (Prim2SF e)).
  destruct (SFcompare (Prim2SF 0) (Prim2SF e)) as [[ | | ]|]; simpl; congruence.
Qed.

(** X17.  [tick] never divides by zero: the division is made only when the
    span between the oldest and the newest timestamp is positive, and
    [tick] answers 0.0 otherwise; in particular a counter with an empty
    buffer, and a counter whose window is 1 or less, answer 0.0. *)
Theorem fps_tick_never_divides_by_zero (now : float) (self : FPSCounter.t) :
  fst (FPSCounter.tick now self) <> Raised ZeroDivisionError
  /\ fst (FPSCounter.tick now self) <> Raised ValueError
  /\ (FPSCounter._times self = []
      \/ (FPSCounter._window self <= 1 /\ (List.length (FPSCounter._times self) <= 1)%nat) ->
      fst (FPSCounter.tick now self) = Returned 0%float).
Proof.
  unfold FPSCounter.tick. cbv zeta.
  set (times := if FPSCounter._window self <? len (FPSCounter._times self ++ [now])
                then tl (FPSCounter._times self ++ [now])
                else FPSCounter._times self ++ [now]).
  assert (Hdiv : forall n e, (0 <? e)%float = true ->
            truediv_int_float n e <> Raised ZeroDivisionError
            /\ truediv_int_float n e <> Raised ValueError).
  { intros n e He. unfold truediv_int_float, float_of_int.
    rewrite (positive_is_not_zero e He).
    destruct (is_infinity _); simpl; split; discriminate. }
  split; [|split].
  - destruct (len times <? 2); [discriminate|].
    destruct (0 <? _)%float eqn:He; [|discriminate].
    simpl. apply Hdiv. exact He.
  - destruct (len times <? 2); [discriminate|].
    destruct (0 <? _)%float eqn:He; [|discriminate].
    simpl. apply Hdiv. exact He.
  - intros Hsmall.
    assert (Hshort : (len times <? 2) = true).
    { apply Z.ltb_lt. unfold times, len. rewrite length_app. simpl List.length.
      destruct Hsmall as [Hnil|[Hwin Hlen]].
      - rewrite Hnil. simpl. destruct (FPSCounter._window self <? 1); simpl; lia.
      - destruct (FPSCounter._window self <? Z.of_nat (List.length (FPSCounter._times self) + 1))
          eqn:Hpop.
        + destruct (FPSCounter._times self) as [|t0 ts0]; simpl in *; [lia|].
          rewrite length_app. simpl. lia.
        + apply Z.ltb_ge in Hpop. rewrite length_app. simpl. lia. }
    rewrite Hshort. reflexivity.
Qed.

(** ** X18, X19: departure, and the time a person was last seen *)

(** X18.  A person is present; a call without a detection comes at least
    [ABSENCE_GRACE_SECONDS] after the person was last seen, and the next
    call carries a detection with the cooldown over.  Then the first call
    records the departure and the second fires exactly one new event: the
    run of the two ends with the person present again, one event more,
    and the time of the second call as the new debounce anchor. *)
Theorem departure_then_arrival_fires_again
    (cfg : Config) (imencode : Frame -> option (list Z))
    (gone back : call) (self : EventHandler.t) (w : World) :
  EventHandler._person_present self = true ->
  c_detections gone = [] ->
  (ABSENCE_GRACE_SECONDS cfg
   <=? c_now gone - EventHandler._last_seen_time self)%float = true ->
  c_detections back <> [] ->
  cooldown_ok cfg back self = true ->
  let '(o, self', w') := run cfg imencode [gone; back] self w in
  events_fired w' = S (events_fired w)
  /\ EventHandler._person_present self' = true
  /\ EventHandler._last_event_time self' = c_now back
  /\ EventHandler._last_seen_time self' = c_now back
  /\ In (mkLogRecord INFO LogPersonLeft) (log w').
Proof.
  intros Hpres Hgone Hgrace Hback Hgate.
  (* the first call: the departure *)
  simpl run. unfold handle_call at 1. rewrite handle_after_feed, Hgone.
  pose proof (feed_presence (c_frame gone) self w) as Hp.
  pose proof (feed_world (c_frame gone) self w) as Hw.
  destruct (feed_active_clip (c_frame gone) self w) as [self1 w1].
  destruct Hp as (Hp1 & Hp2 & Hp3). destruct Hw as (Hw1 & _).
  rewrite len_nil. cbv beta iota zeta.
  rewrite Hp1, Hp3, Hpres, Hgrace. cbn [andb]. cbv beta iota zeta.
  (* the second call: an arrival with the gate open *)
  set (self2 := EventHandler.set_person_present false self1).
  set (w2 := logger_info LogPersonLeft w1).
  assert (Hgate2 : cooldown_ok cfg back self2 = true).
  { unfold cooldown_ok in *. simpl. rewrite Hp2. exact Hgate. }
  assert (Hev2 : events_fired w2 = events_fired w).
  { unfold w2, logger_info. rewrite events_fired_add_log. simpl. lia. }
  assert (Hleft : In (mkLogRecord INFO LogPersonLeft) (log w2)).
  { unfold w2, logger_info, add_log. cbn [log]. apply in_or_app. right. left. reflexivity. }
  pose proof (handle_fires_at_most_once cfg imencode back self2 w2) as Hf.
  pose proof (handle_effects cfg imencode back self2 w2) as He.
  assert (Hseen : let '(_, s, _) := handle_call cfg imencode back self2 w2 in
                  EventHandler._last_seen_time s = c_now back
                  /\ events_fired (snd (handle_call cfg imencode back self2 w2))
                     = S (events_fired w2)).
  { unfold handle_call, cooldown_ok in *. rewrite handle_after_feed.
    pose proof (feed_presence (c_frame back) self2 w2) as Hq.
    pose proof (feed_world (c_frame back) self2 w2) as Hv.
    destruct (feed_active_clip (c_frame back) self2 w2) as [self3 w3].
    destruct Hq as (Hq1 & Hq2 & Hq3). destruct Hv as (Hv1 & _).
    rewrite (len_pos _ Hback).
    cbn [EventHandler._person_present EventHandler.set_last_seen_time
         EventHandler._last_event_time].
    rewrite Hq1, Hq2, Hgate2. simpl negb. cbv beta iota zeta.
    match goal with
    | |- context [EventHandler._fire_event cfg imencode ?f ?d ?n ?t ?s ?w0] =>
        pose proof (fire_event_once cfg imencode f d n t s w0) as Hfe;
        destruct (EventHandler._fire_event cfg imencode f d n t s w0) as [[o3 self4] w4]
    end.
    destruct Hfe as (Hfe1 & _ & _ & Hfe4 & _). simpl in Hfe4.
    destruct o3; cbv beta iota zeta; simpl; split; congruence. }
  destruct (handle_call cfg imencode back self2 w2) as [[o self3] w3].
  destruct Hseen as [Hseen Hfired]. simpl in Hfired.
  destruct He as ([l3 Hlog] & _ & _ & Hcase).
  destruct Hcase as [(E1 & _)|(E1 & _ & _ & E4 & _)]; [lia|].
  destruct Hf as [(F1 & _)|(_ & _ & _ & F4 & _)]; [lia|].
  assert (Hin : In (mkLogRecord INFO LogPersonLeft) (log w3))
    by (rewrite Hlog; apply in_or_app; left; exact Hleft).
  destruct o as [r|e]; simpl; repeat split; try assumption; lia.
Qed.

(** X19.  [_last_seen_time] is the time of the latest call that carried a
    detection: a call with a detection sets it to the time of the call,
    whether or not an event fires and even if the call raises, and a call
    without one leaves it as it was. *)
Theorem last_seen_is_the_latest_detection
    (cfg : Config) (imencode : Frame -> option (list Z))
    (c : call) (self : EventHandler.t) (w : World) :
  let '(_, self', _) := handle_call cfg imencode c self w in
  EventHandler._last_seen_time self' =
  match c_detections c with
  | [] => EventHandler._last_seen_time self
  | _ :: _ => c_now c
  end.
Proof.
  unfold handle_call. rewrite handle_after_feed.
  pose proof (feed_presence (c_frame c) self w) as Hp.
  destruct (feed_active_clip (c_frame c) self w) as [self1 w1].
  destruct Hp as (_ & _ & Hp3).
  destruct (c_detections c) as [|d ds] eqn:Hd.
  - rewrite len_nil. cbv beta iota zeta.
    destruct (_ && _); cbv beta iota zeta; exact Hp3.
  - rewrite (len_pos (d :: ds)) by discriminate.
    cbn [EventHandler._person_present EventHandler.set_last_seen_time
         EventHandler._last_event_time].
    destruct (negb _); cbv beta iota zeta; [|reflexivity].
    destruct (_ <=? _)%float; cbv beta iota zeta; [|reflexivity].
    match goal with
    | |- context [EventHandler._fire_event cfg imencode ?f ?d ?n ?t ?s ?w0] =>
        pose proof (fire_event_once cfg imencode f d n t s w0) as Hfe;
        destruct (EventHandler._fire_event cfg imencode f d n t s w0) as [[o self2] w2]
    end.
    destruct Hfe as (_ & _ & _ & Hfe4 & _). simpl in Hfe4.
    destruct o; cbv beta iota zeta; exact Hfe4.
Qed.

(** ** The further properties at concrete sessions *)

Lemma run_only_appends_witness :
  nth_error (writers recording_world) 0 = Some recording_writer
  /\ (let '(_, _, w') :=
        run two_frame_config (fun _ => None) [person_call]
          recording_handler recording_world in
      exists v', nth_error (writers w') 0 = Some v'
                 /\ writer_extends recording_writer v').
Proof.
  split; [reflexivity|].
  pose proof (run_only_appends two_frame_config (fun _ => None) [person_call]
                recording_handler recording_world) as H.
  destruct (run two_frame_config (fun _ => None) [person_call]
              recording_handler recording_world) as [[o s] w'].
  exact (proj2 (proj2 (proj2 H)) 0%nat recording_writer eq_refl).
Defined.

Lemma one_notification_per_event_witness :
  fst (fst (run twenty_frame_config (fun _ => None) [person_call; person_call]
              (EventHandler.mk 0 None false 0) empty_world)) = Returned tt
  /\ exists k,
       events_fired (snd (run twenty_frame_config (fun _ => None)
                            [person_call; person_call]
                            (EventHandler.mk 0 None false 0) empty_world))
       = (events_fired empty_world + k)%nat
       /\ List.length (threads (snd (run twenty_frame_config (fun _ => None)
                                       [person_call; person_call]
                                       (EventHandler.mk 0 None false 0) empty_world)))
          = (List.length (threads empty_world)
             + (if notifier._is_configured twenty_frame_config then k else 0))%nat.
Proof.
  split; [reflexivity|].
  exact (proj2 (one_notification_per_event twenty_frame_config (fun _ => None))
           [person_call; person_call] (EventHandler.mk 0 None false 0) empty_world
           eq_refl).
Defined.

Lemma handle_raises_only_opening_a_clip_witness :
  (String.length (CLIP_CODEC default_config) = 4%nat
   /\ exists a b, CLIP_DURATION_S default_config = Int a /\ CLIP_FPS default_config = Int b)
  /\ (exists self' w',
        run default_config (fun _ => None) [person_call; empty_call 101]
          (EventHandler.mk 0 None false 0) empty_world = (Returned tt, self', w'))
  /\ SAVE_CLIPS short_codec_config = true
  /\ String.length (CLIP_CODEC short_codec_config) <> 4%nat
  /\ cooldown_ok short_codec_config person_call (EventHandler.mk 0 None false 0) = true
  /\ (exists self' w',
        handle_call short_codec_config (fun _ => None) person_call
          (EventHandler.mk 0 None false 0) empty_world = (Raised TypeError, self', w')).
Proof.
  assert (Hints : exists a b, CLIP_DURATION_S default_config = Int a
                              /\ CLIP_FPS default_config = Int b).
  { exists 8, 20. split; reflexivity. }
  assert (Hshort : String.length (CLIP_CODEC short_codec_config) <> 4%nat)
    by discriminate.
  assert (Hdets : c_detections person_call <> []) by discriminate.
  split; [split; [reflexivity|exact Hints]|].
  split.
  { exact (proj1 (handle_raises_only_opening_a_clip default_config (fun _ => None))
             (or_intror (conj eq_refl (or_introl Hints)))
             [person_call; empty_call 101] (EventHandler.mk 0 None false 0) empty_world). }
  split; [reflexivity|]. split; [exact Hshort|]. split; [reflexivity|].
  exact (proj2 (proj2 (handle_raises_only_opening_a_clip short_codec_config (fun _ => None)))
           person_call (EventHandler.mk 0 None false 0) empty_world
           eq_refl Hshort Hdets eq_refl eq_refl eq_refl).
Defined.

Lemma clip_holds_the_frames_from_the_trigger_witness :
  reachable two_frame_config (fun _ => None)
    (fst (EventHandler.__init__ two_frame_config empty_world))
    (snd (EventHandler.__init__ two_frame_config empty_world))
  /\ cooldown_ok two_frame_config person_call
       (fst (EventHandler.__init__ two_frame_config empty_world)) = true
  /\ String.length (CLIP_CODEC two_frame_config) = 4%nat
  /\ clip_frames two_frame_config = Returned 2
  /\ Z.max 1 (2 - 1) <= Z.of_nat (List.length [empty_call 101])
  /\ exists self' w' v,
       run two_frame_config (fun _ => None) (person_call :: [empty_call 101])
         (fst (EventHandler.__init__ two_frame_config empty_world))
         (snd (EventHandler.__init__ two_frame_config empty_world))
       = (Returned tt, self', w')
       /\ nth_error (writers w')
            (List.length (writers (snd (EventHandler.__init__ two_frame_config empty_world))))
          = Some v
       /\ vw_released v = true
       /\ vw_filename v = clip_path two_frame_config (c_iso_ts person_call)
       /\ vw_frames v = firstn (Z.to_nat 2) (map c_frame (person_call :: [empty_call 101])).
Proof.
  assert (Hreach : reachable two_frame_config (fun _ => None)
                     (fst (EventHandler.__init__ two_frame_config empty_world))
                     (snd (EventHandler.__init__ two_frame_config empty_world)))
    by (apply reach_init; reflexivity).
  assert (Hdets : c_detections person_call <> []) by discriminate.
  assert (Hlen : Z.max 1 (2 - 1) <= Z.of_nat (List.length [empty_call 101]))
    by (apply Z.le_refl).
  split; [exact Hreach|]. split; [reflexivity|]. split; [reflexivity|].
  split; [reflexivity|]. split; [exact Hlen|].
  exact (clip_holds_the_frames_from_the_trigger two_frame_config (fun _ => None)
           _ _ person_call [empty_call 101] 2 Hreach eq_refl eq_refl Hdets
           eq_refl eq_refl eq_refl eq_refl Hlen).
Defined.


Lemma no_clips_no_video_writer_witness :
  SAVE_CLIPS no_clip_config = false
  /\ reachable no_clip_config (fun _ => None) (EventHandler.mk 100 None true 100)
       (snd (handle_call no_clip_config (fun _ => None) person_call
               (EventHandler.mk 0 None false 0) empty_world))
  /\ writers (snd (handle_call no_clip_config (fun _ => None) person_call
                     (EventHandler.mk 0 None false 0) empty_world)) = []
  /\ EventHandler._active_clip (EventHandler.mk 100 None true 100) = None.
Proof.
  assert (Hreach : reachable no_clip_config (fun _ => None)
                     (EventHandler.mk 100 None true 100)
                     (snd (handle_call no_clip_config (fun _ => None) person_call
                             (EventHandler.mk 0 None false 0) empty_world))).
  { apply (reach_handle no_clip_config (fun _ => None)
             (fst (EventHandler.__init__ no_clip_config empty_world))
             (snd (EventHandler.__init__ no_clip_config empty_world))
             person_call true).
    - apply reach_init. reflexivity.
    - reflexivity. }
  split; [reflexivity|]. split; [exact Hreach|].
  exact (no_clips_no_video_writer no_clip_config (fun _ => None) _ _ eq_refl Hreach).
Defined.

Lemma write_all_fills_the_clip_witness :
  let clip := ClipWriter.mk 0 2 1 "outputs/clips/clip_2026-01-01T00-00-00Z.mp4" in
  nth_error (writers recording_world) (ClipWriter._writer clip) = Some recording_writer
  /\ vw_released recording_writer = false
  /\ (let '(clip', w') :=
        write_all clip [person_frame; person_frame; person_frame] recording_world in
      ClipWriter._written clip' = 2
      /\ nth_error (writers w') 0
         = Some (mkVideoWriter "outputs/clips/clip_2026-01-01T00-00-00Z.mp4" "mp4v"
                   (Int 1) (2, 2) [person_frame; person_frame] false)).
Proof.
  intros clip. split; [reflexivity|]. split; [reflexivity|].
  pose proof (write_all_fills_the_clip [person_frame; person_frame; person_frame]
                clip recording_world recording_writer eq_refl eq_refl) as H.
  cbv zeta in H.
  destruct (write_all clip [person_frame; person_frame; person_frame] recording_world)
    as [clip' w'].
  destruct H as (H1 & H2 & _).
  split; [rewrite H1; reflexivity|exact H2].
Defined.

Lemma short_gaps_do_not_end_a_visit_witness :
  EventHandler._person_present (EventHandler.mk 100 None true 100) = true
  /\ visit_continues default_config
       (EventHandler._last_seen_time (EventHandler.mk 100 None true 100))
       [empty_call 101; person_call]
  /\ exists self' w',
       run default_config (fun _ => None) [empty_call 101; person_call]
         (EventHandler.mk 100 None true 100) empty_world = (Returned tt, self', w')
       /\ events_fired w' = events_fired empty_world
       /\ EventHandler._person_present self' = true
       /\ EventHandler._last_event_time self'
          = EventHandler._last_event_time (EventHandler.mk 100 None true 100).
Proof.
  assert (Hvisit : visit_continues default_config
                     (EventHandler._last_seen_time (EventHandler.mk 100 None true 100))
                     [empty_call 101; person_call])
    by (split; [reflexivity|exact I]).
  split; [reflexivity|]. split; [exact Hvisit|].
  exact (short_gaps_do_not_end_a_visit default_config (fun _ => None)
           [empty_call 101; person_call] (EventHandler.mk 100 None true 100)
           empty_world eq_refl Hvisit).
Defined.

Lemma configured_notifier_starts_one_thread_witness :
  notifier._is_configured twenty_frame_config = true
  /\ notifier.send_alert twenty_frame_config (fun _ => None) (Some person_frame)
       (c_detections person_call) "2026-01-01 00-00-00 UTC" empty_world
     = start_thread
         (Thread_send_text
            (MsgAlert (mkCaption "2026-01-01 00-00-00 UTC" 1 [0.5%float]))) empty_world
  /\ notifier.send_session_start twenty_frame_config empty_world
     = start_thread (Thread_send_text MsgSessionStart) empty_world.
Proof.
  split; [reflexivity|].
  pose proof (proj2 (configured_notifier_starts_one_thread twenty_frame_config
                       (fun _ => None) (Some person_frame) (c_detections person_call)
                       "2026-01-01 00-00-00 UTC" empty_world) eq_refl) as H.
  cbv zeta in H. destruct H as (H1 & _ & H3 & _).
  split; [exact H1|exact H3].
Defined.

Lemma paused_frames_bypass_the_tracker_witness :
  let paused := main.mkLocals (EventHandler.mk 0 None false 0) true 7 [] false
                  (CONFIDENCE_THRESH empty_world) in
  main.cap_read (person_tick 32) = Some person_frame
  /\ main.paused paused = true
  /\ main.iteration default_config (fun _ => None) always_a_person no_overlay
       (person_tick 32) paused empty_world
     = (Returned main.Continue,
        main.mkLocals (EventHandler.mk 0 None false 0) false 8 [] false
          (CONFIDENCE_THRESH empty_world),
        empty_world).
Proof.
  intros paused. split; [reflexivity|]. split; [reflexivity|].
  exact (proj2 (paused_frames_bypass_the_tracker default_config (fun _ => None)
                  always_a_person no_overlay (person_tick 32) paused empty_world)
           person_frame eq_refl eq_refl).
Defined.

Lemma threshold_keys_stay_in_bounds_witness :
  CONFIDENCE_THRESH empty_world = main.conf_thresh fresh_locals
  /\ (let '(_, l', w') :=
        main.iteration default_config (fun _ => None) always_a_person no_overlay
          (person_tick 43) fresh_locals empty_world in
      CONFIDENCE_THRESH w' = main.conf_thresh l').
Proof.
  split; [reflexivity|].
  pose proof (threshold_keys_stay_in_bounds default_config (fun _ => None)
                always_a_person no_overlay (person_tick 43) fresh_locals empty_world) as H.
  destruct (main.iteration default_config (fun _ => None) always_a_person no_overlay
              (person_tick 43) fresh_locals empty_world) as [[o l'] w'].
  exact (proj1 H eq_refl).
Defined.

Lemma zero_frame_skip_stops_the_loop_witness :
  FRAME_SKIP zero_skip_config = 0
  /\ main.cap_read (person_tick 255) = Some person_frame
  /\ main.paused fresh_locals = false
  /\ main.iteration zero_skip_config (fun _ => None) always_a_person no_overlay
       (person_tick 255) fresh_locals empty_world
     = (Raised ZeroDivisionError,
        main.mkLocals (EventHandler.mk 0 None false 0) false 1 [] false
          (CONFIDENCE_THRESH empty_world),
        empty_world)
  /\ main.main zero_skip_config (fun _ => None) always_a_person no_overlay true
       [person_tick 255; person_tick 255] empty_world
     = (main.Finished (Raised ZeroDivisionError)
          (main.mkLocals (EventHandler.mk 0 None false 0) false 1 [] false
             (CONFIDENCE_THRESH empty_world)),
        logger_info LogSessionEnded empty_world).
Proof.
  pose proof (zero_frame_skip_stops_the_loop zero_skip_config (fun _ => None)
                always_a_person no_overlay (person_tick 255) [person_tick 255]
                fresh_locals empty_world person_frame eq_refl eq_refl) as [H1 H2].
  split; [reflexivity|]. split; [reflexivity|]. split; [reflexivity|].
  split; [exact (H1 eq_refl)|].
  rewrite H2. reflexivity.
Defined.

Lemma main_shuts_down_unless_the_camera_fails_witness :
  writers empty_world = []
  /\ main.main default_config (fun _ => None) always_a_person no_overlay false
       [person_tick 255; person_tick 113] empty_world
     = (main.Exited (SystemExit 1) (EventHandler.mk 0 None false 0), empty_world)
  /\ match main.main default_config (fun _ => None) always_a_person no_overlay true
             [person_tick 255; person_tick 113] empty_world with
     | (main.Finished o l, w) =>
         o = Returned tt
         /\ last (log w) (mkLogRecord WARNING LogTelegramNotConfigured)
            = mkLogRecord INFO LogSessionEnded
         /\ EventHandler._active_clip (main.event_handler l) = None
         /\ open_writers w = []
     | _ => False
     end.
Proof.
  split; [reflexivity|].
  pose proof (main_shuts_down_unless_the_camera_fails default_config (fun _ => None)
                always_a_person no_overlay false [person_tick 255; person_tick 113]
                empty_world eq_refl) as Hfail.
  pose proof (main_shuts_down_unless_the_camera_fails default_config (fun _ => None)
                always_a_person no_overlay true [person_tick 255; person_tick 113]
                empty_world eq_refl) as Hopen.
  split.
  - destruct (main.main default_config (fun _ => None) always_a_person no_overlay false
                [person_tick 255; person_tick 113] empty_world) as [[e h|l|o l] w];
      [|destruct Hfail as [Habs _]; discriminate Habs
       |destruct Hfail as [Habs _]; discriminate Habs].
    destruct Hfail as (_ & -> & Hinit & _).
    vm_compute in Hinit. inversion Hinit. reflexivity.
  - destruct (main.main default_config (fun _ => None) always_a_person no_overlay true
                [person_tick 255; person_tick 113] empty_world) as [[e h|l|o l] w] eqn:Hmain;
      [destruct Hopen as [Habs _]; discriminate Habs
      |discriminate Hmain|].
    destruct Hopen as (_ & H1 & H2 & _ & H4).
    assert (Ho : o = Returned tt).
    { vm_compute in Hmain. inversion Hmain. reflexivity. }
    split; [exact Ho|]. split; [exact H1|]. split; [exact H2|exact (H4 Ho)].
Defined.

Lemma fps_counter_keeps_the_last_window_witness :
  (List.length (@nil float) <= 2)%nat
  /\ FPSCounter.ticks [1; 2; 3]%float (FPSCounter.mk (Z.of_nat 2) [])
     = FPSCounter.mk (Z.of_nat 2)
         (skipn (List.length ([] ++ [1; 2; 3]%float) - 2) ([] ++ [1; 2; 3]%float)).
Proof.
  split; [exact (Nat.le_0_l 2)|].
  exact (proj1 (fps_counter_keeps_the_last_window 2 [1; 2; 3]%float [] (Nat.le_0_l 2))).
Defined.

Lemma fps_tick_never_divides_by_zero_witness :
  FPSCounter._times (FPSCounter.__init__ 30) = []
  /\ fst (FPSCounter.tick 100 (FPSCounter.__init__ 30)) = Returned 0%float.
Proof.
  split; [reflexivity|].
  exact (proj2 (proj2 (fps_tick_never_divides_by_zero 100 (FPSCounter.__init__ 30)))
           (or_introl eq_refl)).
Defined.

Lemma departure_then_arrival_fires_again_witness :
  let present := EventHandler.mk 0 None true 5 in
  EventHandler._person_present present = true
  /\ c_detections (empty_call 7) = []
  /\ (ABSENCE_GRACE_SECONDS default_config
      <=? c_now (empty_call 7) - EventHandler._last_seen_time present)%float = true
  /\ c_detections person_call <> []
  /\ cooldown_ok default_config person_call present = true
  /\ (let '(o, self', w') :=
        run default_config (fun _ => None) [empty_call 7; person_call]
          present empty_world in
      events_fired w' = S (events_fired empty_world)
      /\ EventHandler._person_present self' = true
      /\ EventHandler._last_event_time self' = c_now person_call
      /\ EventHandler._last_seen_time self' = c_now person_call
      /\ In (mkLogRecord INFO LogPersonLeft) (log w')).
Proof.
  intros present.
  assert (Hdets : c_detections person_call <> []) by discriminate.
  split; [reflexivity|]. split; [reflexivity|]. split; [reflexivity|].
  split; [exact Hdets|]. split; [reflexivity|].
  exact (departure_then_arrival_fires_again default_config (fun _ => None)
           (empty_call 7) person_call present empty_world
           eq_refl eq_refl eq_refl Hdets eq_refl).
Defined.
